(** * MySQL to ClickHouse row migrator (clickhouse_mysql_map-b/main.py)

    A shallow embedding of the migrator's type mapper, value coercer,
    ClickHouse client and per-table orchestrator, with the properties the
    design document states about them.

    Conventions.
    - Type descriptors, identifiers, SQL text and messages are [string]s:
      a Python [str] is held as its UTF-8 text.  Type descriptors are ASCII
      in practice (MySQL's [DATA_TYPE] column, ClickHouse type names); on
      ASCII text Python's [str.upper] / [str.lower] are the maps [upper] /
      [lower] below.  The keywords the code searches for are ASCII, so bytes
      above 127 never take part in a match.
    - Cell text (the [str] values read from MySQL rows and from the cells of
      a mapping file) is a list of Unicode code points, because the
      sanitizer inspects [ord(char)] and the UTF-8 encodability of the text,
      and [str.strip] removes Unicode white space.
    - A Python exception is a value of [exn]; code that can raise returns
      [result]. *)

From Stdlib Require Import ZArith NArith Ascii String List Lia Bool.
From Stdlib Require Import DecimalString DecimalNat SpecFloat.
From stdpp Require Import gmap strings list.

Local Open Scope Z_scope.

(** ** Python strings on ASCII text *)

Module PyStr.

Definition upper_ascii (c : ascii) : ascii :=
  let n := N_of_ascii c in
  if ((97 <=? n) && (n <=? 122))%N then ascii_of_N (n - 32) else c.

Definition lower_ascii (c : ascii) : ascii :=
  let n := N_of_ascii c in
  if ((65 <=? n) && (n <=? 90))%N then ascii_of_N (n + 32) else c.

(** [s.upper()] and [s.lower()] *)
Fixpoint upper (s : string) : string :=
  match s with
  | EmptyString => EmptyString
  | String c r => String (upper_ascii c) (upper r)
  end.

Fixpoint lower (s : string) : string :=
  match s with
  | EmptyString => EmptyString
  | String c r => String (lower_ascii c) (lower r)
  end.

(** [s.split(sep)[0]] for a one-character separator: the text before the
    first occurrence of [sep], or all of [s] when there is none. *)
Fixpoint split_head (sep : ascii) (s : string) : string :=
  match s with
  | EmptyString => EmptyString
  | String c r => if Ascii.eqb c sep then EmptyString else String c (split_head sep r)
  end.

(** [str.isspace] on one ASCII character: TAB, LF, VT, FF, CR, the four
    separators FS GS RS US, and the blank. *)
Definition isspace (c : ascii) : bool :=
  let n := N_of_ascii c in
  (((9 <=? n) && (n <=? 13)) || ((28 <=? n) && (n <=? 31)) || (n =? 32))%N.

Fixpoint lstrip (s : string) : string :=
  match s with
  | EmptyString => EmptyString
  | String c r => if isspace c then lstrip r else s
  end.

(** drops trailing white space: a character is kept when it is not white
    space or when something is kept after it *)
Fixpoint rstrip (s : string) : string :=
  match s with
  | EmptyString => EmptyString
  | String c r =>
      match rstrip r with
      | EmptyString => if isspace c then EmptyString else String c EmptyString
      | r' => String c r'
      end
  end.

(** [s.strip()] *)
Definition strip (s : string) : string := rstrip (lstrip s).

(** [s.startswith(p)] *)
Fixpoint startswith (p s : string) : bool :=
  match p, s with
  | EmptyString, _ => true
  | String a p', String b s' => Ascii.eqb a b && startswith p' s'
  | String _ _, EmptyString => false
  end.

(** [sub in s] *)
Fixpoint contains (sub s : string) : bool :=
  startswith sub s ||
  match s with
  | EmptyString => false
  | String _ r => contains sub r
  end.

(** [s.find(c)] for a one-character needle: the index of the first
    occurrence, or -1. *)
Fixpoint find_from (c : ascii) (s : string) (i : Z) : Z :=
  match s with
  | EmptyString => -1
  | String a r => if Ascii.eqb a c then i else find_from c r (i + 1)
  end.

Definition find (c : ascii) (s : string) : Z := find_from c s 0.

Definition len (s : string) : Z := Z.of_nat (String.length s).

(** the bound of a slice: a negative index counts from the end, and the
    result is clamped to [0, len] *)
Definition slice_index (n i : Z) : Z :=
  let j := if i <? 0 then i + n else i in
  Z.max 0 (Z.min n j).

(** [s[a:b]] *)
Definition slice (s : string) (a b : Z) : string :=
  let n := len s in
  let lo := slice_index n a in
  let hi := slice_index n b in
  String.substring (Z.to_nat lo) (Z.to_nat (hi - lo)) s.

(** [s.split(sep)] for a one-character separator *)
Fixpoint split (sep : ascii) (s : string) : list string :=
  match s with
  | EmptyString => [EmptyString]
  | String c r =>
      if Ascii.eqb c sep then EmptyString :: split sep r
      else
        match split sep r with
        | h :: t => String c h :: t
        | [] => [String c EmptyString]
        end
  end.

(** [s.replace(sub, '')] for a non-empty [sub]: [skip] counts the
    characters of a match still to be dropped *)
Fixpoint remove_sub (sub : string) (skip : nat) (s : string) : string :=
  match s with
  | EmptyString => EmptyString
  | String c r =>
      match skip with
      | S k => remove_sub sub k r
      | O =>
          if startswith sub s then remove_sub sub (String.length sub - 1) r
          else String c (remove_sub sub 0 r)
      end
  end.

(** [s.endswith(p)] *)
Definition endswith (p s : string) : bool :=
  let n := String.length s in
  let k := String.length p in
  (k <=? n)%nat && String.eqb (String.substring (n - k) k s) p.

(** [sep.join(parts)] *)
Fixpoint join (sep : string) (parts : list string) : string :=
  match parts with
  | [] => EmptyString
  | [x] => x
  | x :: rest => x +:+ sep +:+ join sep rest
  end.

(** [os.path.basename] and [os.path.join] on POSIX paths *)
Definition basename (path : string) : string := List.last (split "/" path) EmptyString.

Definition path_join (a b : string) : string :=
  if startswith "/" b then b
  else if String.eqb a EmptyString || endswith "/" a then a +:+ b
  else a +:+ "/" +:+ b.

Definition nl : string := String (ascii_of_nat 10) EmptyString.

(** [str(n)] for a natural number *)
Definition of_nat (n : nat) : string := NilZero.string_of_uint (Nat.to_uint n).

Definition isdigit (c : ascii) : bool :=
  let n := N_of_ascii c in ((48 <=? n) && (n <=? 57))%N.

Fixpoint all_digits (s : string) : bool :=
  match s with
  | EmptyString => true
  | String c r => isdigit c && all_digits r
  end.

End PyStr.

(** ** TypeMapper *)

Module TypeMapper.

(** the class attribute [TYPE_MAPPING] *)
Definition TYPE_MAPPING : gmap string string :=
  list_to_map
    [ ("TINYINT", "Int8"); ("TINYINT UNSIGNED", "UInt8");
      ("SMALLINT", "Int16"); ("SMALLINT UNSIGNED", "UInt16");
      ("MEDIUMINT", "Int32"); ("MEDIUMINT UNSIGNED", "UInt32");
      ("INT", "Int32"); ("INTEGER", "Int32");
      ("INT UNSIGNED", "UInt32"); ("INTEGER UNSIGNED", "UInt32");
      ("BIGINT", "Int64"); ("BIGINT UNSIGNED", "UInt64");
      ("YEAR", "Int16"); ("FLOAT", "Float32"); ("DOUBLE", "Float64");
      ("DECIMAL", "Decimal");
      ("CHAR", "String"); ("VARCHAR", "String"); ("TINYTEXT", "String");
      ("TEXT", "String"); ("MEDIUMTEXT", "String"); ("LONGTEXT", "String");
      ("BINARY", "String"); ("VARBINARY", "String"); ("TINYBLOB", "String");
      ("BLOB", "String"); ("MEDIUMBLOB", "String"); ("LONGBLOB", "String");
      ("DATE", "Date32"); ("TIME", "DateTime64(6)");
      ("DATETIME", "DateTime64(6)"); ("TIMESTAMP", "DateTime64(6)");
      ("ENUM", "LowCardinality(String)"); ("SET", "String");
      ("JSON", "String"); ("GEOMETRY", "String"); ("POINT", "String");
      ("LINESTRING", "String"); ("POLYGON", "String");
      ("VECTOR", "Array(Float32)") ].

Definition map_mysql_type_to_clickhouse (mysql_type : string) : string :=
  let base_type := PyStr.strip (PyStr.split_head "(" (PyStr.upper mysql_type)) in
  if PyStr.startswith "TINYINT(1)" (PyStr.upper mysql_type) then "Bool"
  else if String.eqb base_type "DECIMAL" && PyStr.contains "(" mysql_type then
    let precision_part :=
      PyStr.slice mysql_type (PyStr.find "(" mysql_type + 1) (PyStr.find ")" mysql_type) in
    "Decimal(" +:+ precision_part +:+ ")"
  else default "String" (TYPE_MAPPING !! base_type).

End TypeMapper.

(** ** Exceptions *)

Inductive exn_kind :=
| ValueError | TypeError | OverflowError | IndexError | KeyError | AttributeError
| UnicodeEncodeError | OSError | DatabaseError | PlainException.

(** a raised exception: its class and [str(e)] *)
Record exn := Exn { exn_class : exn_kind; exn_msg : string }.

Inductive result (A : Type) :=
| Ok (a : A)
| Raise (e : exn).
Arguments Ok {A} a.
Arguments Raise {A} e.

Definition is_ok {A} (r : result A) : bool :=
  match r with Ok _ => true | Raise _ => false end.

(** [raise Exception(f"{prefix}{e}")] *)
Definition reraise {A} (prefix : string) (e : exn) : result A :=
  Raise (Exn PlainException (prefix +:+ exn_msg e)).

Definition bind {A B} (r : result A) (k : A -> result B) : result B :=
  match r with
  | Ok a => k a
  | Raise e => Raise e
  end.

Notation "x <- r ;; k" := (bind r (fun x => k))
  (at level 100, r at next level, right associativity, only parsing).

Definition of_option {A} (o : option A) (e : exn) : result A :=
  match o with Some a => Ok a | None => Raise e end.

Definition exn_kind_eqb (a b : exn_kind) : bool :=
  match a, b with
  | ValueError, ValueError | TypeError, TypeError | OverflowError, OverflowError
  | IndexError, IndexError | KeyError, KeyError | AttributeError, AttributeError
  | UnicodeEncodeError, UnicodeEncodeError | OSError, OSError
  | DatabaseError, DatabaseError | PlainException, PlainException => true
  | _, _ => false
  end.

(** [try: r  except (kinds): return handler] *)
Definition try_except {A} (kinds : list exn_kind) (r : result A) (handler : A) : result A :=
  match r with
  | Ok a => Ok a
  | Raise e => if existsb (exn_kind_eqb (exn_class e)) kinds then Ok handler else Raise e
  end.

(** ** Values of a MySQL row *)

(** cell text: a Python [str] as its code points *)
Abbreviation pystr := (list N).

Record date := Date { year : Z; month : Z; day : Z }.

Record datetime := DateTime {
  dt_date : date; hour : Z; minute : Z; second : Z; microsecond : Z }.

(** What pymysql hands over for a cell.  A Python [float] is an IEEE 754
    binary64 number.  [VOther] stands for every object that is none of the
    listed classes and has neither a [strftime] nor a [date] attribute
    ([bytes], [decimal.Decimal], [datetime.timedelta]); it carries its
    [repr]. *)
Inductive value :=
| VNone
| VBool (b : bool)
| VInt (z : Z)
| VFloat (f : spec_float)
| VStr (s : pystr)
| VDate (d : date)
| VDateTime (t : datetime)
| VOther (repr : string).

Abbreviation row := (list value).

Module PyNum.

Definition prec : Z := 53.
Definition emax : Z := 1024.

Definition fzero : spec_float := S754_zero false.

(** [int(x)] for a float: truncation towards zero; NaN raises ValueError
    and an infinity OverflowError *)
Definition int_of_float (f : spec_float) : result Z :=
  match f with
  | S754_zero _ => Ok 0
  | S754_finite s m e =>
      let a := if 0 <=? e then Z.shiftl (Z.pos m) e else Z.shiftr (Z.pos m) (- e) in
      Ok (if s then - a else a)
  | S754_nan => Raise (Exn ValueError "cannot convert float NaN to integer")
  | S754_infinity _ => Raise (Exn OverflowError "cannot convert float infinity to integer")
  end.

(** [float(n)] for an int: round to nearest even; an int that rounds
    beyond the largest finite float raises OverflowError *)
Definition float_of_int (z : Z) : result spec_float :=
  match binary_normalize prec emax z 0 false with
  | S754_infinity _ => Raise (Exn OverflowError "int too large to convert to float")
  | f => Ok f
  end.

(** [bool(x)] for a float: false exactly for the two zeros *)
Definition float_truth (f : spec_float) : bool :=
  match f with S754_zero _ => false | _ => true end.

Definition int_of_bool (b : bool) : Z := if b then 1 else 0.

End PyNum.

(** ** Cell text *)

Module PyText.

(** [str.isspace] on a code point *)
Definition isspace (c : N) : bool :=
  (((9 <=? c) && (c <=? 13)) || ((28 <=? c) && (c <=? 32))
   || (c =? 133) || (c =? 160) || (c =? 5760)
   || ((8192 <=? c) && (c <=? 8202)) || (c =? 8232) || (c =? 8233)
   || (c =? 8239) || (c =? 8287) || (c =? 12288))%N.

Fixpoint lstrip (s : pystr) : pystr :=
  match s with
  | [] => []
  | c :: r => if isspace c then lstrip r else s
  end.

(** [s.strip()] *)
Definition strip (s : pystr) : pystr := rev (lstrip (rev (lstrip s))).

(** truth value of a [str]: non-empty *)
Definition truthy (s : pystr) : bool :=
  match s with [] => false | _ => true end.

(** [s.replace(c, '')] for a one-character [c] *)
Definition remove_char (c : N) (s : pystr) : pystr :=
  filter (fun x => x ≠ c) s.

(** [s.encode('utf-8')] succeeds unless [s] holds a lone surrogate *)
Definition is_surrogate (c : N) : bool := ((55296 <=? c) && (c <=? 57343))%N.

Definition encode_utf8_ok (s : pystr) : bool := forallb (fun c => negb (is_surrogate c)) s.

(** the code points of an ASCII literal *)
Fixpoint of_string (s : string) : pystr :=
  match s with
  | EmptyString => []
  | String c r => N_of_ascii c :: of_string r
  end.

(** the UTF-8 bytes of a code point *)
Definition utf8_char (c : N) : list ascii :=
  (if c <? 128 then [ascii_of_N c]
   else if c <? 2048 then
     [ascii_of_N (192 + c / 64); ascii_of_N (128 + c mod 64)]
   else if c <? 65536 then
     [ascii_of_N (224 + c / 4096); ascii_of_N (128 + (c / 64) mod 64);
      ascii_of_N (128 + c mod 64)]
   else
     [ascii_of_N (240 + c / 262144); ascii_of_N (128 + (c / 4096) mod 64);
      ascii_of_N (128 + (c / 64) mod 64); ascii_of_N (128 + c mod 64)])%N.

(** a [str] that becomes an identifier, as its UTF-8 text *)
Definition to_string (s : pystr) : string :=
  string_of_list_ascii (flat_map utf8_char s).

End PyText.

(** ** The Python runtime

    The library functions the coercer calls and whose text is not part of
    the program: [float(s)] on a string, [datetime.strptime], the Unicode
    [str.lower] and [str(x)].  [None] is a [ValueError]. *)

Record Runtime := {
  float_of_str : pystr -> option spec_float;
  strptime : pystr -> string -> option datetime;
  text_lower : pystr -> pystr;
  text_of_value : value -> pystr
}.

(** ** ClickHouseClientV3: value coercion *)

Module Coercer.
Import PyStr.

(** [any(k in t for k in keys)] *)
Definition any_in (keys : list string) (t : string) : bool :=
  existsb (fun k => contains k t) keys.

Definition sentinel_date : date := Date 2000 1 1.
Definition sentinel_datetime : datetime := DateTime (Date 2000 1 1) 0 0 0 0.

Definition _get_default_value_for_type (field_type : string) : value :=
  let field_type_lower := lower field_type in
  if any_in ["int"; "uint"] field_type_lower then VInt 0
  else if any_in ["float"; "double"] field_type_lower then VFloat PyNum.fzero
  else if contains "decimal" field_type_lower then VInt 0
  else if String.eqb field_type_lower "date32" then VDate sentinel_date
  else if contains "datetime" field_type_lower then VDateTime sentinel_datetime
  else if String.eqb field_type_lower "bool" then VBool false
  else VStr [].

Definition _clean_string_value (value : pystr) : pystr :=
  if negb (PyText.truthy value) then []
  else
    let cleaned := filter (fun c => (32 <= c)%N \/ c ∈ [9%N; 10%N; 13%N]) value in
    let cleaned :=
      foldl (fun acc c => PyText.remove_char c acc) cleaned
        [0; 1; 2; 3; 4; 5; 6; 7; 8; 11; 12; 14; 15; 16; 17; 18; 19; 20; 21;
         22; 23; 24; 25; 26; 27; 28; 29; 30; 31]%N in
    if PyText.encode_utf8_ok cleaned then
      if (1000 <? length cleaned)%nat then take 1000 cleaned else cleaned
    else [].

Section WithRuntime.
Context (rt : Runtime).

(** the loop over the accepted formats: the first one that parses wins *)
Fixpoint first_format (value : pystr) (fmts : list string) : option datetime :=
  match fmts with
  | [] => None
  | fmt :: rest =>
      match strptime rt value fmt with
      | Some t => Some t
      | None => first_format value rest
      end
  end.

(** the body of the [try] block of [_convert_value_for_clickhouse], for
    a value that is not [None]; [bool] is a subclass of [int], so
    [isinstance(value, (int, float))] holds for it *)
Definition convert_body (val : value) (field_type_lower : string) : result value :=
  if contains "datetime" field_type_lower || contains "timestamp" field_type_lower then
    match val with
    | VDate _ | VDateTime _ => Ok val
    | VStr s =>
        match first_format s ["%Y-%m-%d %H:%M:%S"; "%Y-%m-%d %H:%M:%S.%f"; "%Y-%m-%d"] with
        | Some t => Ok (VDateTime t)
        | None => Ok (VDateTime sentinel_datetime)
        end
    | _ => Ok (VDateTime sentinel_datetime)
    end
  else if String.eqb field_type_lower "date32" then
    match val with
    | VDateTime t => Ok (VDate (dt_date t))
    | VStr s =>
        match first_format s ["%Y-%m-%d"; "%Y-%m-%d %H:%M:%S"] with
        | Some t => Ok (VDate (dt_date t))
        | None => Ok (VDate sentinel_date)
        end
    | _ => Ok (VDate sentinel_date)
    end
  else if any_in ["int"; "uint"] field_type_lower then
    match val with
    | VBool b => Ok (VInt (PyNum.int_of_bool b))
    | VInt z => Ok (VInt z)
    | VFloat f => z <- PyNum.int_of_float f ;; Ok (VInt z)
    | VStr s =>
        if PyText.truthy (PyText.strip s) then
          try_except [ValueError; TypeError]
            (f <- of_option (float_of_str rt s) (Exn ValueError "could not convert string to float") ;;
             z <- PyNum.int_of_float f ;;
             Ok (VInt z))
            (VInt 0)
        else Ok (VInt 0)
    | _ => Ok (VInt 0)
    end
  else if any_in ["float"; "double"; "decimal"] field_type_lower then
    match val with
    | VBool b => f <- PyNum.float_of_int (PyNum.int_of_bool b) ;; Ok (VFloat f)
    | VInt z => f <- PyNum.float_of_int z ;; Ok (VFloat f)
    | VFloat f => Ok (VFloat f)
    | VStr s =>
        if PyText.truthy (PyText.strip s) then
          try_except [ValueError; TypeError]
            (f <- of_option (float_of_str rt s) (Exn ValueError "could not convert string to float") ;;
             Ok (VFloat f))
            (VFloat PyNum.fzero)
        else Ok (VFloat PyNum.fzero)
    | _ => Ok (VFloat PyNum.fzero)
    end
  else if String.eqb field_type_lower "bool" then
    match val with
    | VBool b => Ok (VBool b)
    | VInt z => Ok (VBool (negb (z =? 0)))
    | VFloat f => Ok (VBool (PyNum.float_truth f))
    | VStr s =>
        Ok (VBool (bool_decide
              (text_lower rt s ∈ map PyText.of_string ["true"; "1"; "yes"; "on"])))
    | _ => Ok (VBool false)
    end
  else
    match val with
    | VStr s => Ok (VStr (_clean_string_value s))
    | _ => Ok (VStr (text_of_value rt val))
    end.

Definition _convert_value_for_clickhouse (val : value) (field_type : string) : result value :=
  match val with
  | VNone => Ok (_get_default_value_for_type field_type)
  | _ =>
      match convert_body val (lower field_type) with
      | Ok w => Ok w
      | Raise _ => Ok (_get_default_value_for_type field_type)
      end
  end.

(** one cell of [insert_batch]: the type of column [j], the default for
    [None], the conversion otherwise, and the default again should the
    conversion raise *)
Definition process_cell (field_types : option (list string)) (j : nat) (val : value) : value :=
  let typed :=
    match field_types with
    | Some ((_ :: _) as ts) => ts !! j
    | _ => None
    end in
  let field_type := default "String" typed in
  match val with
  | VNone => _get_default_value_for_type field_type
  | _ =>
      match _convert_value_for_clickhouse val field_type with
      | Ok w => w
      | Raise _ => _get_default_value_for_type field_type
      end
  end.

Definition process_row (field_types : option (list string)) (r : row) : row :=
  imap (process_cell field_types) r.

End WithRuntime.

End Coercer.

(** ** The source database

    MySQL is only read.  Each query is a function of the table name that
    answers or raises; [my_select] gives the rows that [fetchmany] delivers
    and the error, if any, that ends the cursor early. *)

Record MySQL := {
  my_count : string -> result Z;
  my_columns : string -> result (list (string * string * string));
  my_table_comment : string -> result (option string);
  my_select : string -> list row * option exn
}.

Module MySQLClient.

Definition get_table_comment (my : MySQL) (table_name : string) : string :=
  match my_table_comment my table_name with
  | Ok (Some c) => c
  | Ok None => ""
  | Raise _ => ""
  end.

Definition get_table_structure (my : MySQL) (table_name : string)
  : result (list (string * string * string)) :=
  match my_columns my table_name with
  | Ok cols => Ok cols
  | Raise e => reraise "获取表结构失败: " e
  end.

(** successive [fetchmany(n)] results over the delivered rows;
    [fuel] bounds the number of batches *)
Fixpoint batches (fuel n : nat) (rows : list row) : list (list row) :=
  match fuel with
  | O => []
  | S fuel' =>
      match rows with
      | [] => []
      | _ => take n rows :: batches fuel' n (drop n rows)
      end
  end.

(** the generator [get_table_data]: the batches it yields, then the
    exception that ends it, if any *)
Definition get_table_data (my : MySQL) (table_name : string) (batch_size : positive)
  : list (list row) * option exn :=
  match my_count my table_name with
  | Raise e => ([], Some (Exn PlainException ("读取表数据失败: " +:+ exn_msg e)))
  | Ok _ =>
      let '(rows, err) := my_select my table_name in
      (batches (length rows) (Pos.to_nat batch_size) rows,
       match err with
       | Some e => Some (Exn PlainException ("读取表数据失败: " +:+ exn_msg e))
       | None => None
       end)
  end.

Definition get_table_row_count (my : MySQL) (table_name : string) : Z :=
  match my_count my table_name with
  | Ok n => n
  | Raise _ => 0
  end.

End MySQLClient.

(** ** The target store

    The statements the client sends.  [CreateTable] keeps the pieces the
    statement text is built from; [create_sql] is the text. *)

Inductive stmt :=
| DropIfExists (table_name : string)
| CreateTable (table_name fields_sql primary_key_field table_comment_sql : string)
| Insert (table_name : string) (insert_fields : list string) (data : list row)
| SelectCount (table_name : string)
| ExistsTable (table_name : string).

Definition create_sql (table_name fields_sql primary_key_field table_comment_sql : string)
  : string :=
  PyStr.nl +:+ "            CREATE TABLE `" +:+ table_name +:+ "` (" +:+ PyStr.nl
  +:+ "                " +:+ fields_sql +:+ PyStr.nl
  +:+ "            ) ENGINE = MergeTree()" +:+ PyStr.nl
  +:+ "            ORDER BY `" +:+ primary_key_field +:+ "`" +:+ PyStr.nl
  +:+ "            " +:+ table_comment_sql +:+ PyStr.nl
  +:+ "            ".

Definition insert_sql (table_name : string) (insert_fields : list string) : string :=
  "INSERT INTO `" +:+ table_name +:+ "` ("
  +:+ PyStr.join ", " (map (fun field => "`" +:+ field +:+ "`") insert_fields)
  +:+ ") VALUES".

Definition sql_of (q : stmt) : string :=
  match q with
  | DropIfExists t => "DROP TABLE IF EXISTS `" +:+ t +:+ "`"
  | CreateTable t f k c => create_sql t f k c
  | Insert t fs _ => insert_sql t fs
  | SelectCount t => "SELECT COUNT(*) FROM `" +:+ t +:+ "`"
  | ExistsTable t => "EXISTS TABLE `" +:+ t +:+ "`"
  end.

(** the target: the rows of each table, and every statement sent so far,
    oldest first *)
Record ch_state := ChState {
  ch_tables : gmap string (list row);
  ch_log : list stmt
}.

Definition ch_logged (q : stmt) (st : ch_state) : ch_state :=
  ChState (ch_tables st) (ch_log st ++ [q]).

Definition ch_with_tables (tbls : gmap string (list row)) (st : ch_state) : ch_state :=
  ChState tbls (ch_log st).

(** [rejects st q] is the error text when the server refuses [q] in state
    [st] for a reason of its own (a value that does not fit its column, a
    lost connection, a malformed statement).  A refused statement leaves
    the tables as they are. *)
Definition fault := ch_state -> stmt -> option string.

(** [client.execute]: the statement is logged; unless refused it acts on
    the tables *)
Definition execute (rejects : fault) (q : stmt) (st : ch_state) : result (list row) * ch_state :=
  let st1 := ch_logged q st in
  match rejects st q with
  | Some msg => (Raise (Exn DatabaseError msg), st1)
  | None =>
      match q with
      | DropIfExists t => (Ok [], ch_with_tables (delete t (ch_tables st)) st1)
      | CreateTable t _ _ _ =>
          match ch_tables st !! t with
          | Some _ => (Raise (Exn DatabaseError ("Table " +:+ t +:+ " already exists")), st1)
          | None => (Ok [], ch_with_tables (<[t := []]> (ch_tables st)) st1)
          end
      | Insert t _ data =>
          match ch_tables st !! t with
          | Some old => (Ok [], ch_with_tables (<[t := old ++ data]> (ch_tables st)) st1)
          | None => (Raise (Exn DatabaseError ("Table " +:+ t +:+ " does not exist")), st1)
          end
      | SelectCount t =>
          match ch_tables st !! t with
          | Some rows => (Ok [[VInt (Z.of_nat (length rows))]], st1)
          | None => (Raise (Exn DatabaseError ("Table " +:+ t +:+ " does not exist")), st1)
          end
      | ExistsTable t =>
          (Ok [[VInt (match ch_tables st !! t with Some _ => 1 | None => 0 end)]], st1)
      end
  end.

(** ** ClickHouseClientV3: statements *)

Module ClickHouseClientV3.

Section WithServer.
Context (rt : Runtime) (rejects : fault).

Definition drop_table_if_exists (table_name : string) (st : ch_state) : ch_state :=
  snd (execute rejects (DropIfExists table_name) st).

Definition field_definition (field : string * string * string) : string :=
  let '(field_name, field_type, comment) := field in
  if negb (String.eqb comment "") then
    "`" +:+ field_name +:+ "` " +:+ field_type +:+ " COMMENT '" +:+ comment +:+ "'"
  else "`" +:+ field_name +:+ "` " +:+ field_type.

(** one turn of the loop over [fields] *)
Definition create_step (acc : list string * option string) (field : string * string * string)
  : list string * option string :=
  let '(field_definitions, primary_key_field) := acc in
  (field_definitions ++ [field_definition field],
   match primary_key_field with
   | None => Some (fst (fst field))
   | Some k => Some k
   end).

Definition create_table (table_name : string) (fields : list (string * string * string))
    (table_comment : string) (st : ch_state) : result unit * ch_state :=
  let '(field_definitions, primary_key_field) := foldl create_step ([], None) fields in
  match primary_key_field with
  | None =>
      (reraise "创建表失败: " (Exn PlainException "表必须至少包含一个字段"), st)
  | Some key =>
      let fields_sql := PyStr.join ("," +:+ PyStr.nl +:+ "    ") field_definitions in
      let table_comment_sql :=
        if negb (String.eqb table_comment "") then "COMMENT '" +:+ table_comment +:+ "'"
        else "" in
      match execute rejects (CreateTable table_name fields_sql key table_comment_sql) st with
      | (Ok _, st') => (Ok tt, st')
      | (Raise e, st') => (reraise "创建表失败: " e, st')
      end
  end.

(** the row-by-row retry after a refused bulk insert: it stops at the
    first row that is refused *)
Fixpoint retry_rows (table_name : string) (insert_fields : list string)
    (rows : list row) (st : ch_state) : ch_state :=
  match rows with
  | [] => st
  | r :: rest =>
      match execute rejects (Insert table_name insert_fields [r]) st with
      | (Ok _, st') => retry_rows table_name insert_fields rest st'
      | (Raise _, st') => st'
      end
  end.

Definition insert_batch (table_name : string) (field_names : list string)
    (data_batch : list row) (field_types : option (list string)) (st : ch_state)
  : result unit * ch_state :=
  let processed_data := map (Coercer.process_row rt field_types) data_batch in
  match execute rejects (Insert table_name field_names processed_data) st with
  | (Ok _, st') => (Ok tt, st')
  | (Raise insert_error, st') =>
      let st'' := retry_rows table_name field_names (take 5 processed_data) st' in
      (reraise "批量插入数据失败: "
         (Exn PlainException ("批量插入数据失败: " +:+ exn_msg insert_error)), st'')
  end.

(** [result[0][0]] of a count *)
Definition first_cell (answer : list row) : result value :=
  match answer with
  | (v :: _) :: _ => Ok v
  | _ => Raise (Exn IndexError "list index out of range")
  end.

Definition get_table_row_count (table_name : string) (st : ch_state) : Z * ch_state :=
  match execute rejects (SelectCount table_name) st with
  | (Ok answer, st') =>
      match first_cell answer with
      | Ok (VInt n) => (n, st')
      | _ => (0, st')
      end
  | (Raise _, st') => (0, st')
  end.

Definition table_exists (table_name : string) (st : ch_state) : bool * ch_state :=
  match execute rejects (ExistsTable table_name) st with
  | (Ok answer, st') =>
      match first_cell answer with
      | Ok (VInt n) => (n =? 1, st')
      | _ => (false, st')
      end
  | (Raise _, st') => (false, st')
  end.

End WithServer.

End ClickHouseClientV3.

(** ** CSVMappingLoader *)

Record TableMapping := {
  mysql_table : string;
  clickhouse_table : string;
  field_mappings : gmap string (string * string)
}.

(** a dictionary of [csv.DictReader]: a key for every column of the header
    line; the cell of a data line, or [None] for a column the line is too
    short for *)
Abbreviation csv_row := (gmap string (option pystr)).

(** the mapping files: [read_csv path] is what [csv.DictReader] yields for
    the file, one dictionary per data line, or the error of [open] *)
Definition filesystem := string -> result (list csv_row).

Module CSVMappingLoader.

(** [row[key].strip()]: a column that the header does not have is a
    [KeyError], a cell that is [None] has no [strip] *)
Definition stripped_field (r : csv_row) (key : string) : result string :=
  match r !! key with
  | Some (Some v) => Ok (PyText.to_string (PyText.strip v))
  | Some None =>
      Raise (Exn AttributeError "'NoneType' object has no attribute 'strip'")
  | None => Raise (Exn KeyError ("'" +:+ key +:+ "'"))
  end.

Fixpoint read_rows (rows : list csv_row) (acc : gmap string (string * string))
  : result (gmap string (string * string)) :=
  match rows with
  | [] => Ok acc
  | r :: rest =>
      mysql_field <- stripped_field r "mysql" ;;
      clickhouse_field <- stripped_field r "clickhouse" ;;
      read_rows rest (<[mysql_field := (clickhouse_field, "String")]> acc)
  end.

Definition load_body (read_csv : filesystem) (csv_file : string) : result TableMapping :=
  let filename := PyStr.basename csv_file in
  if PyStr.contains "-" filename then
    let parts := PyStr.split "-" (PyStr.remove_sub ".csv" 0 filename) in
    mysql_table <- of_option (parts !! 0%nat) (Exn IndexError "list index out of range") ;;
    clickhouse_table <- of_option (parts !! 1%nat) (Exn IndexError "list index out of range") ;;
    rows <- read_csv csv_file ;;
    field_mappings <- read_rows rows ∅ ;;
    Ok {| mysql_table := mysql_table;
          clickhouse_table := clickhouse_table;
          field_mappings := field_mappings |}
  else Raise (Exn ValueError ("CSV文件名格式不正确: " +:+ filename)).

Definition load_csv_mapping (read_csv : filesystem) (csv_file : string) : result TableMapping :=
  match load_body read_csv csv_file with
  | Ok m => Ok m
  | Raise e => reraise ("加载CSV映射文件失败 " +:+ csv_file +:+ ": ") e
  end.

End CSVMappingLoader.

(** ** DataMigrator *)

(** [processing_time] is wall-clock time and is left out *)
Record MigrationResult := {
  table_mapping : option TableMapping;
  success : bool;
  mysql_rows : Z;
  clickhouse_rows : Z;
  error_message : string
}.

Record Config := {
  batch_size : positive;
  auto_recreate : bool;
  skip_existing : bool
}.

Module DataMigrator.
Import ClickHouseClientV3.

Section WithWorld.
Context (rt : Runtime) (my : MySQL) (rejects : fault)
        (read_csv : filesystem) (cfg : Config).

(** one turn of the loop that builds the ClickHouse field definitions *)
Definition fields_step (tm : TableMapping)
    (acc : list (string * string * string) * gmap string (string * string))
    (col : string * string * string)
  : list (string * string * string) * gmap string (string * string) :=
  let '(clickhouse_fields, final_field_mappings) := acc in
  let '(mysql_field, mysql_type, mysql_comment) := col in
  match field_mappings tm !! mysql_field with
  | Some (clickhouse_field, _) =>
      let clickhouse_type := TypeMapper.map_mysql_type_to_clickhouse mysql_type in
      (clickhouse_fields ++ [(clickhouse_field, clickhouse_type, mysql_comment)],
       <[mysql_field := (clickhouse_field, clickhouse_type)]> final_field_mappings)
  | None => acc
  end.

(** the columns of [mysql_structure] that are mapped, with their index *)
Definition mapped_columns (mysql_structure : list (string * string * string))
    (final_field_mappings : gmap string (string * string))
  : list (nat * (string * string)) :=
  omap (fun '(i, (mysql_field, _, _)) =>
          match final_field_mappings !! mysql_field with
          | Some m => Some (i, m)
          | None => None
          end)
       (imap (fun i col => (i, col)) mysql_structure).

(** [mapped_row]: [row[i]] for every mapped column *)
Fixpoint map_row (cols : list (nat * (string * string))) (r : row) : result row :=
  match cols with
  | [] => Ok []
  | (i, _) :: rest =>
      v <- of_option (r !! i) (Exn IndexError "tuple index out of range") ;;
      vs <- map_row rest r ;;
      Ok (v :: vs)
  end.

Fixpoint map_rows (cols : list (nat * (string * string))) (batch_data : list row)
  : result (list row) :=
  match batch_data with
  | [] => Ok []
  | r :: rest =>
      m <- map_row cols r ;;
      ms <- map_rows cols rest ;;
      Ok (m :: ms)
  end.

(** the body of the loop over the batches of the generator *)
Fixpoint stream (tm : TableMapping) (cols : list (nat * (string * string)))
    (batches : list (list row)) (st : ch_state) : result unit * ch_state :=
  match batches with
  | [] => (Ok tt, st)
  | batch_data :: rest =>
      match map_rows cols batch_data with
      | Raise e => (Raise e, st)
      | Ok mapped_data =>
          let clickhouse_field_names := map (fun c => fst (snd c)) cols in
          let clickhouse_field_types := map (fun c => snd (snd c)) cols in
          match insert_batch rt rejects (clickhouse_table tm) clickhouse_field_names
                  mapped_data (Some clickhouse_field_types) st with
          | (Ok _, st') => stream tm cols rest st'
          | (Raise e, st') => (Raise e, st')
          end
      end
  end.

(** The [try] block of [migrate_table] after the mapping is loaded, in
    the program's own steps, last step first. *)

(** "verify the migration": count the target rows and report success *)
Definition verify (tm : TableMapping) (mysql_row_count : Z) (st : ch_state)
  : result MigrationResult * ch_state :=
  let '(clickhouse_row_count, st') :=
    get_table_row_count rejects (clickhouse_table tm) st in
  (Ok {| table_mapping := Some tm; success := true;
         mysql_rows := mysql_row_count;
         clickhouse_rows := clickhouse_row_count;
         error_message := "" |}, st').

(** "migrate the data": the loop over the generator's batches *)
Definition migrate_data (tm : TableMapping) (mysql_row_count : Z)
    (mysql_structure : list (string * string * string))
    (final_field_mappings : gmap string (string * string)) (st : ch_state)
  : result MigrationResult * ch_state :=
  let '(batches, ended) :=
    MySQLClient.get_table_data my (mysql_table tm) (batch_size cfg) in
  let cols := mapped_columns mysql_structure final_field_mappings in
  match stream tm cols batches st with
  | (Raise e, st') => (Raise e, st')
  | (Ok _, st') =>
      match ended with
      | Some e => (Raise e, st')
      | None => verify tm mysql_row_count st'
      end
  end.

(** "read the MySQL structure", "build the field definitions", "create
    the ClickHouse table" *)
Definition build_and_migrate (tm : TableMapping) (mysql_row_count : Z) (st : ch_state)
  : result MigrationResult * ch_state :=
  match MySQLClient.get_table_structure my (mysql_table tm) with
  | Raise e => (Raise e, st)
  | Ok mysql_structure =>
      let table_comment := MySQLClient.get_table_comment my (mysql_table tm) in
      let '(clickhouse_fields, final_field_mappings) :=
        foldl (fields_step tm) ([], ∅) mysql_structure in
      match create_table rejects (clickhouse_table tm) clickhouse_fields
              table_comment st with
      | (Raise e, st') => (Raise e, st')
      | (Ok _, st') =>
          migrate_data tm mysql_row_count mysql_structure final_field_mappings st'
      end
  end.

(** "check the MySQL table", "check the ClickHouse table" *)
Definition migrate_body (tm : TableMapping) (st : ch_state)
  : result MigrationResult * ch_state :=
  let mysql_row_count := MySQLClient.get_table_row_count my (mysql_table tm) in
  if mysql_row_count =? 0 then
    (Ok {| table_mapping := Some tm; success := false; mysql_rows := 0;
           clickhouse_rows := 0; error_message := "MySQL表不存在或为空" |}, st)
  else
    let '(present, st1) := table_exists rejects (clickhouse_table tm) st in
    if present && skip_existing cfg then
      let '(n, st2) := get_table_row_count rejects (clickhouse_table tm) st1 in
      (Ok {| table_mapping := Some tm; success := true; mysql_rows := mysql_row_count;
             clickhouse_rows := n; error_message := "" |}, st2)
    else
      build_and_migrate tm mysql_row_count
        (if present && auto_recreate cfg
         then drop_table_if_exists rejects (clickhouse_table tm) st1
         else st1).

(** the [except Exception] clause of [migrate_table] *)
Definition failed (tm : option TableMapping) (e : exn) : MigrationResult :=
  {| table_mapping := tm; success := false; mysql_rows := 0;
     clickhouse_rows := 0; error_message := exn_msg e |}.

Definition migrate_table (csv_file : string) (st : ch_state) : MigrationResult * ch_state :=
  match CSVMappingLoader.load_csv_mapping read_csv csv_file with
  | Raise e => (failed None e, st)
  | Ok tm =>
      match migrate_body tm st with
      | (Ok r, st') => (r, st')
      | (Raise e, st') => (failed (Some tm) e, st')
      end
  end.

(** the loop of [migrate_all_tables] over the mapping files *)
Fixpoint migrate_files (csv_directory : string) (csv_files : list string) (st : ch_state)
  : list MigrationResult * ch_state :=
  match csv_files with
  | [] => ([], st)
  | csv_file :: rest =>
      let csv_path := PyStr.path_join csv_directory csv_file in
      let '(r, st') := migrate_table csv_path st in
      let '(rs, st'') := migrate_files csv_directory rest st' in
      (r :: rs, st'')
  end.

(** [listing] is what [os.listdir(csv_directory)] returns *)
Definition migrate_all_tables (csv_directory : string) (listing : list string)
    (st : ch_state) : list MigrationResult * ch_state :=
  let csv_files := filter (fun f => PyStr.endswith ".csv" f = true) listing in
  migrate_files csv_directory csv_files st.

End WithWorld.

End DataMigrator.

(** ** Vocabulary of the properties *)

(** the test of the sanitizer's first pass:
    [ord(char) >= 32 or char in '\t\n\r'] *)
Definition kept_char (c : N) : Prop := (32 <= c)%N \/ c ∈ [9%N; 10%N; 13%N].

(** a control character in the sense of Unicode (category Cc): the C0
    range, DELETE, and the C1 range *)
Definition is_control (c : N) : bool :=
  ((c <=? 31) || ((127 <=? c) && (c <=? 159)))%N.

(** the target type families, as [_convert_value_for_clickhouse] tells
    them apart, in the order of its tests *)
Inductive family := Timestamp | Day | Integer | Floating | Boolean | Text.

Definition family_of (field_type : string) : family :=
  let t := PyStr.lower field_type in
  if PyStr.contains "datetime" t || PyStr.contains "timestamp" t then Timestamp
  else if String.eqb t "date32" then Day
  else if Coercer.any_in ["int"; "uint"] t then Integer
  else if Coercer.any_in ["float"; "double"; "decimal"] t then Floating
  else if String.eqb t "bool" then Boolean
  else Text.

(** the default-value table of the design document *)
Definition family_default (f : family) : value :=
  match f with
  | Integer => VInt 0
  | Floating => VFloat PyNum.fzero
  | Day => VDate Coercer.sentinel_date
  | Timestamp => VDateTime Coercer.sentinel_datetime
  | Boolean => VBool false
  | Text => VStr []
  end.

(** the same table with the one entry [_get_default_value_for_type] has
    differently: a decimal type that is not also a float type gets the
    integer 0 *)
Definition null_default (field_type : string) : value :=
  match family_of field_type with
  | Floating =>
      if Coercer.any_in ["float"; "double"] (PyStr.lower field_type)
      then VFloat PyNum.fzero else VInt 0
  | f => family_default f
  end.

(** the two dispatch chains agree on a timestamp type when its name holds
    [datetime] and none of the numeric key words *)
Definition plain_timestamp (field_type : string) : Prop :=
  family_of field_type = Timestamp ->
  PyStr.contains "datetime" (PyStr.lower field_type) = true
  /\ Coercer.any_in ["int"; "uint"; "float"; "double"; "decimal"] (PyStr.lower field_type)
     = false.

(** a NULL in a timestamp column: [_get_default_value_for_type] looks for
    the numeric key words first, and of the two key words of a timestamp
    type it knows [datetime] only, so that a type named after [timestamp]
    alone gets the empty string *)
Definition timestamp_null (field_type : string) : value :=
  let t := PyStr.lower field_type in
  if Coercer.any_in ["int"; "uint"] t then VInt 0
  else if Coercer.any_in ["float"; "double"] t then VFloat PyNum.fzero
  else if PyStr.contains "decimal" t then VInt 0
  else if PyStr.contains "datetime" t then VDateTime Coercer.sentinel_datetime
  else VStr [].

(** a value other than [None] that cannot be read as a value of the
    family: text that does not parse (as a number, in one of the accepted
    date formats, as a truth word, as encodable text), a float without an
    integer part for an integer column, an object of a foreign class *)
Definition unparseable (rt : Runtime) (f : family) (val : value) : bool :=
  match f, val with
  | _, VNone => false
  | Integer, VStr s =>
      negb (PyText.truthy (PyText.strip s))
      || match float_of_str rt s with
         | None => true
         | Some x => negb (is_ok (PyNum.int_of_float x))
         end
  | Integer, VFloat x => negb (is_ok (PyNum.int_of_float x))
  | Integer, (VDate _ | VDateTime _ | VOther _) => true
  | Floating, VStr s =>
      negb (PyText.truthy (PyText.strip s))
      || match float_of_str rt s with None => true | Some _ => false end
  | Floating, (VDate _ | VDateTime _ | VOther _) => true
  | Day, VStr s =>
      match Coercer.first_format rt s ["%Y-%m-%d"; "%Y-%m-%d %H:%M:%S"] with
      | None => true
      | Some _ => false
      end
  | Day, (VBool _ | VInt _ | VFloat _ | VOther _) => true
  | Timestamp, VStr s =>
      match Coercer.first_format rt s
              ["%Y-%m-%d %H:%M:%S"; "%Y-%m-%d %H:%M:%S.%f"; "%Y-%m-%d"] with
      | None => true
      | Some _ => false
      end
  | Timestamp, (VBool _ | VInt _ | VFloat _ | VOther _) => true
  | Boolean, VStr s =>
      negb (bool_decide (text_lower rt s ∈ map PyText.of_string ["true"; "1"; "yes"; "on"]))
  | Boolean, (VDate _ | VDateTime _ | VOther _) => true
  | Text, VStr s => negb (PyText.encode_utf8_ok (filter kept_char s))
  | _, _ => false
  end.

(** the ClickHouse field a source column is mapped to, if it is mapped *)
Definition mapped_field (tm : TableMapping) (col : string * string * string)
  : option (string * string * string) :=
  let '(mysql_field, mysql_type, mysql_comment) := col in
  match field_mappings tm !! mysql_field with
  | Some (clickhouse_field, _) =>
      Some (clickhouse_field, TypeMapper.map_mysql_type_to_clickhouse mysql_type, mysql_comment)
  | None => None
  end.

(** the tables after [rows] are added to table [t], if it exists *)
Definition appended (t : string) (rows : list row) (tbls : gmap string (list row))
  : gmap string (list row) :=
  match tbls !! t with
  | Some old => <[t := old ++ rows]> tbls
  | None => tbls
  end.

(** the single-row statement of the retry loop *)
Definition single_insert (table_name : string) (insert_fields : list string) (r : row) : stmt :=
  Insert table_name insert_fields [r].

(** the target after the single-row inserts of [rows] were sent to it one
    after the other *)
Definition after_singles (rejects : fault) (table_name : string)
    (insert_fields : list string) (rows : list row) (st : ch_state) : ch_state :=
  foldl (fun s r => snd (execute rejects (single_insert table_name insert_fields r) s))
    st rows.

(** the target in state [st] accepts the single-row insert of [r] *)
Definition single_accepted (rejects : fault) (table_name : string)
    (insert_fields : list string) (st : ch_state) (r : row) : bool :=
  is_ok (fst (execute rejects (single_insert table_name insert_fields r) st)).

(** a retry of [rows] that starts in state [st], sends [attempts]
    single-row inserts and gets [kept] rows in: the first [kept] rows are
    accepted, each in the state the rows before it left; then either [rows]
    is used up, or the next row is sent as well, is refused, and is the last
    one sent *)
Definition retry_outcome (rejects : fault) (table_name : string)
    (insert_fields : list string) (rows : list row) (st : ch_state)
    (attempts kept : nat) : Prop :=
  (forall (i : nat) (r : row),
     (i < kept)%nat -> rows !! i = Some r ->
     single_accepted rejects table_name insert_fields
       (after_singles rejects table_name insert_fields (take i rows) st) r = true)
  /\ ((attempts = kept /\ kept = length rows)
      \/ (attempts = S kept
          /\ exists r, rows !! kept = Some r
                       /\ single_accepted rejects table_name insert_fields
                            (after_singles rejects table_name insert_fields
                               (take kept rows) st) r = false)).

(** [migrate_table] on mapping [tm] goes past its two early returns: the
    source has rows, and the target table is not skipped *)
Definition not_skipped (my : MySQL) (rejects : fault) (cfg : Config)
    (tm : TableMapping) (st : ch_state) : Prop :=
  MySQLClient.get_table_row_count my (mysql_table tm) <> 0
  /\ fst (ClickHouseClientV3.table_exists rejects (clickhouse_table tm) st)
     && skip_existing cfg = false.

(** the target after the existence check and the drop, if one is made *)
Definition prepared (rejects : fault) (cfg : Config) (tm : TableMapping) (st : ch_state)
  : ch_state :=
  let '(present, st1) := ClickHouseClientV3.table_exists rejects (clickhouse_table tm) st in
  if present && auto_recreate cfg
  then ClickHouseClientV3.drop_table_if_exists rejects (clickhouse_table tm) st1
  else st1.

(** the field definitions [migrate_table] hands to [create_table] *)
Definition mapped_fields (tm : TableMapping)
    (mysql_structure : list (string * string * string)) : list (string * string * string) :=
  fst (foldl (DataMigrator.fields_step tm) ([], ∅) mysql_structure).

(** [migrate_table] gets as far as the streaming loop: it is not skipped,
    the structure is read as [mysql_structure], and [create_table] succeeds
    and leaves the target in state [st3] *)
Definition reaches_streaming (my : MySQL) (rejects : fault) (cfg : Config)
    (tm : TableMapping) (st : ch_state)
    (mysql_structure : list (string * string * string)) (st3 : ch_state) : Prop :=
  not_skipped my rejects cfg tm st
  /\ MySQLClient.get_table_structure my (mysql_table tm) = Ok mysql_structure
  /\ ClickHouseClientV3.create_table rejects (clickhouse_table tm)
       (mapped_fields tm mysql_structure)
       (MySQLClient.get_table_comment my (mysql_table tm))
       (prepared rejects cfg tm st)
     = (Ok tt, st3).

(** the columns the streaming loop works with *)
Definition stream_columns (tm : TableMapping)
    (mysql_structure : list (string * string * string)) : list (nat * (string * string)) :=
  DataMigrator.mapped_columns mysql_structure
    (snd (foldl (DataMigrator.fields_step tm) ([], ∅) mysql_structure)).

(** ** A sample world

    A small runtime on which the model can be run.  It reads the canonical
    spellings only: [float] of an optionally signed run of ASCII digits,
    [strptime] of the fixed-width forms [YYYY-MM-DD] and
    [YYYY-MM-DD HH:MM:SS].  CPython accepts more spellings (exponents,
    fractions, one-digit fields); the examples do not use them. *)

Module Sample.

Definition digit_value (c : N) : option Z :=
  if ((48 <=? c) && (c <=? 57))%N then Some (Z.of_N c - 48) else None.

(** the number written by a non-empty run of digits *)
Fixpoint digits_value (acc : Z) (s : pystr) : option Z :=
  match s with
  | [] => Some acc
  | c :: r =>
      match digit_value c with
      | Some d => digits_value (10 * acc + d) r
      | None => None
      end
  end.

Definition number (s : pystr) : option Z :=
  match s with [] => None | _ => digits_value 0 s end.

Definition parse_float (s : pystr) : option spec_float :=
  match PyText.strip s with
  | 45%N :: r =>
      match number r with
      | Some 0 => Some (S754_zero true)
      | Some n => Some (binary_normalize PyNum.prec PyNum.emax (- n) 0 false)
      | None => None
      end
  | 43%N :: r => option_map (fun n => binary_normalize PyNum.prec PyNum.emax n 0 false) (number r)
  | r => option_map (fun n => binary_normalize PyNum.prec PyNum.emax n 0 false) (number r)
  end.

Definition is_leap (y : Z) : bool :=
  ((y mod 4 =? 0) && negb (y mod 100 =? 0)) || (y mod 400 =? 0).

Definition days_in_month (y m : Z) : Z :=
  if m =? 2 then (if is_leap y then 29 else 28)
  else if (m =? 4) || (m =? 6) || (m =? 9) || (m =? 11) then 30 else 31.

Definition valid_date (y m d : Z) : bool :=
  (1 <=? y) && (1 <=? m) && (m <=? 12) && (1 <=? d) && (d <=? days_in_month y m).

Definition parse_date (s : pystr) : option date :=
  match s with
  | [y1; y2; y3; y4; 45%N; m1; m2; 45%N; d1; d2] =>
      match number [y1; y2; y3; y4], number [m1; m2], number [d1; d2] with
      | Some y, Some m, Some d => if valid_date y m d then Some (Date y m d) else None
      | _, _, _ => None
      end
  | _ => None
  end.

Definition parse_time (s : pystr) : option (Z * Z * Z) :=
  match s with
  | [h1; h2; 58%N; m1; m2; 58%N; s1; s2] =>
      match number [h1; h2], number [m1; m2], number [s1; s2] with
      | Some h, Some m, Some sec =>
          if (h <=? 23) && (m <=? 59) && (sec <=? 59) then Some (h, m, sec) else None
      | _, _, _ => None
      end
  | _ => None
  end.

Definition parse_datetime (s : pystr) (fmt : string) : option datetime :=
  if String.eqb fmt "%Y-%m-%d" then
    option_map (fun d => DateTime d 0 0 0 0) (parse_date s)
  else if String.eqb fmt "%Y-%m-%d %H:%M:%S" then
    match parse_date (take 10 s), s !! 10%nat, parse_time (drop 11 s) with
    | Some d, Some 32%N, Some (h, m, sec) => Some (DateTime d h m sec 0)
    | _, _, _ => None
    end
  else None.

Definition lower_text (s : pystr) : pystr :=
  map (fun c => if ((65 <=? c) && (c <=? 90))%N then (c + 32)%N else c) s.

Definition show_value (v : value) : pystr :=
  match v with
  | VNone => PyText.of_string "None"
  | VBool true => PyText.of_string "True"
  | VBool false => PyText.of_string "False"
  | VInt z =>
      PyText.of_string
        (if z <? 0 then "-" +:+ PyStr.of_nat (Z.to_nat (- z)) else PyStr.of_nat (Z.to_nat z))
  | VStr s => s
  | VOther r => PyText.of_string r
  | VFloat _ => PyText.of_string "<float>"
  | VDate _ => PyText.of_string "<date>"
  | VDateTime _ => PyText.of_string "<datetime>"
  end.

Definition runtime : Runtime :=
  {| float_of_str := parse_float;
     strptime := parse_datetime;
     text_lower := lower_text;
     text_of_value := show_value |}.

(** a mapping directory with one file, for the table [users]; the cell
    [name] is padded with an ideographic space and a blank *)
Definition read_csv : filesystem := fun path =>
  if String.eqb path "./clickhouse_mapper/users-users.csv" then
    Ok [ {[ "mysql" := Some (PyText.of_string "id");
            "clickhouse" := Some (PyText.of_string "id") ]};
         {[ "mysql" := Some (12288%N :: PyText.of_string "name ");
            "clickhouse" := Some (PyText.of_string "user_name") ]} ]
  else Raise (Exn OSError ("[Errno 2] No such file or directory: '" +:+ path +:+ "'")).

(** what the loader makes of that file *)
Definition users_mapping : TableMapping :=
  {| mysql_table := "users";
     clickhouse_table := "users";
     field_mappings := {[ "id" := ("id", "String"); "name" := ("user_name", "String") ]} |}.

Definition users_csv : string := "./clickhouse_mapper/users-users.csv".

Definition t0 : datetime := DateTime (Date 2024 2 29) 10 20 30 0.

Definition users_rows : list row :=
  [ [VInt 1; VStr (PyText.of_string "ann"); VDateTime t0];
    [VInt 2; VNone; VDateTime t0];
    [VInt 3; VStr (PyText.of_string "bob"); VDateTime t0] ].

(** a source with the three-row table [users] *)
Definition mysql : MySQL :=
  {| my_count := fun t =>
       if String.eqb t "users" then Ok 3
       else Raise (Exn DatabaseError ("Table 'shop." +:+ t +:+ "' doesn't exist"));
     my_columns := fun t =>
       if String.eqb t "users"
       then Ok [("id", "int", ""); ("name", "varchar", "display name");
                ("created", "timestamp", "")]
       else Ok [];
     my_table_comment := fun t => if String.eqb t "users" then Ok (Some "accounts") else Ok None;
     my_select := fun t =>
       if String.eqb t "users" then (users_rows, None)
       else ([], Some (Exn DatabaseError ("Table 'shop." +:+ t +:+ "' doesn't exist"))) |}.

(** the same source with [users] emptied *)
Definition mysql_empty : MySQL :=
  {| my_count := fun _ => Ok 0;
     my_columns := my_columns mysql;
     my_table_comment := my_table_comment mysql;
     my_select := fun _ => ([], None) |}.

(** a source on which every query fails *)
Definition mysql_down : MySQL :=
  {| my_count := fun _ => Raise (Exn DatabaseError "(2013, 'Lost connection to MySQL server')");
     my_columns := fun _ => Raise (Exn DatabaseError "(2013, 'Lost connection to MySQL server')");
     my_table_comment := fun _ => Raise (Exn DatabaseError "(2013, 'Lost connection to MySQL server')");
     my_select := fun _ => ([], Some (Exn DatabaseError "(2013, 'Lost connection to MySQL server')")) |}.

Definition user_row (id : Z) : row :=
  [VInt id; VStr (PyText.of_string "user"); VDateTime t0].

Definition source_of (rows : list row) : MySQL :=
  {| my_count := fun _ => Ok (Z.of_nat (length rows));
     my_columns := my_columns mysql;
     my_table_comment := my_table_comment mysql;
     my_select := fun _ => (rows, None) |}.

(** eight rows, the last with the identifier 13: with batches of two the
    fourth batch is the one refused by [refuses_13] *)
Definition mysql_eight : MySQL :=
  source_of (map user_row [1; 2; 3; 4; 5; 6; 7; 13]).

(** six rows, the last with the identifier 13 *)
Definition mysql_six : MySQL :=
  source_of (map user_row [1; 2; 3; 4; 5; 13]).

Definition config_keep : Config :=
  {| batch_size := 2; auto_recreate := false; skip_existing := false |}.

Definition config_wide : Config :=
  {| batch_size := 10; auto_recreate := true; skip_existing := false |}.

(** a target that refuses nothing *)
Definition accepts_all : fault := fun _ _ => None.

(** a target that refuses an insert holding the integer 13 *)
Definition refuses_13 : fault := fun _ q =>
  match q with
  | Insert _ _ data =>
      if existsb (existsb (fun v => match v with VInt 13 => true | _ => false end)) data
      then Some "Code: 53. Type mismatch in VALUES section" else None
  | _ => None
  end.

(** a target that refuses to count *)
Definition refuses_count : fault := fun _ q =>
  match q with
  | SelectCount _ => Some "Code: 159. Timeout exceeded"
  | _ => None
  end.

Definition config : Config :=
  {| batch_size := 2; auto_recreate := true; skip_existing := false |}.

Definition fresh : ch_state := ChState ∅ [].

End Sample.

(** * Properties *)

Example strip_blanks : PyStr.strip "  DECIMAL  " = "DECIMAL".
Proof. reflexivity. Qed.

Example split_mapping_name :
  PyStr.split "-" (PyStr.remove_sub ".csv" 0 (PyStr.basename "./maps/users-people.csv"))
  = ["users"; "people"].
Proof. reflexivity. Qed.

Example slice_like_python :
  PyStr.slice "DECIMAL(10,2)" 8 12 = "10,2" /\ PyStr.slice "DECIMAL(10,2" 8 (-1) = "10,".
Proof. split; reflexivity. Qed.

(** [split_head] is the first piece of [split] *)
Lemma split_head_is_first (sep : ascii) (s : string) :
  PyStr.split_head sep s = hd EmptyString (PyStr.split sep s).
Proof.
  induction s as [|c s IH]; [reflexivity|].
  cbn [PyStr.split_head PyStr.split]. destruct (Ascii.eqb c sep); [reflexivity|].
  rewrite IH. now destruct (PyStr.split sep s).
Qed.

(** the generator delivers every row: the fuel of [batches] is enough *)
Lemma batches_complete (n fuel : nat) (rows : list row) :
  (0 < n)%nat -> (length rows <= fuel)%nat ->
  concat (MySQLClient.batches fuel n rows) = rows.
Proof.
  intros Hn. revert rows. induction fuel as [|fuel IH]; intros rows Hlen.
  - destruct rows; [reflexivity | cbn in Hlen; lia].
  - destruct rows as [|r rows]; [reflexivity|].
    cbn [MySQLClient.batches concat]. rewrite IH.
    + apply take_drop.
    + rewrite length_drop. cbn [length] in *. lia.
Qed.

Example map_tinyint1 : TypeMapper.map_mysql_type_to_clickhouse "tinyint(1)" = "Bool".
Proof. reflexivity. Qed.

Example map_tinyint2 : TypeMapper.map_mysql_type_to_clickhouse "TINYINT(2)" = "Int8".
Proof. vm_compute. reflexivity. Qed.

Example map_tinyint10 : TypeMapper.map_mysql_type_to_clickhouse "TinyInt(10)" = "Int8".
Proof. vm_compute. reflexivity. Qed.

Example map_decimal : TypeMapper.map_mysql_type_to_clickhouse "decimal(10,2)" = "Decimal(10,2)".
Proof. vm_compute. reflexivity. Qed.

Example map_decimal_open : TypeMapper.map_mysql_type_to_clickhouse "DECIMAL(10,2" = "Decimal(10,)".
Proof. vm_compute. reflexivity. Qed.

Example map_unknown : TypeMapper.map_mysql_type_to_clickhouse "varchar(255) " = "String".
Proof. vm_compute. reflexivity. Qed.

Example map_unsigned : TypeMapper.map_mysql_type_to_clickhouse "int unsigned" = "UInt32".
Proof. vm_compute. reflexivity. Qed.

(** ** Properties of the type mapper *)

Section TypeMapperFacts.
Import PyStr TypeMapper.

Lemma isdigit_not_close (c : ascii) : isdigit c = true -> Ascii.eqb c ")" = false.
Proof.
  intros H. destruct (Ascii.eqb_spec c ")") as [->|]; [discriminate H | reflexivity].
Qed.

(** a digit string followed by ")" starts with "1)" only if it is "1" *)
Lemma digits_startswith_one (p : string) :
  all_digits p = true -> startswith "1)" (p +:+ ")") = true -> p = "1".
Proof.
  destruct p as [|c p]; [discriminate|].
  cbn [all_digits String.append startswith].
  intros Hd Hs. apply andb_true_iff in Hd as [_ Hd].
  apply andb_true_iff in Hs as [Hc Hs].
  apply Ascii.eqb_eq in Hc. subst c.
  destruct p as [|d p]; [reflexivity|].
  cbn [all_digits String.append startswith] in Hd, Hs.
  apply andb_true_iff in Hd as [Hd _].
  apply isdigit_not_close in Hd. rewrite Ascii.eqb_sym in Hs.
  rewrite Hd in Hs. discriminate.
Qed.

Lemma all_digits_of_uint (d : Decimal.uint) :
  all_digits (NilEmpty.string_of_uint d) = true.
Proof. induction d; simpl; auto. Qed.

Lemma all_digits_of_nat (n : nat) : all_digits (of_nat n) = true.
Proof.
  unfold of_nat, NilZero.string_of_uint.
  destruct (Nat.to_uint n) eqn:E; try reflexivity; rewrite <- E at 1;
    try apply all_digits_of_uint; rewrite E; apply all_digits_of_uint.
Qed.

Lemma of_nat_one (n : nat) : of_nat n = "1" -> n = 1%nat.
Proof.
  intros H. rewrite <- (Unsigned.of_to n).
  unfold of_nat in H.
  assert (E : NilZero.uint_of_string (NilZero.string_of_uint (Nat.to_uint n))
              = NilZero.uint_of_string "1") by (rewrite H; reflexivity).
  rewrite NilZero.usu in E.
  - injection E as E. rewrite E. reflexivity.
  - intros Hn. apply (f_equal Nat.of_uint) in Hn. rewrite Unsigned.of_to in Hn.
    subst n. discriminate H.
Qed.

(** the mapper on a tiny integer with a digit-string parameter *)
Lemma map_tinyint_digits (mysql_type p : string) :
  upper mysql_type = "TINYINT(" +:+ p +:+ ")" ->
  all_digits p = true ->
  map_mysql_type_to_clickhouse mysql_type = if String.eqb p "1" then "Bool" else "Int8".
Proof.
  intros Hu Hd. unfold map_mysql_type_to_clickhouse. rewrite Hu.
  change (startswith "TINYINT(1)" ("TINYINT(" +:+ p +:+ ")"))
    with (startswith "1)" (p +:+ ")")).
  destruct (String.eqb_spec p "1") as [->|Hne]; [reflexivity|].
  destruct (startswith "1)" (p +:+ ")")) eqn:Hs.
  - exfalso. apply Hne. now apply digits_startswith_one.
  - reflexivity.
Qed.

End TypeMapperFacts.

(** C1. [TypeMapper.map_mysql_type_to_clickhouse] on a tiny integer with a
    numeric parameter, in any letter case: [TINYINT(1)] gives [Bool], and
    [TINYINT(n)] for every other [n] (2, 10, ...) gives [Int8]. *)
Theorem tinyint_one_is_bool_others_int8 (mysql_type : string) (n : nat) :
  PyStr.upper mysql_type = "TINYINT(" +:+ PyStr.of_nat n +:+ ")" ->
  TypeMapper.map_mysql_type_to_clickhouse mysql_type
  = if (n =? 1)%nat then "Bool" else "Int8".
Proof.
  intros Hu.
  rewrite (map_tinyint_digits mysql_type (PyStr.of_nat n) Hu (all_digits_of_nat n)).
  destruct (Nat.eqb_spec n 1) as [->|Hne]; [reflexivity|].
  destruct (String.eqb_spec (PyStr.of_nat n) "1") as [E|_]; [|reflexivity].
  apply of_nat_one in E. contradiction.
Qed.

Lemma tinyint_one_is_bool_others_int8_witness :
  TypeMapper.map_mysql_type_to_clickhouse "tinyint(1)" = "Bool"
  /\ TypeMapper.map_mysql_type_to_clickhouse "TINYINT(2)" = "Int8"
  /\ TypeMapper.map_mysql_type_to_clickhouse "TinyInt(10)" = "Int8".
Proof.
  split; [|split].
  - apply (tinyint_one_is_bool_others_int8 "tinyint(1)" 1). reflexivity.
  - apply (tinyint_one_is_bool_others_int8 "TINYINT(2)" 2). reflexivity.
  - apply (tinyint_one_is_bool_others_int8 "TinyInt(10)" 10). reflexivity.
Defined.

(** ** Properties of the string sanitizer *)

Section Sanitizer.
Import Coercer.

Lemma remove_char_absent (c : N) (s : pystr) : c ∉ s -> PyText.remove_char c s = s.
Proof.
  intros H. unfold PyText.remove_char.
  induction s as [|x s IH]; [reflexivity|].
  apply not_elem_of_cons in H as [Hx Hs].
  rewrite filter_cons_True by congruence. f_equal. auto.
Qed.

Lemma remove_chars_absent (cs : list N) (s : pystr) :
  (forall c, c ∈ cs -> c ∉ s) ->
  foldl (fun acc c => PyText.remove_char c acc) s cs = s.
Proof.
  induction cs as [|c cs IH]; intros H; [reflexivity|].
  simpl. rewrite remove_char_absent by (apply H; left).
  apply IH. intros c' Hc'. apply H. now right.
Qed.

Lemma kept_filter_elem (c : N) (s : pystr) :
  c ∈ filter kept_char s <-> c ∈ s /\ kept_char c.
Proof. rewrite list_elem_of_filter. tauto. Qed.

(** the chain of [replace] calls finds nothing left to remove *)
Lemma replace_chain_noop (s : pystr) :
  foldl (fun acc c => PyText.remove_char c acc) (filter kept_char s)
    [0; 1; 2; 3; 4; 5; 6; 7; 8; 11; 12; 14; 15; 16; 17; 18; 19; 20; 21;
     22; 23; 24; 25; 26; 27; 28; 29; 30; 31]%N
  = filter kept_char s.
Proof.
  apply remove_chars_absent. intros c Hc Hin.
  apply kept_filter_elem in Hin as [_ Hk].
  assert (Hlt : (c < 32)%N /\ c <> 9%N /\ c <> 10%N /\ c <> 13%N).
  { repeat (apply elem_of_cons in Hc as [->|Hc]; [repeat split; lia|]).
    inversion Hc. }
  destruct Hlt as (Hlt & H9 & H10 & H13).
  destruct Hk as [Hk|Hk]; [lia|].
  repeat (apply elem_of_cons in Hk as [->|Hk]; [congruence|]).
  inversion Hk.
Qed.

Lemma clean_string_value_eq (value : pystr) :
  _clean_string_value value
  = if PyText.encode_utf8_ok (filter kept_char value)
    then take 1000 (filter kept_char value) else [].
Proof.
  unfold _clean_string_value.
  destruct value as [|c value]; [reflexivity|].
  cbn [PyText.truthy negb].
  change (fun c0 : N => (32 <= c0)%N \/ c0 ∈ [9%N; 10%N; 13%N]) with kept_char.
  rewrite replace_chain_noop.
  destruct (PyText.encode_utf8_ok _); [|reflexivity].
  destruct (Nat.ltb_spec 1000 (length (filter kept_char (c :: value)))); [reflexivity|].
  symmetry. apply take_ge. lia.
Qed.

End Sanitizer.

(** C7, as stated, fails: DELETE (U+007F) is a control character other
    than tab, newline and carriage return, and the sanitizer keeps it. *)
Lemma clean_keeps_delete_char :
  ~ (forall (value : pystr) (c : N),
       is_control c = true -> c ∉ [9%N; 10%N; 13%N] ->
       c ∉ Coercer._clean_string_value value).
Proof.
  intros H. apply (H [127%N] 127%N).
  - reflexivity.
  - intros Hin. repeat (apply elem_of_cons in Hin as [Hin|Hin]; [discriminate Hin|]).
    inversion Hin.
  - vm_compute. left.
Qed.

(** C7, amended.  [_clean_string_value] keeps, in order, the code points
    that are at least 32 or are tab, newline or carriage return (so DELETE
    and the C1 controls stay); the result is empty when that text has a
    lone surrogate and so no UTF-8 encoding, and its first 1000 code points
    otherwise.  Hence the result never holds a code point below 32 other
    than tab, newline and carriage return (no NUL in particular), has at
    most 1000 code points, and a NUL followed by 1200 printable characters
    gives the first 1000 of them. *)
Theorem clean_string_value_sanitizes (value : pystr) :
  Coercer._clean_string_value value
  = (if PyText.encode_utf8_ok (filter kept_char value)
     then take 1000 (filter kept_char value) else [])
  /\ (length (Coercer._clean_string_value value) <= 1000)%nat
  /\ (forall c, c ∈ Coercer._clean_string_value value ->
        c ∈ value /\ ((32 <= c)%N \/ c = 9%N \/ c = 10%N \/ c = 13%N))
  /\ (forall printable : pystr,
        Forall (fun c => (32 <= c <= 126)%N) printable ->
        length printable = 1200%nat ->
        Coercer._clean_string_value (0%N :: printable) = take 1000 printable).
Proof.
  split; [apply clean_string_value_eq|]. split; [|split].
  - rewrite clean_string_value_eq. destruct (PyText.encode_utf8_ok _).
    + rewrite length_take. lia.
    + simpl. lia.
  - intros c. rewrite clean_string_value_eq.
    destruct (PyText.encode_utf8_ok _); [|intros Hin; inversion Hin].
    intros Hin. apply elem_of_take in Hin as (i & Hi & _).
    apply list_elem_of_lookup_2 in Hi. apply kept_filter_elem in Hi as [Hv Hk].
    split; [exact Hv|].
    destruct Hk as [Hk|Hk]; [now left|right].
    repeat (apply elem_of_cons in Hk as [Hk|Hk]; [tauto|]). inversion Hk.
  - intros printable Hp _. rewrite clean_string_value_eq.
    assert (Hf : filter kept_char (0%N :: printable) = printable).
    { rewrite filter_cons_False.
      - induction Hp as [|c l Hc Hl IH]; [reflexivity|].
        rewrite filter_cons_True by (left; lia). now f_equal.
      - intros [Hk|Hk]; [lia|].
        repeat (apply elem_of_cons in Hk as [Hk|Hk]; [discriminate Hk|]). inversion Hk. }
    rewrite Hf.
    assert (He : PyText.encode_utf8_ok printable = true).
    { unfold PyText.encode_utf8_ok. apply forallb_forall. intros c Hc.
      rewrite Forall_forall in Hp. apply list_elem_of_In in Hc. specialize (Hp c Hc).
      unfold PyText.is_surrogate.
      destruct (N.leb_spec 55296 c); [lia|reflexivity]. }
    now rewrite He.
Qed.

Lemma clean_string_value_sanitizes_witness :
  Coercer._clean_string_value (0%N :: repeat 97%N 1200) = repeat 97%N 1000.
Proof.
  destruct (clean_string_value_sanitizes (0%N :: repeat 97%N 1200)) as (_ & _ & _ & H).
  rewrite (H (repeat 97%N 1200)).
  - vm_compute. reflexivity.
  - apply Forall_forall. intros c Hc. apply list_elem_of_In, repeat_spec in Hc. lia.
  - apply repeat_length.
Defined.

(** ** Properties of the value coercer *)

Section CoercerFacts.
Import PyStr Coercer.
Context (rt : Runtime).

Lemma convert_total (val : value) (field_type : string) :
  exists w, _convert_value_for_clickhouse rt val field_type = Ok w.
Proof.
  unfold _convert_value_for_clickhouse.
  destruct val; try (eexists; reflexivity);
    match goal with |- context [convert_body ?v ?t] => destruct (convert_body v t) end;
    eexists; reflexivity.
Qed.

Lemma convert_none (field_type : string) :
  _convert_value_for_clickhouse rt VNone field_type
  = Ok (_get_default_value_for_type field_type).
Proof. reflexivity. Qed.

Lemma null_defaults (field_type : string) :
  plain_timestamp field_type ->
  _get_default_value_for_type field_type = null_default field_type.
Proof.
  unfold plain_timestamp, null_default, family_of, _get_default_value_for_type.
  set (t := lower field_type).
  destruct (String.eqb_spec t "date32") as [E|_].
  { rewrite E. intros _. vm_compute. reflexivity. }
  destruct (String.eqb_spec t "bool") as [E|_].
  { rewrite E. intros _. vm_compute. reflexivity. }
  unfold any_in; cbn [existsb].
  destruct (contains "datetime" t) eqn:Hdatetime;
  destruct (contains "timestamp" t) eqn:Htimestamp;
  destruct (contains "int" t) eqn:Hint;
  destruct (contains "uint" t) eqn:Huint;
  destruct (contains "float" t) eqn:Hfloat;
  destruct (contains "double" t) eqn:Hdouble;
  destruct (contains "decimal" t) eqn:Hdecimal;
  cbn [orb andb negb family_default]; intros H; try reflexivity;
    destruct (H eq_refl) as [? ?]; discriminate.
Qed.

Lemma timestamp_null_defaults (field_type : string) :
  family_of field_type = Timestamp ->
  _get_default_value_for_type field_type = timestamp_null field_type.
Proof.
  unfold family_of, timestamp_null, _get_default_value_for_type.
  set (t := lower field_type).
  destruct (String.eqb_spec t "date32") as [E|_].
  { rewrite E. vm_compute. discriminate. }
  destruct (String.eqb_spec t "bool") as [E|_].
  { rewrite E. vm_compute. discriminate. }
  reflexivity.
Qed.

Lemma plain_timestamp_other (field_type : string) :
  family_of field_type <> Timestamp -> plain_timestamp field_type.
Proof. intros H F. contradiction. Qed.

Lemma default_of_integer (field_type : string) :
  family_of field_type = Integer -> _get_default_value_for_type field_type = VInt 0.
Proof.
  intros H. rewrite null_defaults.
  - unfold null_default. now rewrite H.
  - apply plain_timestamp_other. congruence.
Qed.

Lemma convert_unparseable (val : value) (field_type : string) :
  unparseable rt (family_of field_type) val = true ->
  _convert_value_for_clickhouse rt val field_type
  = Ok (family_default (family_of field_type)).
Proof.
  intros H.
  destruct (family_of field_type) eqn:F.
  all: pose proof F as F'; unfold family_of in F'.
  all: unfold _convert_value_for_clickhouse, convert_body.
  all: set (t := lower field_type) in *.
  all: repeat match type of F' with
         | (if ?c then _ else _) = _ => destruct c
         end; try discriminate F'.
  all: destruct val as [|b|z|x|s|d|dt|r]; cbn [unparseable] in H; try discriminate H;
    cbn [family_default];
    try reflexivity.
  - (* Timestamp, text *)
    destruct (first_format rt s _); [discriminate H | reflexivity].
  - (* Day, text *)
    destruct (first_format rt s _); [discriminate H | reflexivity].
  - (* Integer, float *)
    destruct (PyNum.int_of_float x); [discriminate H|].
    cbn [bind]. now rewrite (default_of_integer _ F).
  - (* Integer, text *)
    destruct (PyText.truthy (PyText.strip s)); [|reflexivity].
    cbn [negb orb] in H.
    destruct (float_of_str rt s) as [y|]; [|reflexivity].
    cbn [of_option bind].
    destruct (PyNum.int_of_float y) as [z|e]; [discriminate H|].
    cbn [bind try_except].
    destruct (existsb _ _); [reflexivity|].
    now rewrite (default_of_integer _ F).
  - (* Floating, text *)
    destruct (PyText.truthy (PyText.strip s)); [|reflexivity].
    cbn [negb orb] in H.
    destruct (float_of_str rt s) as [y|]; [discriminate H | reflexivity].
  - (* Boolean, text *)
    apply negb_true_iff in H. now rewrite H.
  - (* Text *)
    rewrite clean_string_value_eq. apply negb_true_iff in H. now rewrite H.
Qed.

End CoercerFacts.

Example sample_float_parse :
  Sample.parse_float (PyText.of_string " 42 ") = Some (S754_finite false 5910974510923776 (-47))
  /\ Sample.parse_float (PyText.of_string "not-a-number") = None
  /\ Sample.parse_datetime (PyText.of_string "2024-02-29") "%Y-%m-%d"
     = Some (DateTime (Date 2024 2 29) 0 0 0 0)
  /\ Sample.parse_datetime (PyText.of_string "2023-02-29") "%Y-%m-%d" = None
  /\ Sample.parse_datetime (PyText.of_string "2024-02-29 10:20:30") "%Y-%m-%d %H:%M:%S"
     = Some (DateTime (Date 2024 2 29) 10 20 30 0).
Proof. vm_compute. repeat split. Qed.

(** C2, as stated, fails: for the decimal type of [DECIMAL(10,2)] a NULL
    is coerced to the integer [0], not to the float [0.0] of the table; and
    for the timestamp type [Timestamp] a NULL is coerced to the empty
    string, not to the timestamp of the table. *)
Lemma null_decimal_gives_integer_zero :
  TypeMapper.map_mysql_type_to_clickhouse "DECIMAL(10,2)" = "Decimal(10,2)"
  /\ family_of "Decimal(10,2)" = Floating
  /\ Coercer._convert_value_for_clickhouse Sample.runtime VNone "Decimal(10,2)" = Ok (VInt 0)
  /\ VInt 0 <> family_default Floating
  /\ family_of "Timestamp" = Timestamp
  /\ Coercer._convert_value_for_clickhouse Sample.runtime VNone "Timestamp" = Ok (VStr [])
  /\ VStr [] <> family_default Timestamp.
Proof. vm_compute. repeat split; discriminate. Qed.

(** C2, amended.  For every target type string [_convert_value_for_clickhouse]
    returns a value and never raises.  For NULL it returns 0 for an integer
    type, 0.0 for a float type, the integer 0 (not 0.0) for a decimal type,
    2000-01-01 for [Date32], false for [Bool] and the empty string for a
    string type.  For a timestamp type, one whose name holds [datetime] or
    [timestamp], NULL gives 2000-01-01T00:00:00 only if the name holds
    [datetime]; it gives the empty string if the name holds [timestamp]
    alone, and the numeric default if the name also holds one of the numeric
    key words.  The rows below are the target types the type mapper
    produces, and [DateTime] and [Timestamp].  For input that is not NULL
    and cannot be read as a value of the family it returns the family's
    default of the table, 0.0 for float and decimal types alike and
    2000-01-01T00:00:00 for every timestamp type. *)
Theorem coercion_total_with_defaults (rt : Runtime) (val : value) (field_type : string) :
  (exists w, Coercer._convert_value_for_clickhouse rt val field_type = Ok w)
  /\ (plain_timestamp field_type ->
      Coercer._convert_value_for_clickhouse rt VNone field_type
      = Ok (null_default field_type))
  /\ (family_of field_type <> Timestamp ->
      Coercer._convert_value_for_clickhouse rt VNone field_type
      = Ok (null_default field_type))
  /\ (family_of field_type = Timestamp ->
      Coercer._convert_value_for_clickhouse rt VNone field_type
      = Ok (timestamp_null field_type))
  /\ Forall (fun '(t, d) => Coercer._convert_value_for_clickhouse rt VNone t = Ok d)
       [ ("Int8", VInt 0); ("UInt8", VInt 0); ("Int16", VInt 0); ("UInt16", VInt 0);
         ("Int32", VInt 0); ("UInt32", VInt 0); ("Int64", VInt 0); ("UInt64", VInt 0);
         ("Float32", VFloat PyNum.fzero); ("Float64", VFloat PyNum.fzero);
         ("Decimal", VInt 0); ("Decimal(10,2)", VInt 0);
         ("Date32", VDate (Date 2000 1 1));
         ("DateTime64(6)", VDateTime (DateTime (Date 2000 1 1) 0 0 0 0));
         ("DateTime", VDateTime (DateTime (Date 2000 1 1) 0 0 0 0));
         ("Timestamp", VStr []);
         ("Bool", VBool false); ("String", VStr []); ("LowCardinality(String)", VStr []) ]
  /\ (unparseable rt (family_of field_type) val = true ->
      Coercer._convert_value_for_clickhouse rt val field_type
      = Ok (family_default (family_of field_type))).
Proof.
  split; [apply convert_total|]. split; [|split; [|split; [|split]]].
  - intros H. rewrite convert_none. f_equal. now apply null_defaults.
  - intros H. rewrite convert_none. f_equal. now apply null_defaults, plain_timestamp_other.
  - intros H. rewrite convert_none. f_equal. now apply timestamp_null_defaults.
  - repeat constructor.
  - apply convert_unparseable.
Qed.

Lemma coercion_total_with_defaults_witness :
  Coercer._convert_value_for_clickhouse Sample.runtime
    (VStr (PyText.of_string "not-a-number")) "Int32" = Ok (VInt 0)
  /\ Coercer._convert_value_for_clickhouse Sample.runtime
       (VStr (PyText.of_string "not-a-number")) "Float64" = Ok (VFloat PyNum.fzero)
  /\ Coercer._convert_value_for_clickhouse Sample.runtime
       (VStr (PyText.of_string "not-a-number")) "Decimal(10,2)" = Ok (VFloat PyNum.fzero)
  /\ Coercer._convert_value_for_clickhouse Sample.runtime VNone "DateTime64(6)"
     = Ok (VDateTime Coercer.sentinel_datetime)
  /\ Coercer._convert_value_for_clickhouse Sample.runtime VNone "Timestamp" = Ok (VStr [])
  /\ Coercer._convert_value_for_clickhouse Sample.runtime
       (VStr (PyText.of_string "not-a-number")) "Timestamp"
     = Ok (VDateTime Coercer.sentinel_datetime).
Proof.
  pose (v := VStr (PyText.of_string "not-a-number")).
  split; [|split; [|split; [|split; [|split]]]].
  - apply (proj2 (proj2 (proj2 (proj2 (proj2
             (coercion_total_with_defaults Sample.runtime v "Int32")))))).
    vm_compute. reflexivity.
  - apply (proj2 (proj2 (proj2 (proj2 (proj2
             (coercion_total_with_defaults Sample.runtime v "Float64")))))).
    vm_compute. reflexivity.
  - apply (proj2 (proj2 (proj2 (proj2 (proj2
             (coercion_total_with_defaults Sample.runtime v "Decimal(10,2)")))))).
    vm_compute. reflexivity.
  - apply (proj1 (proj2 (coercion_total_with_defaults Sample.runtime VNone "DateTime64(6)"))).
    intros _. vm_compute. split; reflexivity.
  - apply (proj1 (proj2 (proj2 (proj2
             (coercion_total_with_defaults Sample.runtime VNone "Timestamp"))))).
    vm_compute. reflexivity.
  - apply (proj2 (proj2 (proj2 (proj2 (proj2
             (coercion_total_with_defaults Sample.runtime v "Timestamp")))))).
    vm_compute. reflexivity.
Defined.

Example sample_migration :
  let '(r, st) := DataMigrator.migrate_table Sample.runtime Sample.mysql Sample.accepts_all
                    Sample.read_csv Sample.config "./clickhouse_mapper/users-users.csv"
                    Sample.fresh in
  success r = true /\ mysql_rows r = 3 /\ clickhouse_rows r = 3
  /\ ch_tables st !! "users"
     = Some [ [VInt 1; VStr (PyText.of_string "ann")]; [VInt 2; VStr []];
              [VInt 3; VStr (PyText.of_string "bob")] ]
  /\ map sql_of (take 2 (ch_log st))
     = [ "EXISTS TABLE `users`";
         create_sql "users"
           ("`id` Int32," +:+ PyStr.nl +:+ "    `user_name` String COMMENT 'display name'")
           "id" "COMMENT 'accounts'" ]
  /\ length (ch_log st) = 5%nat.
Proof. vm_compute. repeat split. Qed.

(** ** Properties of the orchestrator *)

Section MigratorFacts.
Import ClickHouseClientV3 DataMigrator.
Context (rt : Runtime) (my : MySQL) (rejects : fault)
        (read_csv : filesystem) (cfg : Config).

(** a body that raises becomes a failed result with the exception's text *)
Lemma migrate_table_raise (csv_file : string) (tm : TableMapping) (st st' : ch_state)
    (e : exn) :
  CSVMappingLoader.load_csv_mapping read_csv csv_file = Ok tm ->
  migrate_body rt my rejects cfg tm st = (Raise e, st') ->
  migrate_table rt my rejects read_csv cfg csv_file st = (failed (Some tm) e, st').
Proof. intros Hl Hb. unfold migrate_table. now rewrite Hl, Hb. Qed.

Lemma migrate_table_ok (csv_file : string) (tm : TableMapping) (st st' : ch_state)
    (r : MigrationResult) :
  CSVMappingLoader.load_csv_mapping read_csv csv_file = Ok tm ->
  migrate_body rt my rejects cfg tm st = (Ok r, st') ->
  migrate_table rt my rejects read_csv cfg csv_file st = (r, st').
Proof. intros Hl Hb. unfold migrate_table. now rewrite Hl, Hb. Qed.

Lemma migrate_body_zero_rows (tm : TableMapping) (st : ch_state) :
  MySQLClient.get_table_row_count my (mysql_table tm) = 0 ->
  migrate_body rt my rejects cfg tm st
  = (Ok {| table_mapping := Some tm; success := false; mysql_rows := 0;
           clickhouse_rows := 0; error_message := "MySQL表不存在或为空" |}, st).
Proof. intros H. unfold migrate_body. now rewrite H. Qed.

End MigratorFacts.

(** C9. When the source row count of the mapped table is 0, [migrate_table]
    returns at once a failed result whose message says that the MySQL table
    does not exist or is empty; the target is left as it was: no statement
    is sent, so no table is created and no row is streamed. *)
Theorem empty_source_fails_without_touching_target
    (rt : Runtime) (my : MySQL) (rejects : fault) (read_csv : filesystem) (cfg : Config)
    (csv_file : string) (tm : TableMapping) (st : ch_state) :
  CSVMappingLoader.load_csv_mapping read_csv csv_file = Ok tm ->
  MySQLClient.get_table_row_count my (mysql_table tm) = 0 ->
  DataMigrator.migrate_table rt my rejects read_csv cfg csv_file st
  = ({| table_mapping := Some tm; success := false; mysql_rows := 0;
        clickhouse_rows := 0; error_message := "MySQL表不存在或为空" |}, st).
Proof.
  intros Hl Hz.
  apply (migrate_table_ok rt my rejects read_csv cfg csv_file tm st st _ Hl).
  now apply migrate_body_zero_rows.
Qed.

Lemma sample_mapping_loads :
  CSVMappingLoader.load_csv_mapping Sample.read_csv Sample.users_csv = Ok Sample.users_mapping.
Proof. vm_compute. reflexivity. Qed.

Lemma empty_source_fails_without_touching_target_witness :
  DataMigrator.migrate_table Sample.runtime Sample.mysql_empty Sample.accepts_all
    Sample.read_csv Sample.config Sample.users_csv Sample.fresh
  = ({| table_mapping := Some Sample.users_mapping; success := false; mysql_rows := 0;
        clickhouse_rows := 0; error_message := "MySQL表不存在或为空" |}, Sample.fresh).
Proof.
  apply (empty_source_fails_without_touching_target Sample.runtime Sample.mysql_empty
           Sample.accepts_all Sample.read_csv Sample.config Sample.users_csv
           Sample.users_mapping Sample.fresh).
  - vm_compute. reflexivity.
  - reflexivity.
Defined.

(** C3, as stated, fails: on a source whose count query cannot be executed
    [get_table_row_count] returns 0 and raises nothing. *)
Lemma failed_count_query_reads_as_zero :
  is_ok (my_count Sample.mysql_down "users") = false
  /\ MySQLClient.get_table_row_count Sample.mysql_down "users" = 0
  /\ MySQLClient.get_table_row_count Sample.mysql_empty "users" = 0.
Proof. repeat split. Qed.

(** C3, amended.  [MySQLClient.get_table_row_count] never raises: it returns
    the count when the query succeeds and 0 when the table does not exist or
    the query cannot be executed.  The caller cannot tell a failed query
    from a table with zero rows, and [migrate_table] gives the same failed
    result in both cases. *)
Theorem source_count_failure_reads_as_empty
    (rt : Runtime) (my_failed my_empty : MySQL) (rejects : fault) (read_csv : filesystem)
    (cfg : Config) (csv_file : string) (tm : TableMapping) (e : exn) (st : ch_state) :
  CSVMappingLoader.load_csv_mapping read_csv csv_file = Ok tm ->
  my_count my_failed (mysql_table tm) = Raise e ->
  my_count my_empty (mysql_table tm) = Ok 0 ->
  MySQLClient.get_table_row_count my_failed (mysql_table tm) = 0
  /\ MySQLClient.get_table_row_count my_empty (mysql_table tm) = 0
  /\ DataMigrator.migrate_table rt my_failed rejects read_csv cfg csv_file st
     = DataMigrator.migrate_table rt my_empty rejects read_csv cfg csv_file st
  /\ (forall (my : MySQL) (n : Z),
        my_count my (mysql_table tm) = Ok n ->
        MySQLClient.get_table_row_count my (mysql_table tm) = n).
Proof.
  intros Hl Hf He.
  assert (Zf : MySQLClient.get_table_row_count my_failed (mysql_table tm) = 0)
    by (unfold MySQLClient.get_table_row_count; now rewrite Hf).
  assert (Ze : MySQLClient.get_table_row_count my_empty (mysql_table tm) = 0)
    by (unfold MySQLClient.get_table_row_count; now rewrite He).
  repeat split; try assumption.
  - rewrite (migrate_table_ok rt my_failed rejects read_csv cfg csv_file tm st st _ Hl
               (migrate_body_zero_rows rt my_failed rejects cfg tm st Zf)).
    now rewrite (migrate_table_ok rt my_empty rejects read_csv cfg csv_file tm st st _ Hl
                   (migrate_body_zero_rows rt my_empty rejects cfg tm st Ze)).
  - intros my n Hn. unfold MySQLClient.get_table_row_count. now rewrite Hn.
Qed.

Lemma source_count_failure_reads_as_empty_witness :
  MySQLClient.get_table_row_count Sample.mysql_down "users" = 0
  /\ DataMigrator.migrate_table Sample.runtime Sample.mysql_down Sample.accepts_all
       Sample.read_csv Sample.config Sample.users_csv Sample.fresh
     = DataMigrator.migrate_table Sample.runtime Sample.mysql_empty Sample.accepts_all
         Sample.read_csv Sample.config Sample.users_csv Sample.fresh.
Proof.
  destruct (source_count_failure_reads_as_empty Sample.runtime Sample.mysql_down
              Sample.mysql_empty Sample.accepts_all Sample.read_csv Sample.config
              Sample.users_csv Sample.users_mapping
              (Exn DatabaseError "(2013, 'Lost connection to MySQL server')") Sample.fresh)
    as (H1 & _ & H3 & _).
  - vm_compute. reflexivity.
  - reflexivity.
  - reflexivity.
  - split; [exact H1 | exact H3].
Defined.

(** ** Properties of table creation *)

Section CreateTableFacts.
Import PyStr ClickHouseClientV3.

Lemma append_assoc (a b c : string) : (a +:+ b) +:+ c = a +:+ b +:+ c.
Proof.
  induction a as [|x a IH]; [reflexivity|].
  change (String x ((a +:+ b) +:+ c) = String x (a +:+ b +:+ c)). now rewrite IH.
Qed.






End CreateTableFacts.

Lemma fields_loop (tm : TableMapping) (mysql_structure : list (string * string * string))
    (acc : list (string * string * string)) (final : gmap string (string * string)) :
  fst (foldl (DataMigrator.fields_step tm) (acc, final) mysql_structure)
  = acc ++ omap (mapped_field tm) mysql_structure.
Proof.
  revert acc final. induction mysql_structure as [|[[f t] c] l IH]; intros acc final.
  - cbn. now rewrite app_nil_r.
  - cbn [foldl].
    assert (E : omap (mapped_field tm) ((f, t, c) :: l)
                = match mapped_field tm (f, t, c) with
                  | Some y => y :: omap (mapped_field tm) l
                  | None => omap (mapped_field tm) l
                  end) by reflexivity.
    rewrite E. clear E.
    destruct (DataMigrator.fields_step tm (acc, final) (f, t, c)) as [acc' final'] eqn:Hs.
    rewrite IH. unfold DataMigrator.fields_step in Hs. unfold mapped_field.
    destruct (field_mappings tm !! f) as [[cf ?]|]; injection Hs as <- _.
    + now rewrite <- app_assoc.
    + reflexivity.
Qed.


Example create_table_sample :
  ClickHouseClientV3.create_table Sample.accepts_all "users"
    [("id", "Int32", ""); ("user_name", "String", "display name")] "accounts" Sample.fresh
  = (Ok tt,
     ChState {[ "users" := [] ]}
       [ CreateTable "users"
           ("`id` Int32," +:+ PyStr.nl +:+ "    `user_name` String COMMENT 'display name'")
           "id" "COMMENT 'accounts'" ]).
Proof. vm_compute. reflexivity. Qed.

(** ** Properties of the target store and of the batch insert *)

Section InsertFacts.
Import ClickHouseClientV3.
Context (rt : Runtime) (rejects : fault).

Lemma execute_log (q : stmt) (st : ch_state) :
  ch_log (snd (execute rejects q st)) = ch_log st ++ [q].
Proof.
  unfold execute. destruct (rejects st q); [reflexivity|].
  destruct q; try reflexivity; destruct (ch_tables st !! _); reflexivity.
Qed.

(** a statement that fails leaves every table as it was *)
Lemma execute_raise_tables (q : stmt) (st st' : ch_state) (e : exn) :
  execute rejects q st = (Raise e, st') -> ch_tables st' = ch_tables st.
Proof.
  unfold execute. destruct (rejects st q).
  - intros [= _ <-]. reflexivity.
  - destruct q; try discriminate;
      destruct (ch_tables st !! _); try discriminate; intros [= _ <-]; reflexivity.
Qed.

(** an insert that succeeds appends its rows to the table *)
Lemma execute_insert_ok (t : string) (fs : list string) (data : list row)
    (st st' : ch_state) (a : list row) :
  execute rejects (Insert t fs data) st = (Ok a, st') ->
  ch_tables st' = appended t data (ch_tables st).
Proof.
  unfold execute, appended. destruct (rejects st _); [discriminate|].
  destruct (ch_tables st !! t); [|discriminate].
  intros [= _ <-]. reflexivity.
Qed.

Lemma appended_nil (t : string) (tbls : gmap string (list row)) : appended t [] tbls = tbls.
Proof.
  unfold appended. destruct (tbls !! t) as [old|] eqn:E; [|reflexivity].
  rewrite app_nil_r. now apply insert_id.
Qed.

Lemma appended_app (t : string) (a b : list row) (tbls : gmap string (list row)) :
  appended t b (appended t a tbls) = appended t (a ++ b) tbls.
Proof.
  unfold appended. destruct (tbls !! t) as [old|] eqn:E.
  - rewrite lookup_insert_eq, insert_insert_eq. now rewrite app_assoc.
  - now rewrite E.
Qed.

(** the retry loop: it sends [attempts] single-row inserts, for the first
    rows in order; the first [kept] of them succeed and stay in the table;
    only the last attempt can have failed, and the loop stops there *)
Lemma retry_rows_spec (t : string) (fs : list string) (rows : list row) (st : ch_state) :
  exists attempts kept : nat,
    (kept <= attempts <= length rows)%nat
    /\ (attempts <= kept + 1)%nat
    /\ (attempts = kept -> attempts = length rows)
    /\ retry_outcome rejects t fs rows st attempts kept
    /\ ch_log (retry_rows rejects t fs rows st)
       = ch_log st ++ map (single_insert t fs) (take attempts rows)
    /\ ch_tables (retry_rows rejects t fs rows st)
       = appended t (take kept rows) (ch_tables st).
Proof.
  revert st. induction rows as [|r rows IH]; intros st.
  - exists 0%nat, 0%nat. cbn. rewrite app_nil_r, appended_nil.
    repeat split; try lia. left. now split.
  - cbn [retry_rows].
    pose proof (execute_log (Insert t fs [r]) st) as Hlog.
    destruct (execute rejects (Insert t fs [r]) st) as [[a|e] st'] eqn:Hx.
    + destruct (IH st') as (n & k & Hle & Hle' & Hall & [Hacc Hend] & Hl & Ht).
      exists (S n), (S k). cbn [snd] in Hlog.
      rewrite Hl, Ht, Hlog, (execute_insert_ok _ _ _ _ _ _ Hx), appended_app.
      cbn [take map length]. rewrite <- app_assoc.
      repeat split; try lia.
      * intros [|i] r0 Hi Hr0.
        -- injection Hr0 as <-. unfold single_accepted, after_singles, single_insert.
           cbn [firstn foldl]. now rewrite Hx.
        -- unfold after_singles. cbn [firstn foldl]. unfold single_insert at 2.
           rewrite Hx. cbn [snd]. apply Hacc; [lia | exact Hr0].
      * destruct Hend as [[-> ->]|(-> & r0 & Hr0 & Hno)]; [left; now split|].
        right. split; [reflexivity|]. exists r0. split; [exact Hr0|].
        unfold after_singles. cbn [firstn foldl]. unfold single_insert at 2.
        rewrite Hx. exact Hno.
    + exists 1%nat, 0%nat. cbn [snd] in Hlog.
      rewrite Hlog, (execute_raise_tables _ _ _ _ Hx), appended_nil.
      cbn [firstn map length]. repeat split; try lia.
      right. split; [reflexivity|]. exists r. split; [reflexivity|].
      unfold single_accepted, after_singles, single_insert. cbn [firstn foldl].
      now rewrite Hx.
Qed.

(** [insert_batch] after a refused bulk insert *)
Lemma insert_batch_rejected (t : string) (names : list string) (data_batch : list row)
    (types : option (list string)) (st : ch_state) (e : exn) :
  fst (execute rejects (Insert t names (map (Coercer.process_row rt types) data_batch)) st)
  = Raise e ->
  exists attempts kept : nat,
    (kept <= attempts <= 5)%nat
    /\ (attempts <= length data_batch)%nat
    /\ (attempts <= kept + 1)%nat
    /\ retry_outcome rejects t names
         (take 5 (map (Coercer.process_row rt types) data_batch))
         (snd (execute rejects
                 (Insert t names (map (Coercer.process_row rt types) data_batch)) st))
         attempts kept
    /\ fst (insert_batch rt rejects t names data_batch types st)
       = Raise (Exn PlainException
                  ("批量插入数据失败: " +:+ "批量插入数据失败: " +:+ exn_msg e))
    /\ ch_log (snd (insert_batch rt rejects t names data_batch types st))
       = ch_log st
         ++ Insert t names (map (Coercer.process_row rt types) data_batch)
            :: map (single_insert t names)
                 (take attempts (map (Coercer.process_row rt types) data_batch))
    /\ ch_tables (snd (insert_batch rt rejects t names data_batch types st))
       = appended t (take kept (map (Coercer.process_row rt types) data_batch))
           (ch_tables st).
Proof.
  intros Hx. unfold insert_batch.
  set (processed := map (Coercer.process_row rt types) data_batch) in *.
  pose proof (execute_log (Insert t names processed) st) as Hlog.
  destruct (execute rejects (Insert t names processed) st) as [r st1] eqn:Hb.
  cbn [fst snd] in Hx, Hlog. subst r.
  destruct (retry_rows_spec t names (take 5 processed) st1)
    as (n & k & Hle & Hle' & _ & Hout & Hl & Ht).
  rewrite length_take in Hle.
  assert (Hlen : length processed = length data_batch) by apply length_map.
  exists n, k. cbn [fst snd]. rewrite Hl, Ht, Hlog, (execute_raise_tables _ _ _ _ Hb).
  rewrite !take_take, !Nat.min_l by lia. rewrite <- app_assoc.
  repeat split; try lia; apply Hout.
Qed.

End InsertFacts.

(** ** The streaming loop inside [migrate_table] *)

Section StreamFacts.
Import ClickHouseClientV3 DataMigrator.
Context (rt : Runtime) (my : MySQL) (rejects : fault)
        (read_csv : filesystem) (cfg : Config).

Lemma stream_app (tm : TableMapping) (cols : list (nat * (string * string)))
    (done rest : list (list row)) (st : ch_state) :
  stream rt rejects tm cols (done ++ rest) st
  = match stream rt rejects tm cols done st with
    | (Ok _, st') => stream rt rejects tm cols rest st'
    | (Raise e, st') => (Raise e, st')
    end.
Proof.
  revert st. induction done as [|b done IH]; intros st; [reflexivity|].
  cbn [app stream]. destruct (map_rows cols b); [|reflexivity].
  destruct (insert_batch _ _ _ _ _ _ st) as [[[]|e] st']; [apply IH | reflexivity].
Qed.

(** a run that is not skipped continues with [build_and_migrate] *)
Lemma migrate_body_not_skipped (tm : TableMapping) (st : ch_state) :
  not_skipped my rejects cfg tm st ->
  migrate_body rt my rejects cfg tm st
  = build_and_migrate rt my rejects cfg tm
      (MySQLClient.get_table_row_count my (mysql_table tm)) (prepared rejects cfg tm st).
Proof.
  intros (Hn & Hskip). unfold migrate_body, prepared.
  apply Z.eqb_neq in Hn. rewrite Hn.
  destruct (table_exists rejects (clickhouse_table tm) st) as [present st1].
  cbn [fst] in Hskip. now rewrite Hskip.
Qed.

(** a run that reaches the streaming loop continues with [migrate_data] *)
Lemma migrate_body_reaches (tm : TableMapping) (st st3 : ch_state)
    (mysql_structure : list (string * string * string)) :
  reaches_streaming my rejects cfg tm st mysql_structure st3 ->
  migrate_body rt my rejects cfg tm st
  = migrate_data rt my rejects cfg tm
      (MySQLClient.get_table_row_count my (mysql_table tm)) mysql_structure
      (snd (foldl (fields_step tm) ([], ∅) mysql_structure)) st3.
Proof.
  intros (Hn & Hs & Hc). rewrite (migrate_body_not_skipped tm st Hn).
  unfold build_and_migrate. rewrite Hs. unfold mapped_fields in Hc.
  destruct (foldl (fields_step tm) ([], ∅) mysql_structure) as [fields final].
  cbn [fst snd] in *. now rewrite Hc.
Qed.


Lemma build_create_raise (tm : TableMapping) (n : Z) (st st' : ch_state)
    (mysql_structure : list (string * string * string)) (e : exn) :
  MySQLClient.get_table_structure my (mysql_table tm) = Ok mysql_structure ->
  create_table rejects (clickhouse_table tm) (mapped_fields tm mysql_structure)
    (MySQLClient.get_table_comment my (mysql_table tm)) st = (Raise e, st') ->
  build_and_migrate rt my rejects cfg tm n st = (Raise e, st').
Proof.
  intros Hs Hc. unfold build_and_migrate. rewrite Hs. unfold mapped_fields in Hc.
  destruct (foldl (fields_step tm) ([], ∅) mysql_structure) as [fields final].
  cbn [fst] in Hc. now rewrite Hc.
Qed.

Lemma migrate_data_raise (tm : TableMapping) (n : Z)
    (mysql_structure : list (string * string * string))
    (final : gmap string (string * string)) (st st' : ch_state)
    (batches : list (list row)) (ended : option exn) (e : exn) :
  MySQLClient.get_table_data my (mysql_table tm) (batch_size cfg) = (batches, ended) ->
  stream rt rejects tm (mapped_columns mysql_structure final) batches st = (Raise e, st') ->
  migrate_data rt my rejects cfg tm n mysql_structure final st = (Raise e, st').
Proof. intros Hg Hs. unfold migrate_data. now rewrite Hg, Hs. Qed.

Lemma migrate_data_ok (tm : TableMapping) (n : Z)
    (mysql_structure : list (string * string * string))
    (final : gmap string (string * string)) (st st' : ch_state)
    (batches : list (list row)) :
  MySQLClient.get_table_data my (mysql_table tm) (batch_size cfg) = (batches, None) ->
  stream rt rejects tm (mapped_columns mysql_structure final) batches st = (Ok tt, st') ->
  migrate_data rt my rejects cfg tm n mysql_structure final st = verify rejects tm n st'.
Proof. intros Hg Hs. unfold migrate_data. now rewrite Hg, Hs. Qed.

Lemma map_rows_length (cols : list (nat * (string * string))) (batch_data mapped : list row) :
  map_rows cols batch_data = Ok mapped -> length mapped = length batch_data.
Proof.
  revert mapped. induction batch_data as [|r l IH]; intros mapped.
  - intros [= <-]. reflexivity.
  - cbn [map_rows]. destruct (map_row cols r); [|discriminate]. cbn [bind].
    destruct (map_rows cols l) as [ms|]; [|discriminate]. cbn [bind].
    intros [= <-]. cbn. f_equal. now apply IH.
Qed.

End StreamFacts.

(** what [migrate_table] does when the bulk insert of one batch is refused,
    after the batches [done] went through *)
Lemma failed_batch_outcome
    (rt : Runtime) (my : MySQL) (rejects : fault) (read_csv : filesystem) (cfg : Config)
    (csv_file : string) (tm : TableMapping) (st st3 st_k : ch_state)
    (mysql_structure : list (string * string * string))
    (done rest : list (list row)) (batch_data mapped_data : list row)
    (ended : option exn) (e : exn) :
  let cols := stream_columns tm mysql_structure in
  let names := map (fun c => fst (snd c)) cols in
  let types := Some (map (fun c => snd (snd c)) cols) in
  let processed := map (Coercer.process_row rt types) mapped_data in
  let bulk := Insert (clickhouse_table tm) names processed in
  CSVMappingLoader.load_csv_mapping read_csv csv_file = Ok tm ->
  reaches_streaming my rejects cfg tm st mysql_structure st3 ->
  MySQLClient.get_table_data my (mysql_table tm) (batch_size cfg)
  = (done ++ batch_data :: rest, ended) ->
  DataMigrator.stream rt rejects tm cols done st3 = (Ok tt, st_k) ->
  DataMigrator.map_rows cols batch_data = Ok mapped_data ->
  fst (execute rejects bulk st_k) = Raise e ->
  exists (attempts kept : nat) (st' : ch_state),
    (kept <= attempts <= 5)%nat
    /\ (attempts <= kept + 1)%nat
    /\ (attempts <= length batch_data)%nat
    /\ retry_outcome rejects (clickhouse_table tm) names (take 5 processed)
         (snd (execute rejects bulk st_k)) attempts kept
    /\ DataMigrator.migrate_table rt my rejects read_csv cfg csv_file st
       = (DataMigrator.failed (Some tm)
            (Exn PlainException
               ("批量插入数据失败: " +:+ "批量插入数据失败: " +:+ exn_msg e)), st')
    /\ ch_log st'
       = ch_log st_k
         ++ bulk :: map (single_insert (clickhouse_table tm) names) (take attempts processed)
    /\ ch_tables st' = appended (clickhouse_table tm) (take kept processed) (ch_tables st_k).
Proof.
  intros cols names types processed bulk Hl Hr Hg Hd Hm Hx.
  destruct (insert_batch_rejected rt rejects (clickhouse_table tm) names mapped_data types
              st_k e Hx) as (n & k & Hle & Hlen & Hlast & Hout & Hf & Hlog & Htab).
  rewrite (map_rows_length _ _ _ Hm) in Hlen.
  exists n, k.
  destruct (ClickHouseClientV3.insert_batch rt rejects (clickhouse_table tm) names
              mapped_data types st_k) as [r st'] eqn:Hi.
  cbn [fst snd] in Hf, Hlog, Htab. subst r.
  exists st'.
  repeat split;
    [lia | lia | exact Hlast | exact Hlen | apply Hout | apply Hout | | exact Hlog
     | exact Htab].
  apply (migrate_table_raise rt my rejects read_csv cfg csv_file tm st st' _ Hl).
  rewrite (migrate_body_reaches rt my rejects cfg tm st st3 mysql_structure Hr).
  apply (migrate_data_raise rt my rejects cfg tm _ mysql_structure _ st3 st' _ ended _ Hg).
  fold (stream_columns tm mysql_structure). fold cols.
  rewrite stream_app, Hd. cbn [DataMigrator.stream]. rewrite Hm.
  fold names. fold types. now rewrite Hi.
Qed.

(** C6.  When the target refuses the bulk insert of a batch, [insert_batch]
    sends the rows of that batch again one at a time, in order, going no
    further than the fifth row: a row is sent when every row before it was
    accepted, so the retry ends with the first row that is refused, which
    is the offending row, or after the fifth row or the last row of the
    batch.  For a batch that is not empty at least one row is sent.  Then
    [insert_batch] raises "bulk insert failed".  The streaming loop stops there: nothing else is
    sent to the target, and [migrate_table] returns a failed result that
    carries the error text. *)
Theorem rejected_batch_is_retried_then_raised
    (rt : Runtime) (my : MySQL) (rejects : fault) (read_csv : filesystem) (cfg : Config)
    (csv_file : string) (tm : TableMapping) (st st3 st_k : ch_state)
    (mysql_structure : list (string * string * string))
    (done rest : list (list row)) (batch_data mapped_data : list row)
    (ended : option exn) (e : exn) :
  let cols := stream_columns tm mysql_structure in
  let names := map (fun c => fst (snd c)) cols in
  let types := Some (map (fun c => snd (snd c)) cols) in
  let processed := map (Coercer.process_row rt types) mapped_data in
  let bulk := Insert (clickhouse_table tm) names processed in
  CSVMappingLoader.load_csv_mapping read_csv csv_file = Ok tm ->
  reaches_streaming my rejects cfg tm st mysql_structure st3 ->
  MySQLClient.get_table_data my (mysql_table tm) (batch_size cfg)
  = (done ++ batch_data :: rest, ended) ->
  DataMigrator.stream rt rejects tm cols done st3 = (Ok tt, st_k) ->
  DataMigrator.map_rows cols batch_data = Ok mapped_data ->
  fst (execute rejects bulk st_k) = Raise e ->
  exists (attempts kept : nat) (st' : ch_state),
    (attempts <= 5)%nat
    /\ (attempts <= length batch_data)%nat
    /\ (batch_data <> [] -> (1 <= attempts)%nat)
    /\ retry_outcome rejects (clickhouse_table tm) names (take 5 processed)
         (snd (execute rejects bulk st_k)) attempts kept
    /\ DataMigrator.migrate_table rt my rejects read_csv cfg csv_file st
       = ({| table_mapping := Some tm; success := false; mysql_rows := 0;
             clickhouse_rows := 0;
             error_message :=
               "批量插入数据失败: " +:+ "批量插入数据失败: " +:+ exn_msg e |}, st')
    /\ ch_log st'
       = ch_log st_k
         ++ bulk :: map (single_insert (clickhouse_table tm) names) (take attempts processed).
Proof.
  intros cols names types processed bulk Hl Hr Hg Hd Hm Hx.
  destruct (failed_batch_outcome rt my rejects read_csv cfg csv_file tm st st3 st_k
              mysql_structure done rest batch_data mapped_data ended e Hl Hr Hg Hd Hm Hx)
    as (n & k & st' & Hle & _ & Hlen & Hout & Hres & Hlog & _).
  exists n, k, st'.
  repeat split; [lia | exact Hlen | | apply Hout | apply Hout | exact Hres | exact Hlog].
  intros Hne. destruct Hout as [_ [[-> Hk]|[-> _]]]; [|lia].
  fold cols names types processed in Hk.
  rewrite length_take in Hk.
  assert (Hp : length processed = length batch_data).
  { subst processed. rewrite length_map. apply (map_rows_length _ _ _ Hm). }
  destruct batch_data; [contradiction|]. cbn [length] in Hp. lia.
Qed.

Lemma rejected_batch_is_retried_then_raised_witness :
  exists (attempts : nat) (st' : ch_state),
    (1 <= attempts <= 2)%nat
    /\ DataMigrator.migrate_table Sample.runtime Sample.mysql_eight Sample.refuses_13
         Sample.read_csv Sample.config Sample.users_csv Sample.fresh
       = ({| table_mapping := Some Sample.users_mapping; success := false; mysql_rows := 0;
             clickhouse_rows := 0;
             error_message :=
               "批量插入数据失败: 批量插入数据失败: Code: 53. Type mismatch in VALUES section" |},
          st').
Proof.
  pose (cols := stream_columns Sample.users_mapping
                  [("id", "int", ""); ("name", "varchar", "display name");
                   ("created", "timestamp", "")]).
  pose (st3 := snd (ClickHouseClientV3.create_table Sample.refuses_13 "users"
                      [("id", "Int32", ""); ("user_name", "String", "display name")]
                      "accounts"
                      (snd (ClickHouseClientV3.table_exists Sample.refuses_13 "users"
                              Sample.fresh)))).
  pose (done := [map Sample.user_row [1; 2]; map Sample.user_row [3; 4];
                 map Sample.user_row [5; 6]]).
  pose (st_k := snd (DataMigrator.stream Sample.runtime Sample.refuses_13
                       Sample.users_mapping cols done st3)).
  destruct (rejected_batch_is_retried_then_raised Sample.runtime Sample.mysql_eight
              Sample.refuses_13 Sample.read_csv Sample.config Sample.users_csv
              Sample.users_mapping Sample.fresh st3 st_k
              [("id", "int", ""); ("name", "varchar", "display name");
               ("created", "timestamp", "")]
              done [] (map Sample.user_row [7; 13])
              [[VInt 7; VStr (PyText.of_string "user")];
               [VInt 13; VStr (PyText.of_string "user")]]
              None (Exn DatabaseError "Code: 53. Type mismatch in VALUES section"))
    as (n & k & st' & H5 & H2 & H1 & _ & Hres & Hlog).
  - vm_compute. reflexivity.
  - vm_compute. repeat split. discriminate.
  - vm_compute. reflexivity.
  - vm_compute. reflexivity.
  - vm_compute. reflexivity.
  - vm_compute. reflexivity.
  - exists n, st'. repeat split; [apply H1; discriminate | exact H2 | exact Hres].
Defined.

Example sample_failed_batch :
  let '(r, st) := DataMigrator.migrate_table Sample.runtime Sample.mysql_eight
                    Sample.refuses_13 Sample.read_csv Sample.config Sample.users_csv
                    Sample.fresh in
  success r = false
  /\ ch_tables st !! "users"
     = Some (map (fun id => [VInt id; VStr (PyText.of_string "user")]) [1; 2; 3; 4; 5; 6; 7])
  /\ drop 5 (ch_log st)
     = [ Insert "users" ["id"; "user_name"]
           [ [VInt 7; VStr (PyText.of_string "user")];
             [VInt 13; VStr (PyText.of_string "user")] ];
         Insert "users" ["id"; "user_name"] [ [VInt 7; VStr (PyText.of_string "user")] ];
         Insert "users" ["id"; "user_name"] [ [VInt 13; VStr (PyText.of_string "user")] ] ].
Proof. vm_compute. repeat split. Qed.

(** C10, as stated, fails: a row of the first five that would be accepted
    on its own is not inserted when a row before it is refused.  In a batch
    with the identifiers 13, 1 and 2 the retry stops at the first row: the
    table stays empty, the only single-row insert sent is the one of row
    13, and the target would have accepted the rows 1 and 2. *)
Lemma rows_after_refused_row_are_not_retried :
  success (fst (DataMigrator.migrate_table Sample.runtime
                  (Sample.source_of (map Sample.user_row [13; 1; 2])) Sample.refuses_13
                  Sample.read_csv Sample.config_wide Sample.users_csv Sample.fresh))
  = false
  /\ ch_tables (snd (DataMigrator.migrate_table Sample.runtime
                       (Sample.source_of (map Sample.user_row [13; 1; 2]))
                       Sample.refuses_13 Sample.read_csv Sample.config_wide
                       Sample.users_csv Sample.fresh)) !! "users" = Some []
  /\ drop 3 (ch_log (snd (DataMigrator.migrate_table Sample.runtime
                            (Sample.source_of (map Sample.user_row [13; 1; 2]))
                            Sample.refuses_13 Sample.read_csv Sample.config_wide
                            Sample.users_csv Sample.fresh)))
     = [ single_insert "users" ["id"; "user_name"]
           [VInt 13; VStr (PyText.of_string "user")] ]
  /\ Forall (fun id =>
               single_accepted Sample.refuses_13 "users" ["id"; "user_name"]
                 (snd (DataMigrator.migrate_table Sample.runtime
                         (Sample.source_of (map Sample.user_row [13; 1; 2]))
                         Sample.refuses_13 Sample.read_csv Sample.config_wide
                         Sample.users_csv Sample.fresh))
                 [VInt id; VStr (PyText.of_string "user")] = true)
       [1; 2].
Proof. vm_compute. repeat split. repeat constructor. Qed.

(** C10, amended.  The single-row retry after a refused bulk insert sends
    real inserts.  When [migrate_table] fails on a refused batch, the retry
    has sent single-row inserts for the first [attempts] rows of that
    batch, at most five.  The [kept] rows it got in are the leading rows of
    the batch that the target accepts one after the other: the retry ends
    with the first row that is refused, and the rows after that one are not
    sent, whether the target would accept them or not.  The rows that were
    accepted stay in the target after the error is raised: the table holds
    what it held before that batch (the rows of the earlier batches among
    them) followed by those rows.  The second part shows a run that leaves
    five rows of the refused batch in the target. *)
Theorem retried_rows_stay_in_target :
  (forall (rt : Runtime) (my : MySQL) (rejects : fault) (read_csv : filesystem)
          (cfg : Config) (csv_file : string) (tm : TableMapping) (st st3 st_k : ch_state)
          (mysql_structure : list (string * string * string))
          (done rest : list (list row)) (batch_data mapped_data : list row)
          (ended : option exn) (e : exn),
      let cols := stream_columns tm mysql_structure in
      let names := map (fun c => fst (snd c)) cols in
      let types := Some (map (fun c => snd (snd c)) cols) in
      let processed := map (Coercer.process_row rt types) mapped_data in
      let bulk := Insert (clickhouse_table tm) names processed in
      CSVMappingLoader.load_csv_mapping read_csv csv_file = Ok tm ->
      reaches_streaming my rejects cfg tm st mysql_structure st3 ->
      MySQLClient.get_table_data my (mysql_table tm) (batch_size cfg)
      = (done ++ batch_data :: rest, ended) ->
      DataMigrator.stream rt rejects tm cols done st3 = (Ok tt, st_k) ->
      DataMigrator.map_rows cols batch_data = Ok mapped_data ->
      fst (execute rejects bulk st_k) = Raise e ->
      exists (attempts kept : nat) (r : MigrationResult) (st' : ch_state),
        (kept <= attempts <= 5)%nat
        /\ (attempts <= kept + 1)%nat
        /\ (kept <= length batch_data)%nat
        /\ retry_outcome rejects (clickhouse_table tm) names (take 5 processed)
             (snd (execute rejects bulk st_k)) attempts kept
        /\ DataMigrator.migrate_table rt my rejects read_csv cfg csv_file st = (r, st')
        /\ success r = false
        /\ ch_log st'
           = ch_log st_k
             ++ bulk :: map (single_insert (clickhouse_table tm) names)
                          (take attempts processed)
        /\ ch_tables st'
           = appended (clickhouse_table tm) (take kept processed) (ch_tables st_k)
        /\ (forall old, ch_tables st_k !! clickhouse_table tm = Some old ->
              ch_tables st' !! clickhouse_table tm = Some (old ++ take kept processed)))
  /\ (let '(r, st') := DataMigrator.migrate_table Sample.runtime Sample.mysql_six
                         Sample.refuses_13 Sample.read_csv Sample.config_wide
                         Sample.users_csv Sample.fresh in
      success r = false
      /\ ch_tables st' !! "users"
         = Some (map (fun id => [VInt id; VStr (PyText.of_string "user")]) [1; 2; 3; 4; 5])).
Proof.
  split; [|vm_compute; split; reflexivity].
  intros rt my rejects read_csv cfg csv_file tm st st3 st_k mysql_structure done rest
    batch_data mapped_data ended e cols names types processed bulk Hl Hr Hg Hd Hm Hx.
  destruct (failed_batch_outcome rt my rejects read_csv cfg csv_file tm st st3 st_k
              mysql_structure done rest batch_data mapped_data ended e Hl Hr Hg Hd Hm Hx)
    as (n & k & st' & Hle & Hlast & Hlen & Hout & Hres & Hlog & Htab).
  exists n, k, (DataMigrator.failed (Some tm)
                  (Exn PlainException
                     ("批量插入数据失败: " +:+ "批量插入数据失败: " +:+ exn_msg e))), st'.
  repeat split;
    [lia | lia | exact Hlast | lia | apply Hout | apply Hout | exact Hres | exact Hlog
     | exact Htab |].
  intros old Hold. rewrite Htab. unfold appended. fold cols names types processed.
  rewrite Hold. apply lookup_insert_eq.
Qed.

Lemma retried_rows_stay_in_target_witness :
  exists (kept : nat) (r : MigrationResult) (st' : ch_state),
    (kept <= 5)%nat
    /\ DataMigrator.migrate_table Sample.runtime Sample.mysql_six Sample.refuses_13
         Sample.read_csv Sample.config_wide Sample.users_csv Sample.fresh = (r, st')
    /\ success r = false.
Proof.
  pose (structure := [("id", "int", ""); ("name", "varchar", "display name");
                      ("created", "timestamp", "")]).
  pose (st3 := snd (ClickHouseClientV3.create_table Sample.refuses_13 "users"
                      [("id", "Int32", ""); ("user_name", "String", "display name")]
                      "accounts"
                      (snd (ClickHouseClientV3.table_exists Sample.refuses_13 "users"
                              Sample.fresh)))).
  destruct (proj1 retried_rows_stay_in_target Sample.runtime Sample.mysql_six
              Sample.refuses_13 Sample.read_csv Sample.config_wide Sample.users_csv
              Sample.users_mapping Sample.fresh st3 st3 structure
              [] [] (map Sample.user_row [1; 2; 3; 4; 5; 13])
              (map (fun id => [VInt id; VStr (PyText.of_string "user")]) [1; 2; 3; 4; 5; 13])
              None (Exn DatabaseError "Code: 53. Type mismatch in VALUES section"))
    as (n & k & r & st' & H5 & _ & _ & _ & Hres & Hs & _).
  - vm_compute. reflexivity.
  - vm_compute. repeat split. discriminate.
  - vm_compute. reflexivity.
  - vm_compute. reflexivity.
  - vm_compute. reflexivity.
  - vm_compute. reflexivity.
  - exists k, r, st'. repeat split; [lia | exact Hres | exact Hs].
Defined.

(** ** Results of a run *)

(** C4.  When the streaming loop of a table ends without an exception,
    [migrate_table] sends the count query to the target and returns a
    result with [success = true], whose two count fields hold the source
    count and whatever the target count turns out to be: the two counts are
    never compared, so a mismatch shows in the fields only. *)
Theorem completed_stream_is_verified
    (rt : Runtime) (my : MySQL) (rejects : fault) (read_csv : filesystem) (cfg : Config)
    (csv_file : string) (tm : TableMapping) (st st3 st4 : ch_state)
    (mysql_structure : list (string * string * string)) (batches : list (list row)) :
  CSVMappingLoader.load_csv_mapping read_csv csv_file = Ok tm ->
  reaches_streaming my rejects cfg tm st mysql_structure st3 ->
  MySQLClient.get_table_data my (mysql_table tm) (batch_size cfg) = (batches, None) ->
  DataMigrator.stream rt rejects tm (stream_columns tm mysql_structure) batches st3
  = (Ok tt, st4) ->
  let counted := ClickHouseClientV3.get_table_row_count rejects (clickhouse_table tm) st4 in
  DataMigrator.migrate_table rt my rejects read_csv cfg csv_file st
  = ({| table_mapping := Some tm; success := true;
        mysql_rows := MySQLClient.get_table_row_count my (mysql_table tm);
        clickhouse_rows := fst counted;
        error_message := "" |}, snd counted)
  /\ ch_log (snd counted) = ch_log st4 ++ [SelectCount (clickhouse_table tm)].
Proof.
  intros Hl Hr Hg Hs counted. split.
  - apply (migrate_table_ok rt my rejects read_csv cfg csv_file tm st _ _ Hl).
    rewrite (migrate_body_reaches rt my rejects cfg tm st st3 mysql_structure Hr).
    rewrite (migrate_data_ok rt my rejects cfg tm _ mysql_structure _ st3 st4 batches Hg Hs).
    unfold DataMigrator.verify. fold counted. now destruct counted.
  - subst counted. unfold ClickHouseClientV3.get_table_row_count.
    pose proof (execute_log rejects (SelectCount (clickhouse_table tm)) st4) as Hlog.
    destruct (execute rejects (SelectCount (clickhouse_table tm)) st4) as [[a|e] st5];
      [|exact Hlog].
    destruct (ClickHouseClientV3.first_cell a) as [[]|]; exact Hlog.
Qed.

Lemma completed_stream_is_verified_witness :
  exists st',
    DataMigrator.migrate_table Sample.runtime Sample.mysql Sample.refuses_count
      Sample.read_csv Sample.config Sample.users_csv Sample.fresh
    = ({| table_mapping := Some Sample.users_mapping; success := true;
          mysql_rows := 3; clickhouse_rows := 0; error_message := "" |}, st')
    /\ ch_tables st' !! "users"
       = Some [ [VInt 1; VStr (PyText.of_string "ann")]; [VInt 2; VStr []];
                [VInt 3; VStr (PyText.of_string "bob")] ].
Proof.
  pose (structure := [("id", "int", ""); ("name", "varchar", "display name");
                      ("created", "timestamp", "")]).
  pose (st3 := snd (ClickHouseClientV3.create_table Sample.refuses_count "users"
                      [("id", "Int32", ""); ("user_name", "String", "display name")]
                      "accounts"
                      (snd (ClickHouseClientV3.table_exists Sample.refuses_count "users"
                              Sample.fresh)))).
  pose (batches := [take 2 Sample.users_rows; drop 2 Sample.users_rows]).
  pose (st4 := snd (DataMigrator.stream Sample.runtime Sample.refuses_count
                      Sample.users_mapping
                      (stream_columns Sample.users_mapping structure) batches st3)).
  destruct (completed_stream_is_verified Sample.runtime Sample.mysql Sample.refuses_count
              Sample.read_csv Sample.config Sample.users_csv Sample.users_mapping
              Sample.fresh st3 st4 structure batches) as [Hres _].
  - vm_compute. reflexivity.
  - vm_compute. repeat split. discriminate.
  - vm_compute. reflexivity.
  - vm_compute. reflexivity.
  - eexists. split; [exact Hres|]. vm_compute. reflexivity.
Defined.

Section RunFacts.
Import DataMigrator.
Context (rt : Runtime) (my : MySQL) (rejects : fault)
        (read_csv : filesystem) (cfg : Config).

(** the loop over the mapping files yields one result per file: the result
    of [migrate_table] on that file, in the state the files before it left *)
Lemma migrate_files_results (csv_directory : string) (csv_files : list string)
    (st : ch_state) :
  length (fst (migrate_files rt my rejects read_csv cfg csv_directory csv_files st))
  = length csv_files
  /\ forall (i : nat) (f : string),
       csv_files !! i = Some f ->
       exists st_i,
         fst (migrate_files rt my rejects read_csv cfg csv_directory csv_files st) !! i
         = Some (fst (migrate_table rt my rejects read_csv cfg
                        (PyStr.path_join csv_directory f) st_i)).
Proof.
  revert st. induction csv_files as [|f0 files IH]; intros st.
  - split; [reflexivity|]. intros i f H. discriminate H.
  - cbn [migrate_files].
    destruct (migrate_table rt my rejects read_csv cfg (PyStr.path_join csv_directory f0) st)
      as [r st'] eqn:Hm.
    destruct (IH st') as [Hlen Hall].
    destruct (migrate_files rt my rejects read_csv cfg csv_directory files st')
      as [rs st''] eqn:Hf.
    cbn [fst length] in *. split; [now rewrite Hlen|].
    intros [|i] f H.
    + injection H as <-. exists st. now rewrite Hm.
    + apply (Hall i f H).
Qed.

Lemma load_raise (csv_file : string) (e : exn) :
  CSVMappingLoader.load_body read_csv csv_file = Raise e ->
  CSVMappingLoader.load_csv_mapping read_csv csv_file
  = Raise (Exn PlainException ("加载CSV映射文件失败 " +:+ csv_file +:+ ": " +:+ exn_msg e)).
Proof.
  intros H. unfold CSVMappingLoader.load_csv_mapping, reraise. rewrite H.
  do 2 f_equal. now rewrite !append_assoc.
Qed.

End RunFacts.

Lemma create_table_raise_msg (rejects : fault) (table_name : string)
    (fields : list (string * string * string)) (table_comment : string)
    (st st' : ch_state) (e : exn) :
  ClickHouseClientV3.create_table rejects table_name fields table_comment st = (Raise e, st') ->
  exists underlying, exn_msg e = "创建表失败: " +:+ underlying.
Proof.
  unfold ClickHouseClientV3.create_table.
  destruct (foldl ClickHouseClientV3.create_step ([], None) fields) as [defs [key|]].
  - destruct (execute rejects _ st) as [[a|x] st1]; [discriminate|].
    intros [= <- _]. now exists (exn_msg x).
  - intros [= <- _]. now eexists.
Qed.






(** * Further properties of the migrator *)

(** ** Strings *)

Section StringFacts.
Import PyStr.

Lemma append_cons (c : ascii) (a b : string) : String c a +:+ b = String c (a +:+ b).
Proof. reflexivity. Qed.

Lemma append_empty_r (a : string) : a +:+ "" = a.
Proof. induction a as [|c a IH]; [reflexivity|]. now rewrite append_cons, IH. Qed.

Lemma length_append (a b : string) :
  String.length (a +:+ b) = (String.length a + String.length b)%nat.
Proof. induction a as [|c a IH]; [reflexivity|]. rewrite append_cons. cbn. now rewrite IH. Qed.

Lemma upper_append (a b : string) : upper (a +:+ b) = upper a +:+ upper b.
Proof.
  induction a as [|c a IH]; [reflexivity|].
  rewrite !append_cons. cbn [upper]. now rewrite append_cons, IH.
Qed.

Lemma upper_ascii_idem (c : ascii) : upper_ascii (upper_ascii c) = upper_ascii c.
Proof. destruct c as [[] [] [] [] [] [] [] []]; reflexivity. Qed.

Lemma upper_lower_ascii (c : ascii) : upper_ascii (lower_ascii c) = upper_ascii c.
Proof. destruct c as [[] [] [] [] [] [] [] []]; reflexivity. Qed.

Lemma upper_idem (s : string) : upper (upper s) = upper s.
Proof.
  induction s as [|c s IH]; [reflexivity|]. cbn [upper]. now rewrite upper_ascii_idem, IH.
Qed.

Lemma upper_lower (s : string) : upper (lower s) = upper s.
Proof.
  induction s as [|c s IH]; [reflexivity|].
  cbn [upper lower]. now rewrite upper_lower_ascii, IH.
Qed.

(** upper-casing neither makes nor removes a parenthesis *)
Lemma upper_ascii_open (c : ascii) : Ascii.eqb (upper_ascii c) "(" = Ascii.eqb c "(".
Proof. destruct c as [[] [] [] [] [] [] [] []]; reflexivity. Qed.

Lemma upper_ascii_close (c : ascii) : Ascii.eqb (upper_ascii c) ")" = Ascii.eqb c ")".
Proof. destruct c as [[] [] [] [] [] [] [] []]; reflexivity. Qed.

(** [c in s] for one character *)
Fixpoint has_char (c : ascii) (s : string) : bool :=
  match s with
  | EmptyString => false
  | String a r => Ascii.eqb a c || has_char c r
  end.

Lemma contains_char (c : ascii) (s : string) :
  contains (String c EmptyString) s = has_char c s.
Proof.
  induction s as [|a s IH]; [reflexivity|].
  cbn [contains startswith has_char]. rewrite IH, Ascii.eqb_sym.
  now destruct (Ascii.eqb a c), s.
Qed.

Lemma has_char_upper_open (s : string) : has_char "(" (upper s) = has_char "(" s.
Proof.
  induction s as [|a s IH]; [reflexivity|].
  cbn [upper has_char]. now rewrite upper_ascii_open, IH.
Qed.

Lemma has_char_upper_close (s : string) : has_char ")" (upper s) = has_char ")" s.
Proof.
  induction s as [|a s IH]; [reflexivity|].
  cbn [upper has_char]. now rewrite upper_ascii_close, IH.
Qed.

Lemma has_char_append (c : ascii) (a b : string) :
  has_char c (a +:+ b) = has_char c a || has_char c b.
Proof.
  induction a as [|x a IH]; [reflexivity|].
  rewrite append_cons. cbn [has_char]. now rewrite IH, orb_assoc.
Qed.

Lemma append_nil_l (s : string) : "" +:+ s = s.
Proof. reflexivity. Qed.

Lemma split_head_append (c : ascii) (a b : string) :
  has_char c a = false -> split_head c (a +:+ String c b) = a.
Proof.
  induction a as [|x a IH]; intros H.
  - rewrite append_nil_l. cbn [split_head]. now rewrite Ascii.eqb_refl.
  - cbn [has_char] in H. apply orb_false_iff in H as [Hx Ha].
    rewrite append_cons. cbn [split_head]. now rewrite Hx, IH.
Qed.

Lemma find_from_append (c : ascii) (a b : string) (i : Z) :
  has_char c a = false ->
  find_from c (a +:+ String c b) i = i + Z.of_nat (String.length a).
Proof.
  revert i. induction a as [|x a IH]; intros i H.
  - rewrite append_nil_l. cbn [find_from String.length]. rewrite Ascii.eqb_refl. lia.
  - cbn [has_char] in H. apply orb_false_iff in H as [Hx Ha].
    rewrite append_cons. cbn [find_from String.length]. rewrite Hx, IH by assumption. lia.
Qed.

Lemma substring_skip (a s : string) (n k : nat) :
  String.substring (String.length a + n) k (a +:+ s) = String.substring n k s.
Proof. induction a as [|x a IH]; [reflexivity|]. rewrite append_cons. cbn. apply IH. Qed.

Lemma substring_prefix (p b : string) :
  String.substring 0 (String.length p) (p +:+ b) = p.
Proof.
  induction p as [|x p IH]; [now destruct b|].
  rewrite append_cons. cbn. now rewrite IH.
Qed.

(** two texts that agree up to their first parenthesis have the same head *)
Lemma startswith_heads (x y u v : string) :
  has_char "(" x = false -> has_char "(" u = false ->
  startswith (x +:+ String "(" y) (u +:+ String "(" v) = true -> x = u.
Proof.
  revert u. induction x as [|a x IH]; intros u Hx Hu H.
  - destruct u as [|b u]; [reflexivity|].
    cbn [has_char] in Hu. apply orb_false_iff in Hu as [Hb _].
    rewrite append_nil_l, append_cons in H. cbn [startswith] in H.
    rewrite Ascii.eqb_sym, Hb in H. discriminate.
  - cbn [has_char] in Hx. apply orb_false_iff in Hx as [Ha Hx].
    destruct u as [|b u].
    + rewrite append_nil_l, append_cons in H. cbn [startswith] in H.
      rewrite Ha in H. discriminate.
    + cbn [has_char] in Hu. apply orb_false_iff in Hu as [_ Hu].
      rewrite !append_cons in H. cbn [startswith] in H.
      apply andb_true_iff in H as [Hab H].
      apply Ascii.eqb_eq in Hab. subst b. f_equal. now apply IH.
Qed.

End StringFacts.

(** ** More on the type mapper *)

Lemma type_mapping_values (k v : string) :
  TypeMapper.TYPE_MAPPING !! k = Some v -> v <> "".
Proof.
  intros H. unfold TypeMapper.TYPE_MAPPING in H.
  apply elem_of_list_to_map_2 in H.
  repeat (apply elem_of_cons in H as [H|H]; [injection H as _ ->; discriminate|]).
  inversion H.
Qed.

(** X1.  Whatever the source type text, the mapper answers with a type
    name that is not empty: [Bool], a [Decimal(...)], an entry of the
    table, or [String] for a base type the table does not know. *)
Theorem mapper_never_answers_empty (mysql_type : string) :
  TypeMapper.map_mysql_type_to_clickhouse mysql_type <> "".
Proof.
  unfold TypeMapper.map_mysql_type_to_clickhouse.
  destruct (PyStr.startswith "TINYINT(1)" (PyStr.upper mysql_type)); [discriminate|].
  destruct (_ && _); [discriminate|].
  destruct (TypeMapper.TYPE_MAPPING !! _) as [v|] eqn:E; [|discriminate].
  cbn [default]. now apply (type_mapping_values _ v E).
Qed.

(** X2.  A decimal type keeps its parameters as written: for [DECIMAL] in
    any letter case and a parameter text [p] without parentheses,
    [DECIMAL(p)] is mapped to [Decimal(p)]. *)
Theorem decimal_keeps_its_parameters (d p : string) :
  PyStr.upper d = "DECIMAL" ->
  has_char "(" p = false ->
  has_char ")" p = false ->
  TypeMapper.map_mysql_type_to_clickhouse (d +:+ "(" +:+ p +:+ ")")
  = "Decimal(" +:+ p +:+ ")".
Proof.
  intros Hd Hp1 Hp2.
  assert (Hd1 : has_char "(" d = false)
    by (rewrite <- has_char_upper_open, Hd; reflexivity).
  assert (Hd2 : has_char ")" d = false)
    by (rewrite <- has_char_upper_close, Hd; reflexivity).
  assert (Hlen : String.length d = 7%nat).
  { assert (L : forall s, String.length (PyStr.upper s) = String.length s)
      by (induction s as [|c s IH]; [reflexivity | cbn; now rewrite IH]).
    rewrite <- L, Hd. reflexivity. }
  unfold TypeMapper.map_mysql_type_to_clickhouse.
  rewrite upper_append, Hd.
  change (PyStr.startswith "TINYINT(1)" ("DECIMAL" +:+ PyStr.upper ("(" +:+ p +:+ ")")))
    with false.
  change (PyStr.split_head "(" ("DECIMAL" +:+ PyStr.upper ("(" +:+ p +:+ ")")))
    with "DECIMAL".
  change (String.eqb (PyStr.strip "DECIMAL") "DECIMAL") with true.
  change ("(" +:+ p +:+ ")") with (String "(" (p +:+ ")")).
  rewrite contains_char, has_char_append. cbn [has_char].
  rewrite Ascii.eqb_refl, orb_true_l, orb_true_r.
  unfold PyStr.find.
  rewrite (find_from_append "(" d (p +:+ ")") 0 Hd1).
  replace (d +:+ String "(" (p +:+ ")")) with ((d +:+ String "(" p) +:+ String ")" "")
    by (rewrite append_assoc; reflexivity).
  rewrite (find_from_append ")" (d +:+ String "(" p) "" 0).
  2:{ rewrite has_char_append, Hd2. cbn [has_char]. now rewrite Hp2. }
  unfold PyStr.slice, PyStr.len, PyStr.slice_index.
  rewrite !length_append, Hlen. cbn [String.length].
  replace (0 + Z.of_nat 7 + 1 <? 0) with false by (symmetry; apply Z.ltb_ge; lia).
  replace (0 + Z.of_nat (7 + S (String.length p)) <? 0) with false
    by (symmetry; apply Z.ltb_ge; lia).
  rewrite !Z.max_r, !Z.min_r by lia.
  replace (Z.to_nat (0 + Z.of_nat 7 + 1)) with (String.length d + 1)%nat by lia.
  replace (Z.to_nat (0 + Z.of_nat (7 + S (String.length p)) - (0 + Z.of_nat 7 + 1)))
    with (String.length p) by lia.
  rewrite append_assoc, substring_skip.
  change (String.substring 1 (String.length p) (String "(" p +:+ ")"))
    with (String.substring 0 (String.length p) (p +:+ ")")).
  now rewrite substring_prefix.
Qed.

Lemma decimal_keeps_its_parameters_witness :
  TypeMapper.map_mysql_type_to_clickhouse ("Decimal" +:+ "(" +:+ "18, 4" +:+ ")")
  = "Decimal(" +:+ "18, 4" +:+ ")".
Proof. apply decimal_keeps_its_parameters; reflexivity. Defined.

Lemma startswith_has_char (c : ascii) (x s : string) :
  PyStr.startswith x s = true -> has_char c x = true -> has_char c s = true.
Proof.
  revert s. induction x as [|a x IH]; intros s H Hc; [discriminate Hc|].
  destruct s as [|b s]; [discriminate H|].
  cbn [PyStr.startswith] in H. apply andb_true_iff in H as [Hab H].
  apply Ascii.eqb_eq in Hab. subst b.
  cbn [has_char] in *. destruct (Ascii.eqb a c); [reflexivity|]. now apply (IH s).
Qed.

(** X3.  Length and precision parameters do not matter: for a base type
    other than [TINYINT] and [DECIMAL], whatever follows the first
    parenthesis is dropped, so [VARCHAR(255)] is mapped as [VARCHAR]. *)
Theorem mapper_ignores_other_parameters (base p : string) :
  has_char "(" base = false ->
  PyStr.upper base <> "TINYINT" ->
  PyStr.strip (PyStr.upper base) <> "DECIMAL" ->
  TypeMapper.map_mysql_type_to_clickhouse (base +:+ "(" +:+ p)
  = TypeMapper.map_mysql_type_to_clickhouse base.
Proof.
  intros Hb Ht Hd.
  assert (Hu : has_char "(" (PyStr.upper base) = false) by now rewrite has_char_upper_open.
  unfold TypeMapper.map_mysql_type_to_clickhouse.
  rewrite upper_append.
  change (PyStr.upper ("(" +:+ p)) with (String "(" (PyStr.upper p)).
  rewrite (split_head_append "(" (PyStr.upper base) (PyStr.upper p) Hu).
  replace (PyStr.split_head "(" (PyStr.upper base)) with (PyStr.upper base).
  2:{ clear -Hu. induction (PyStr.upper base) as [|a u IH]; [reflexivity|].
      cbn [has_char] in Hu. apply orb_false_iff in Hu as [Ha Hu].
      cbn [PyStr.split_head]. now rewrite Ha, <- IH. }
  destruct (String.eqb_spec (PyStr.strip (PyStr.upper base)) "DECIMAL") as [E|_];
    [contradiction|]. cbn [andb].
  destruct (PyStr.startswith "TINYINT(1)" (PyStr.upper base +:+ String "(" (PyStr.upper p)))
    eqn:H1.
  { exfalso. apply Ht. symmetry.
    apply (startswith_heads "TINYINT" "1)" (PyStr.upper base) (PyStr.upper p));
      [reflexivity | exact Hu | exact H1]. }
  destruct (PyStr.startswith "TINYINT(1)" (PyStr.upper base)) eqn:H2; [|reflexivity].
  apply (startswith_has_char "(") in H2; [|reflexivity]. congruence.
Qed.

Lemma mapper_ignores_other_parameters_witness :
  TypeMapper.map_mysql_type_to_clickhouse ("varchar" +:+ "(" +:+ "255)") = "String"
  /\ TypeMapper.map_mysql_type_to_clickhouse ("bigint unsigned" +:+ "(" +:+ "20)") = "UInt64".
Proof.
  split.
  - rewrite (mapper_ignores_other_parameters "varchar" "255)");
      [vm_compute; reflexivity | reflexivity | discriminate | discriminate].
  - rewrite (mapper_ignores_other_parameters "bigint unsigned" "20)");
      [vm_compute; reflexivity | reflexivity | discriminate | discriminate].
Defined.

(** X4.  The mapper does not look at letter case: apart from the decimal
    types, whose parameter text is copied as written, a type text and its
    upper-case and lower-case spellings are mapped alike. *)
Theorem mapper_ignores_letter_case (mysql_type : string) :
  PyStr.strip (PyStr.split_head "(" (PyStr.upper mysql_type)) <> "DECIMAL" ->
  TypeMapper.map_mysql_type_to_clickhouse (PyStr.upper mysql_type)
  = TypeMapper.map_mysql_type_to_clickhouse mysql_type
  /\ TypeMapper.map_mysql_type_to_clickhouse (PyStr.lower mysql_type)
     = TypeMapper.map_mysql_type_to_clickhouse mysql_type.
Proof.
  intros H. unfold TypeMapper.map_mysql_type_to_clickhouse.
  rewrite upper_idem, upper_lower.
  destruct (String.eqb_spec (PyStr.strip (PyStr.split_head "(" (PyStr.upper mysql_type)))
              "DECIMAL") as [E|_]; [contradiction|].
  split; reflexivity.
Qed.

Lemma mapper_ignores_letter_case_witness :
  TypeMapper.map_mysql_type_to_clickhouse (PyStr.upper "MediumInt Unsigned")
  = TypeMapper.map_mysql_type_to_clickhouse "MediumInt Unsigned"
  /\ TypeMapper.map_mysql_type_to_clickhouse (PyStr.lower "MediumInt Unsigned")
     = TypeMapper.map_mysql_type_to_clickhouse "MediumInt Unsigned".
Proof. apply mapper_ignores_letter_case. discriminate. Defined.

(** ** More on the value coercer *)

(** the Python class a coerced value can have in a column of family [f] *)
Definition fits (f : family) (val w : value) : Prop :=
  match f with
  | Integer => exists z, w = VInt z
  | Floating => (exists x, w = VFloat x) \/ w = VInt 0
  | Boolean => exists b, w = VBool b
  | Day => exists d, w = VDate d
  | Timestamp => (exists t, w = VDateTime t) \/ (exists d, val = VDate d /\ w = VDate d)
  | Text => exists s, w = VStr s
  end.

(** X5.  The coerced value of a cell that is not NULL has the class its
    column family calls for: an [int] for an integer column, a [float] for
    a float or decimal column (or the integer 0, when a huge integer
    overflows and the default is taken), a [bool] for [Bool], a [date] for
    [Date32], a [str] for a string column; in a timestamp column a
    [datetime], or the [date] it was given, which is passed through. *)
Theorem coerced_value_fits_its_column (rt : Runtime) (val : value) (field_type : string) :
  val <> VNone ->
  exists w,
    Coercer._convert_value_for_clickhouse rt val field_type = Ok w
    /\ fits (family_of field_type) val w.
Proof.
  intros Hv.
  destruct (family_of field_type) eqn:F.
  all: pose proof F as F'; unfold family_of in F'.
  all: unfold Coercer._convert_value_for_clickhouse, Coercer.convert_body.
  all: pose proof (null_defaults field_type) as Hnull; unfold null_default in Hnull;
    rewrite F in Hnull; cbn [family_default] in Hnull.
  all: set (t := PyStr.lower field_type) in *.
  all: repeat match type of F' with
         | (if ?c then _ else _) = _ => destruct c
         end; try discriminate F'.
  all: destruct val as [|b|z|x|s|d|dt|r]; try contradiction; cbn [fits].
  all: repeat match goal with
         | |- context [Coercer.first_format ?r ?v ?l] =>
             destruct (Coercer.first_format r v l)
         | |- context [PyText.truthy ?v] => destruct (PyText.truthy v)
         | |- context [float_of_str ?r ?v] =>
             destruct (float_of_str r v); cbn [of_option bind try_except]
         | |- context [PyNum.int_of_float ?v] =>
             destruct (PyNum.int_of_float v); cbn [bind try_except]
         | |- context [PyNum.float_of_int ?v] =>
             destruct (PyNum.float_of_int v); cbn [bind try_except]
         | |- context [existsb ?f ?l] => destruct (existsb f l)
         end.
  all: try rewrite Hnull by (intros HH; congruence).
  all: try destruct (Coercer.any_in _ _).
  all: eexists; split; [reflexivity|]; eauto.
Qed.

Lemma coerced_value_fits_its_column_witness :
  exists w,
    Coercer._convert_value_for_clickhouse Sample.runtime
      (VStr (PyText.of_string " 42 ")) "UInt16" = Ok w
    /\ exists z, w = VInt z.
Proof.
  apply (coerced_value_fits_its_column Sample.runtime (VStr (PyText.of_string " 42 ")) "UInt16").
  discriminate.
Defined.

Lemma filter_kept_all (s : pystr) : Forall kept_char s -> filter kept_char s = s.
Proof.
  induction 1 as [|c s Hc Hs IH]; [reflexivity|].
  rewrite filter_cons_True by exact Hc. now f_equal.
Qed.

Lemma kept_after_filter (s : pystr) : Forall kept_char (filter kept_char s).
Proof. apply Forall_forall. intros c Hc. now apply list_elem_of_filter in Hc as [? _]. Qed.

Lemma encode_ok_take (n : nat) (s : pystr) :
  PyText.encode_utf8_ok s = true -> PyText.encode_utf8_ok (take n s) = true.
Proof.
  unfold PyText.encode_utf8_ok. rewrite !forallb_forall. intros H c Hc.
  apply H. apply list_elem_of_In. apply list_elem_of_In in Hc.
  apply elem_of_take in Hc as (i & Hi & _). now apply list_elem_of_lookup_2 in Hi.
Qed.

(** X6.  Sanitizing is idempotent, and it leaves alone a text that needs
    no cleaning: one of at most 1000 code points, none below 32 other than
    tab, newline and carriage return, and no lone surrogate. *)
Theorem sanitizer_is_idempotent (value : pystr) :
  Coercer._clean_string_value (Coercer._clean_string_value value)
  = Coercer._clean_string_value value
  /\ (Forall kept_char value -> PyText.encode_utf8_ok value = true ->
      (length value <= 1000)%nat ->
      Coercer._clean_string_value value = value).
Proof.
  assert (Hclean : forall s : pystr,
             Forall kept_char s -> PyText.encode_utf8_ok s = true ->
             (length s <= 1000)%nat -> Coercer._clean_string_value s = s).
  { intros s Hk He Hl. rewrite clean_string_value_eq, (filter_kept_all s Hk), He.
    now apply take_ge. }
  split; [|apply Hclean].
  rewrite (clean_string_value_eq value).
  destruct (PyText.encode_utf8_ok (filter kept_char value)) eqn:He; [|reflexivity].
  apply Hclean.
  - apply Forall_take, kept_after_filter.
  - now apply encode_ok_take.
  - rewrite length_take. lia.
Qed.

Lemma sanitizer_is_idempotent_witness :
  Coercer._clean_string_value [112; 108; 97; 105; 110; 9; 116; 101; 120; 116]%N
  = [112; 108; 97; 105; 110; 9; 116; 101; 120; 116]%N.
Proof.
  apply (proj2 (sanitizer_is_idempotent [112; 108; 97; 105; 110; 9; 116; 101; 120; 116]%N)).
  - repeat (apply List.Forall_cons; [first [left; lia | right; set_solver]|]).
    apply List.Forall_nil.
  - reflexivity.
  - cbn. lia.
Defined.

(** the type [insert_batch] coerces cell [j] with: [field_types[j]], or
    [String] when no types are given or the list is too short *)
Definition column_type (field_types : option (list string)) (j : nat) : string :=
  match field_types with
  | Some types => default "String" (types !! j)
  | None => "String"
  end.

Lemma process_cell_converts (rt : Runtime) (field_types : option (list string))
    (j : nat) (val : value) :
  Coercer._convert_value_for_clickhouse rt val (column_type field_types j)
  = Ok (Coercer.process_cell rt field_types j val).
Proof.
  unfold Coercer.process_cell, column_type.
  replace (match field_types with
           | Some ((_ :: _) as ts) => ts !! j
           | _ => None
           end)
    with (match field_types with Some types => types !! j | None => None end)
    by (destruct field_types as [[|t ts]|]; reflexivity).
  set (field_type := default "String" _).
  replace (match field_types with
           | Some types => default "String" (types !! j)
           | None => "String"
           end) with field_type by (subst field_type; now destruct field_types).
  destruct val; try reflexivity;
    match goal with
    | |- Coercer._convert_value_for_clickhouse _ ?v ?t = _ =>
        destruct (convert_total rt v t) as [w Hw]; rewrite Hw; reflexivity
    end.
Qed.

(** X7.  [insert_batch] coerces a row cell by cell: the processed row has
    as many cells as the row, and its cell [j] is what
    [_convert_value_for_clickhouse] makes of cell [j] of the row with the
    type at position [j] of the type list; a cell beyond the end of the type
    list, or any cell when no type list is given, is coerced as a [String]
    cell. *)
Theorem row_is_coerced_cell_by_cell (rt : Runtime) (field_types : option (list string))
    (r : row) :
  length (Coercer.process_row rt field_types r) = length r
  /\ (forall (j : nat) (val : value) (types : list string) (field_type : string),
        r !! j = Some val ->
        field_types = Some types -> types !! j = Some field_type ->
        exists w,
          Coercer.process_row rt field_types r !! j = Some w
          /\ Coercer._convert_value_for_clickhouse rt val field_type = Ok w)
  /\ (forall (j : nat) (val : value),
        r !! j = Some val ->
        (field_types = None
         \/ exists types, field_types = Some types /\ (length types <= j)%nat) ->
        exists w,
          Coercer.process_row rt field_types r !! j = Some w
          /\ Coercer._convert_value_for_clickhouse rt val "String" = Ok w).
Proof.
  unfold Coercer.process_row. split; [apply length_imap|]. split.
  - intros j val types field_type H -> Ht.
    exists (Coercer.process_cell rt (Some types) j val). split.
    + rewrite list_lookup_imap, H. reflexivity.
    + rewrite <- process_cell_converts. unfold column_type. now rewrite Ht.
  - intros j val H Hty.
    exists (Coercer.process_cell rt field_types j val). split.
    + rewrite list_lookup_imap, H. reflexivity.
    + rewrite <- process_cell_converts. unfold column_type.
      destruct Hty as [->|(types & -> & Hj)]; [reflexivity|].
      now rewrite (lookup_ge_None_2 types j Hj).
Qed.

Lemma row_is_coerced_cell_by_cell_witness :
  exists w,
    Coercer.process_row Sample.runtime (Some ["String"; "Int32"])
      [VStr (PyText.of_string "7"); VStr (PyText.of_string "7")] !! 1%nat = Some w
    /\ Coercer._convert_value_for_clickhouse Sample.runtime
         (VStr (PyText.of_string "7")) "Int32" = Ok w.
Proof.
  apply (proj1 (proj2 (row_is_coerced_cell_by_cell Sample.runtime (Some ["String"; "Int32"])
                         [VStr (PyText.of_string "7"); VStr (PyText.of_string "7")]))
           1%nat (VStr (PyText.of_string "7")) ["String"; "Int32"] "Int32");
    reflexivity.
Defined.

Example sample_processed_row :
  Coercer.process_row Sample.runtime (Some ["String"; "Int32"])
    [VStr (PyText.of_string "7"); VStr (PyText.of_string "7"); VInt 7]
  = [VStr (PyText.of_string "7"); VInt 7; VStr (PyText.of_string "7")].
Proof. vm_compute. reflexivity. Qed.

(** ** More on the ClickHouse client *)

Section ClientFacts.
Import ClickHouseClientV3.
Context (rt : Runtime) (rejects : fault).

Lemma execute_read_only (q : stmt) (st : ch_state) :
  match q with SelectCount _ | ExistsTable _ => True | _ => False end ->
  ch_tables (snd (execute rejects q st)) = ch_tables st.
Proof.
  unfold execute. destruct (rejects st q); [reflexivity|].
  destruct q; try contradiction; intros _; [destruct (ch_tables st !! _)|]; reflexivity.
Qed.

Lemma insert_batch_ok (t : string) (names : list string) (data_batch : list row)
    (types : option (list string)) (st st' : ch_state) :
  insert_batch rt rejects t names data_batch types st = (Ok tt, st') ->
  exists a,
    execute rejects (Insert t names (map (Coercer.process_row rt types) data_batch)) st
    = (Ok a, st').
Proof.
  unfold insert_batch.
  destruct (execute rejects _ st) as [[a|e] st1]; [|discriminate].
  intros [= <-]. now exists a.
Qed.

Lemma create_table_ok (t : string) (fields : list (string * string * string))
    (comment : string) (st st' : ch_state) :
  create_table rejects t fields comment st = (Ok tt, st') ->
  ch_tables st !! t = None /\ ch_tables st' = <[t := []]> (ch_tables st).
Proof.
  unfold create_table.
  destruct (foldl create_step ([], None) fields) as [defs [key|]]; [|discriminate].
  unfold execute. destruct (rejects st _); [discriminate|].
  destruct (ch_tables st !! t) eqn:E; [discriminate|].
  intros [= <-]. split; reflexivity.
Qed.

End ClientFacts.

(** X8.  When the target accepts the bulk insert, [insert_batch] sends that
    one statement and nothing else, and the coerced rows of the batch are
    appended to the table, in the order of the batch. *)
Theorem accepted_batch_is_appended (rt : Runtime) (rejects : fault) (t : string)
    (names : list string) (data_batch : list row) (types : option (list string))
    (st : ch_state) :
  let bulk := Insert t names (map (Coercer.process_row rt types) data_batch) in
  is_ok (fst (execute rejects bulk st)) = true ->
  exists st' old,
    ClickHouseClientV3.insert_batch rt rejects t names data_batch types st = (Ok tt, st')
    /\ ch_log st' = ch_log st ++ [bulk]
    /\ ch_tables st !! t = Some old
    /\ ch_tables st'
       = <[t := old ++ map (Coercer.process_row rt types) data_batch]> (ch_tables st).
Proof.
  intros bulk H. unfold ClickHouseClientV3.insert_batch. fold bulk.
  pose proof (execute_log rejects bulk st) as Hlog.
  destruct (execute rejects bulk st) as [[a|e] st'] eqn:Hx; [|discriminate H].
  cbn [snd] in Hlog. unfold execute, bulk in Hx.
  destruct (rejects st _); [discriminate|].
  destruct (ch_tables st !! t) as [old|] eqn:E; [|discriminate].
  exists st', old. injection Hx as _ <-. repeat split.
Qed.

Lemma accepted_batch_is_appended_witness :
  exists st' old,
    ClickHouseClientV3.insert_batch Sample.runtime Sample.refuses_13 "users" ["id"]
      [[VInt 1]; [VNone]] (Some ["Int32"]) (ChState {[ "users" := [[VInt 0]] ]} [])
    = (Ok tt, st')
    /\ ch_log st' = [Insert "users" ["id"] [[VInt 1]; [VInt 0]]]
    /\ old = [[VInt 0]]
    /\ ch_tables st' !! "users" = Some [[VInt 0]; [VInt 1]; [VInt 0]].
Proof.
  destruct (accepted_batch_is_appended Sample.runtime Sample.refuses_13 "users" ["id"]
              [[VInt 1]; [VNone]] (Some ["Int32"]) (ChState {[ "users" := [[VInt 0]] ]} []))
    as (st' & old & Hi & Hl & Ho & Ht).
  - reflexivity.
  - exists st', old. split; [exact Hi|]. split; [exact Hl|].
    assert (old = [[VInt 0]]) as -> by (vm_compute in Ho; congruence).
    split; [reflexivity|]. rewrite Ht. vm_compute. reflexivity.
Defined.

(** X9.  The two queries the client reads the target with never raise and
    never change a table.  [get_table_row_count] gives the number of rows
    of the table when the query is accepted and the table exists, and 0
    when the query is refused or the table is missing; [table_exists] gives
    whether the table is there when the query is accepted, and false when
    it is refused. *)
Theorem target_queries_fall_back (rejects : fault) (t : string) (st : ch_state) :
  fst (ClickHouseClientV3.get_table_row_count rejects t st)
  = match rejects st (SelectCount t), ch_tables st !! t with
    | None, Some rows => Z.of_nat (length rows)
    | _, _ => 0
    end
  /\ fst (ClickHouseClientV3.table_exists rejects t st)
     = match rejects st (ExistsTable t), ch_tables st !! t with
       | None, Some _ => true
       | _, _ => false
       end
  /\ ch_tables (snd (ClickHouseClientV3.get_table_row_count rejects t st)) = ch_tables st
  /\ ch_tables (snd (ClickHouseClientV3.table_exists rejects t st)) = ch_tables st
  /\ ch_log (snd (ClickHouseClientV3.get_table_row_count rejects t st))
     = ch_log st ++ [SelectCount t]
  /\ ch_log (snd (ClickHouseClientV3.table_exists rejects t st))
     = ch_log st ++ [ExistsTable t].
Proof.
  unfold ClickHouseClientV3.get_table_row_count, ClickHouseClientV3.table_exists, execute.
  destruct (rejects st (SelectCount t)), (rejects st (ExistsTable t)),
    (ch_tables st !! t); cbn; repeat split.
Qed.

(** ** More on the streaming loop *)

Section StreamContents.
Import ClickHouseClientV3 DataMigrator.
Context (rt : Runtime) (my : MySQL) (rejects : fault)
        (read_csv : filesystem) (cfg : Config).

Lemma map_rows_app (cols : list (nat * (string * string))) (a b ma mb : list row) :
  map_rows cols a = Ok ma -> map_rows cols b = Ok mb ->
  map_rows cols (a ++ b) = Ok (ma ++ mb).
Proof.
  revert ma. induction a as [|r a IH]; intros ma Ha Hb.
  - injection Ha as <-. exact Hb.
  - cbn [map_rows app] in *. destruct (map_row cols r); [|discriminate]. cbn [bind] in *.
    destruct (map_rows cols a) as [m|]; [|discriminate]. cbn [bind] in *.
    injection Ha as <-. now rewrite (IH m eq_refl Hb).
Qed.

(** what a streaming loop that ends well leaves in the target *)
Lemma stream_ok_contents (tm : TableMapping) (cols : list (nat * (string * string)))
    (batches : list (list row)) (st st' : ch_state) (old : list row) :
  stream rt rejects tm cols batches st = (Ok tt, st') ->
  ch_tables st !! clickhouse_table tm = Some old ->
  exists mapped,
    map_rows cols (concat batches) = Ok mapped
    /\ ch_tables st'
       = <[clickhouse_table tm :=
             old ++ map (Coercer.process_row rt (Some (map (fun c => snd (snd c)) cols)))
                      mapped]> (ch_tables st).
Proof.
  revert st old. induction batches as [|b batches IH]; intros st old Hs Hold.
  - injection Hs as <-. exists []. split; [reflexivity|].
    cbn [map]. rewrite app_nil_r. symmetry. now apply insert_id.
  - cbn [stream] in Hs. destruct (map_rows cols b) as [m|] eqn:Hm; [|discriminate].
    destruct (insert_batch rt rejects (clickhouse_table tm) _ m _ st) as [[[]|e] st1] eqn:Hi;
      [|discriminate].
    apply insert_batch_ok in Hi as [a Hx].
    pose proof (execute_insert_ok rejects _ _ _ _ _ _ Hx) as Ht.
    unfold appended in Ht. rewrite Hold in Ht.
    destruct (IH st1 (old ++ map (Coercer.process_row rt
                                    (Some (map (fun c => snd (snd c)) cols))) m) Hs)
      as (mapped & Hmapped & Ht').
    { rewrite Ht. apply lookup_insert_eq. }
    exists (m ++ mapped). split; [now apply map_rows_app|].
    rewrite Ht', Ht, insert_insert_eq, map_app, app_assoc. reflexivity.
Qed.

End StreamContents.

(** X10.  When the streaming loop ends without an exception, the target
    table holds the rows it had before followed by the coerced rows of all
    batches, in source order, each cut down to the mapped columns; no other
    table is touched. *)
Theorem streamed_rows_arrive_in_order (rt : Runtime) (rejects : fault) (tm : TableMapping)
    (cols : list (nat * (string * string))) (batches : list (list row))
    (st st' : ch_state) (old : list row) :
  DataMigrator.stream rt rejects tm cols batches st = (Ok tt, st') ->
  ch_tables st !! clickhouse_table tm = Some old ->
  exists mapped,
    DataMigrator.map_rows cols (concat batches) = Ok mapped
    /\ length mapped = length (concat batches)
    /\ ch_tables st' !! clickhouse_table tm
       = Some (old ++ map (Coercer.process_row rt (Some (map (fun c => snd (snd c)) cols)))
                        mapped)
    /\ forall t, t <> clickhouse_table tm -> ch_tables st' !! t = ch_tables st !! t.
Proof.
  intros Hs Hold.
  destruct (stream_ok_contents rt rejects tm cols batches st st' old Hs Hold)
    as (mapped & Hm & Ht).
  exists mapped. split; [exact Hm|]. split; [now apply (map_rows_length cols)|].
  rewrite Ht. split; [apply lookup_insert_eq|].
  intros t Hne. now apply lookup_insert_ne.
Qed.

Lemma streamed_rows_arrive_in_order_witness :
  exists mapped,
    DataMigrator.map_rows [(0%nat, ("id", "Int32"))] [[VInt 1; VNone]; [VInt 2; VNone]; [VNone; VNone]]
    = Ok mapped
    /\ ch_tables
         (snd (DataMigrator.stream Sample.runtime Sample.accepts_all Sample.users_mapping
                 [(0%nat, ("id", "Int32"))]
                 [[[VInt 1; VNone]; [VInt 2; VNone]]; [[VNone; VNone]]]
                 (ChState {[ "users" := [[VInt 9]] ]} []))) !! "users"
       = Some ([[VInt 9]] ++ map (Coercer.process_row Sample.runtime (Some ["Int32"])) mapped).
Proof.
  destruct (DataMigrator.stream Sample.runtime Sample.accepts_all Sample.users_mapping
              [(0%nat, ("id", "Int32"))]
              [[[VInt 1; VNone]; [VInt 2; VNone]]; [[VNone; VNone]]]
              (ChState {[ "users" := [[VInt 9]] ]} [])) as [r st'] eqn:Hs.
  assert (r = Ok tt) as -> by (vm_compute in Hs; congruence).
  destruct (streamed_rows_arrive_in_order Sample.runtime Sample.accepts_all
              Sample.users_mapping _ _ _ st' [[VInt 9]] Hs)
    as (mapped & Hm & _ & Ht & _).
  - reflexivity.
  - exists mapped. split; [exact Hm | exact Ht].
Defined.

Lemma count_accepted (rejects : fault) (t : string) (st : ch_state) (rows : list row) :
  rejects st (SelectCount t) = None ->
  ch_tables st !! t = Some rows ->
  fst (ClickHouseClientV3.get_table_row_count rejects t st) = Z.of_nat (length rows)
  /\ ch_tables (snd (ClickHouseClientV3.get_table_row_count rejects t st)) = ch_tables st.
Proof.
  intros Hr Ht. unfold ClickHouseClientV3.get_table_row_count, execute.
  rewrite Hr, Ht. split; reflexivity.
Qed.

(** X11.  Row-count parity.  When the table is created, every batch is
    accepted and the final count query is accepted, the result is a success
    whose target count is the number of rows read from the source, and the
    target table holds exactly those rows, coerced, whatever it held before
    the run. *)
Theorem counts_agree_when_nothing_is_refused
    (rt : Runtime) (my : MySQL) (rejects : fault) (read_csv : filesystem) (cfg : Config)
    (csv_file : string) (tm : TableMapping) (st st3 st4 : ch_state)
    (mysql_structure : list (string * string * string)) (rows : list row) :
  let cols := stream_columns tm mysql_structure in
  CSVMappingLoader.load_csv_mapping read_csv csv_file = Ok tm ->
  reaches_streaming my rejects cfg tm st mysql_structure st3 ->
  my_select my (mysql_table tm) = (rows, None) ->
  DataMigrator.stream rt rejects tm cols
    (MySQLClient.batches (length rows) (Pos.to_nat (batch_size cfg)) rows) st3
  = (Ok tt, st4) ->
  rejects st4 (SelectCount (clickhouse_table tm)) = None ->
  exists r st' mapped,
    DataMigrator.migrate_table rt my rejects read_csv cfg csv_file st = (r, st')
    /\ success r = true
    /\ clickhouse_rows r = Z.of_nat (length rows)
    /\ DataMigrator.map_rows cols rows = Ok mapped
    /\ ch_tables st' !! clickhouse_table tm
       = Some (map (Coercer.process_row rt (Some (map (fun c => snd (snd c)) cols))) mapped).
Proof.
  intros cols Hl Hr Hsel Hs Hcount.
  pose proof Hr as ((Hn & _) & _ & Hc).
  apply create_table_ok in Hc as [_ Ht3].
  assert (Hg : MySQLClient.get_table_data my (mysql_table tm) (batch_size cfg)
               = (MySQLClient.batches (length rows) (Pos.to_nat (batch_size cfg)) rows, None)).
  { unfold MySQLClient.get_table_data, MySQLClient.get_table_row_count in *.
    destruct (my_count my (mysql_table tm)); [|contradiction]. now rewrite Hsel. }
  destruct (stream_ok_contents rt rejects tm cols _ st3 st4 [] Hs) as (mapped & Hm & Ht4).
  { rewrite Ht3. apply lookup_insert_eq. }
  rewrite batches_complete in Hm by lia.
  assert (Hlook : ch_tables st4 !! clickhouse_table tm
                  = Some (map (Coercer.process_row rt
                                 (Some (map (fun c => snd (snd c)) cols))) mapped))
    by (rewrite Ht4; apply lookup_insert_eq).
  destruct (count_accepted rejects _ st4 _ Hcount Hlook) as [Hc1 Hc2].
  rewrite length_map, (map_rows_length _ _ _ Hm) in Hc1.
  set (counted := ClickHouseClientV3.get_table_row_count rejects (clickhouse_table tm) st4)
    in *.
  exists {| table_mapping := Some tm; success := true;
            mysql_rows := MySQLClient.get_table_row_count my (mysql_table tm);
            clickhouse_rows := fst counted; error_message := "" |}, (snd counted), mapped.
  split.
  - apply (migrate_table_ok rt my rejects read_csv cfg csv_file tm st _ _ Hl).
    rewrite (migrate_body_reaches rt my rejects cfg tm st st3 mysql_structure Hr).
    rewrite (migrate_data_ok rt my rejects cfg tm _ mysql_structure _ st3 st4 _ Hg Hs).
    unfold DataMigrator.verify. fold counted. now destruct counted.
  - cbn [success clickhouse_rows]. repeat split; try assumption. now rewrite Hc2.
Qed.

Lemma counts_agree_when_nothing_is_refused_witness :
  exists r st' mapped,
    DataMigrator.migrate_table Sample.runtime Sample.mysql Sample.accepts_all Sample.read_csv
      Sample.config Sample.users_csv (ChState {[ "users" := [[VInt 99]] ]} []) = (r, st')
    /\ success r = true
    /\ clickhouse_rows r = 3
    /\ mapped = [ [VInt 1; VStr (PyText.of_string "ann")]; [VInt 2; VNone];
                  [VInt 3; VStr (PyText.of_string "bob")] ]
    /\ ch_tables st' !! "users"
       = Some [ [VInt 1; VStr (PyText.of_string "ann")]; [VInt 2; VStr []];
                [VInt 3; VStr (PyText.of_string "bob")] ].
Proof.
  pose (start := ChState {[ "users" := [[VInt 99]] ]} []).
  pose (structure := [("id", "int", ""); ("name", "varchar", "display name");
                      ("created", "timestamp", "")]).
  pose (st3 := snd (ClickHouseClientV3.create_table Sample.accepts_all "users"
                      [("id", "Int32", ""); ("user_name", "String", "display name")]
                      "accounts" (prepared Sample.accepts_all Sample.config
                                    Sample.users_mapping start))).
  pose (st4 := snd (DataMigrator.stream Sample.runtime Sample.accepts_all
                      Sample.users_mapping (stream_columns Sample.users_mapping structure)
                      (MySQLClient.batches 3 2 Sample.users_rows) st3)).
  destruct (counts_agree_when_nothing_is_refused Sample.runtime Sample.mysql
              Sample.accepts_all Sample.read_csv Sample.config Sample.users_csv
              Sample.users_mapping start st3 st4 structure Sample.users_rows)
    as (r & st' & mapped & Hres & Hok & Hn & Hm & Ht).
  - vm_compute. reflexivity.
  - vm_compute. repeat split. discriminate.
  - reflexivity.
  - vm_compute. reflexivity.
  - reflexivity.
  - exists r, st', mapped. repeat split; try assumption.
    + vm_compute in Hm. injection Hm as <-. vm_compute. reflexivity.
    + refine (eq_trans Ht _). vm_compute in Hm. injection Hm as <-. vm_compute. reflexivity.
Defined.

(** ** More on [migrate_table] *)

Lemma table_exists_state (rejects : fault) (t : string) (st : ch_state) :
  snd (ClickHouseClientV3.table_exists rejects t st) = snd (execute rejects (ExistsTable t) st).
Proof.
  unfold ClickHouseClientV3.table_exists.
  destruct (execute rejects (ExistsTable t) st) as [[a|e] st']; [|reflexivity].
  destruct (ClickHouseClientV3.first_cell a) as [[]|]; reflexivity.
Qed.

Lemma row_count_state (rejects : fault) (t : string) (st : ch_state) :
  snd (ClickHouseClientV3.get_table_row_count rejects t st)
  = snd (execute rejects (SelectCount t) st).
Proof.
  unfold ClickHouseClientV3.get_table_row_count.
  destruct (execute rejects (SelectCount t) st) as [[a|e] st']; [|reflexivity].
  destruct (ClickHouseClientV3.first_cell a) as [[]|]; reflexivity.
Qed.

(** X12.  With [skip_existing_tables] set, a target table that is found to
    exist is left alone: [migrate_table] sends the existence query and the
    count query and nothing else, changes no table, and reports success
    with the source count and the count of the rows already there. *)
Theorem existing_table_is_skipped
    (rt : Runtime) (my : MySQL) (rejects : fault) (read_csv : filesystem) (cfg : Config)
    (csv_file : string) (tm : TableMapping) (st : ch_state) :
  CSVMappingLoader.load_csv_mapping read_csv csv_file = Ok tm ->
  MySQLClient.get_table_row_count my (mysql_table tm) <> 0 ->
  fst (ClickHouseClientV3.table_exists rejects (clickhouse_table tm) st) = true ->
  skip_existing cfg = true ->
  exists r st',
    DataMigrator.migrate_table rt my rejects read_csv cfg csv_file st = (r, st')
    /\ success r = true
    /\ error_message r = ""
    /\ mysql_rows r = MySQLClient.get_table_row_count my (mysql_table tm)
    /\ clickhouse_rows r
       = fst (ClickHouseClientV3.get_table_row_count rejects (clickhouse_table tm)
                (snd (ClickHouseClientV3.table_exists rejects (clickhouse_table tm) st)))
    /\ ch_tables st' = ch_tables st
    /\ ch_log st'
       = ch_log st ++ [ExistsTable (clickhouse_table tm); SelectCount (clickhouse_table tm)].
Proof.
  intros Hl Hn Hex Hskip.
  set (st1 := snd (ClickHouseClientV3.table_exists rejects (clickhouse_table tm) st)).
  set (counted := ClickHouseClientV3.get_table_row_count rejects (clickhouse_table tm) st1).
  exists {| table_mapping := Some tm; success := true;
            mysql_rows := MySQLClient.get_table_row_count my (mysql_table tm);
            clickhouse_rows := fst counted; error_message := "" |}, (snd counted).
  split; [|repeat split].
  - apply (migrate_table_ok rt my rejects read_csv cfg csv_file tm st _ _ Hl).
    unfold DataMigrator.migrate_body. apply Z.eqb_neq in Hn. rewrite Hn.
    subst counted st1.
    destruct (ClickHouseClientV3.table_exists rejects (clickhouse_table tm) st)
      as [present st1]. cbn [fst snd] in *. subst present. rewrite Hskip. cbn [andb].
    now destruct (ClickHouseClientV3.get_table_row_count rejects (clickhouse_table tm) st1).
  - subst counted st1. rewrite row_count_state, execute_read_only by exact I.
    rewrite table_exists_state. now apply execute_read_only.
  - subst counted st1. rewrite row_count_state, execute_log.
    rewrite table_exists_state, execute_log. now rewrite <- app_assoc.
Qed.

Lemma existing_table_is_skipped_witness :
  exists r st',
    DataMigrator.migrate_table Sample.runtime Sample.mysql Sample.accepts_all Sample.read_csv
      {| batch_size := 2; auto_recreate := true; skip_existing := true |}
      Sample.users_csv (ChState {[ "users" := [[VInt 99]] ]} []) = (r, st')
    /\ success r = true
    /\ mysql_rows r = 3
    /\ clickhouse_rows r = 1
    /\ ch_tables st' = {[ "users" := [[VInt 99]] ]}.
Proof.
  destruct (existing_table_is_skipped Sample.runtime Sample.mysql Sample.accepts_all
              Sample.read_csv {| batch_size := 2; auto_recreate := true; skip_existing := true |}
              Sample.users_csv Sample.users_mapping (ChState {[ "users" := [[VInt 99]] ]} []))
    as (r & st' & Hres & Hok & _ & Hm & Hc & Ht & _).
  - vm_compute. reflexivity.
  - discriminate.
  - reflexivity.
  - reflexivity.
  - exists r, st'. repeat split; assumption.
Defined.

Lemma get_table_data_error (my : MySQL) (t : string) (n : positive)
    (batches : list (list row)) (e : exn) :
  MySQLClient.get_table_data my t n = (batches, Some e) ->
  exists underlying, exn_msg e = "读取表数据失败: " +:+ underlying.
Proof.
  unfold MySQLClient.get_table_data.
  destruct (my_count my t) as [k|x].
  - destruct (my_select my t) as [rows [x|]]; [|discriminate].
    intros [= _ <-]. now eexists.
  - intros [= _ <-]. now eexists.
Qed.

(** X13.  When the source cursor fails after some batches were delivered
    and inserted, [migrate_table] returns a failed result with the text
    "reading the table data failed: ..." and sends no count query; the rows
    of the batches already inserted stay in the target table. *)
Theorem interrupted_source_keeps_inserted_rows
    (rt : Runtime) (my : MySQL) (rejects : fault) (read_csv : filesystem) (cfg : Config)
    (csv_file : string) (tm : TableMapping) (st st3 st4 : ch_state)
    (mysql_structure : list (string * string * string))
    (batches : list (list row)) (e : exn) :
  let cols := stream_columns tm mysql_structure in
  CSVMappingLoader.load_csv_mapping read_csv csv_file = Ok tm ->
  reaches_streaming my rejects cfg tm st mysql_structure st3 ->
  MySQLClient.get_table_data my (mysql_table tm) (batch_size cfg) = (batches, Some e) ->
  DataMigrator.stream rt rejects tm cols batches st3 = (Ok tt, st4) ->
  exists underlying mapped,
    DataMigrator.migrate_table rt my rejects read_csv cfg csv_file st
    = ({| table_mapping := Some tm; success := false; mysql_rows := 0; clickhouse_rows := 0;
          error_message := "读取表数据失败: " +:+ underlying |}, st4)
    /\ DataMigrator.map_rows cols (concat batches) = Ok mapped
    /\ ch_tables st4 !! clickhouse_table tm
       = Some (map (Coercer.process_row rt (Some (map (fun c => snd (snd c)) cols))) mapped).
Proof.
  intros cols Hl Hr Hg Hs.
  destruct (get_table_data_error _ _ _ _ _ Hg) as [u Hu].
  pose proof Hr as (_ & _ & Hc). apply create_table_ok in Hc as [_ Ht3].
  destruct (stream_ok_contents rt rejects tm cols _ st3 st4 [] Hs) as (mapped & Hm & Ht4).
  { rewrite Ht3. apply lookup_insert_eq. }
  exists u, mapped. split; [|split; [exact Hm|]].
  - rewrite (migrate_table_raise rt my rejects read_csv cfg csv_file tm st st4 e Hl).
    + unfold DataMigrator.failed. now rewrite Hu.
    + rewrite (migrate_body_reaches rt my rejects cfg tm st st3 mysql_structure Hr).
      unfold DataMigrator.migrate_data. rewrite Hg. fold (stream_columns tm mysql_structure).
      fold cols. now rewrite Hs.
  - rewrite Ht4. apply lookup_insert_eq.
Qed.

(** a source whose cursor breaks after the first two rows of [users] *)
Definition mysql_cut : MySQL :=
  {| my_count := fun _ => Ok 3;
     my_columns := my_columns Sample.mysql;
     my_table_comment := my_table_comment Sample.mysql;
     my_select := fun _ =>
       (take 2 Sample.users_rows,
        Some (Exn DatabaseError "(2013, 'Lost connection to MySQL server during query')")) |}.

(** the states a run on the sample table [users] goes through *)
Definition users_structure : list (string * string * string) :=
  [("id", "int", ""); ("name", "varchar", "display name"); ("created", "timestamp", "")].

Definition users_created (rejects : fault) (cfg : Config) (start : ch_state) : ch_state :=
  snd (ClickHouseClientV3.create_table rejects "users"
         (mapped_fields Sample.users_mapping users_structure) "accounts"
         (prepared rejects cfg Sample.users_mapping start)).

Definition users_streamed (rejects : fault) (cfg : Config) (start : ch_state)
    (batches : list (list row)) : ch_state :=
  snd (DataMigrator.stream Sample.runtime rejects Sample.users_mapping
         (stream_columns Sample.users_mapping users_structure) batches
         (users_created rejects cfg start)).

Lemma interrupted_source_keeps_inserted_rows_witness :
  exists underlying mapped,
    DataMigrator.migrate_table Sample.runtime mysql_cut Sample.accepts_all Sample.read_csv
      Sample.config Sample.users_csv Sample.fresh
    = ({| table_mapping := Some Sample.users_mapping; success := false; mysql_rows := 0;
          clickhouse_rows := 0;
          error_message := "读取表数据失败: " +:+ underlying |},
       users_streamed Sample.accepts_all Sample.config Sample.fresh
         [take 2 Sample.users_rows])
    /\ DataMigrator.map_rows (stream_columns Sample.users_mapping users_structure)
         (concat [take 2 Sample.users_rows]) = Ok mapped
    /\ ch_tables (users_streamed Sample.accepts_all Sample.config Sample.fresh
                    [take 2 Sample.users_rows]) !! "users"
       = Some (map (Coercer.process_row Sample.runtime
                      (Some (map (fun c => snd (snd c))
                               (stream_columns Sample.users_mapping users_structure))))
                 mapped).
Proof.
  apply (interrupted_source_keeps_inserted_rows Sample.runtime mysql_cut
           Sample.accepts_all Sample.read_csv Sample.config Sample.users_csv
           Sample.users_mapping Sample.fresh
           (users_created Sample.accepts_all Sample.config Sample.fresh)
           (users_streamed Sample.accepts_all Sample.config Sample.fresh
              [take 2 Sample.users_rows])
           users_structure [take 2 Sample.users_rows]
           (Exn PlainException
              "读取表数据失败: (2013, 'Lost connection to MySQL server during query')")).
  - vm_compute. reflexivity.
  - vm_compute. repeat split. discriminate.
  - vm_compute. reflexivity.
  - vm_compute. reflexivity.
Defined.

(** ** More on the mapping loader *)

Section LoaderFacts.
Import PyStr CSVMappingLoader.

Lemma split_nonempty (sep : ascii) (s : string) : split sep s <> [].
Proof.
  induction s as [|c s IH]; [discriminate|].
  cbn [split]. destruct (Ascii.eqb c sep); [discriminate|].
  now destruct (split sep s).
Qed.

Lemma split_no_sep (sep : ascii) (s : string) : has_char sep s = false -> split sep s = [s].
Proof.
  induction s as [|c s IH]; intros H; [reflexivity|].
  cbn [has_char] in H. apply orb_false_iff in H as [Hc Hs].
  cbn [split]. now rewrite Hc, (IH Hs).
Qed.

Lemma split_append (sep : ascii) (a b : string) :
  split sep (a +:+ String sep b) = split sep a ++ split sep b.
Proof.
  induction a as [|c a IH].
  - rewrite append_nil_l. cbn [split]. now rewrite Ascii.eqb_refl.
  - rewrite append_cons. cbn [split]. rewrite IH.
    destruct (Ascii.eqb c sep); [reflexivity|].
    pose proof (split_nonempty sep a) as Hne.
    now destruct (split sep a).
Qed.

Lemma basename_append (d f : string) :
  has_char "/" f = false -> basename (d +:+ String "/" f) = f.
Proof.
  intros H. unfold basename. rewrite split_append, (split_no_sep "/" f H).
  apply List.last_last.
Qed.

Lemma remove_csv_suffix (x : string) :
  has_char "." x = false -> remove_sub ".csv" 0 (x +:+ ".csv") = x.
Proof.
  induction x as [|c x IH]; intros H; [reflexivity|].
  cbn [has_char] in H. apply orb_false_iff in H as [Hc Hx].
  rewrite append_cons. cbn [remove_sub startswith].
  rewrite Ascii.eqb_sym, Hc. cbn [andb]. now rewrite (IH Hx).
Qed.

(** an identifier keeps its text: ASCII as it is, other code points as
    their UTF-8 bytes *)
Example sample_identifier_text :
  PyText.to_string (PyText.of_string "user_name") = "user_name"
  /\ PyText.to_string [29992%N; 25143%N; 95%N; 105%N; 100%N] = "用户_id"
  /\ PyText.to_string (PyText.strip [12288%N; 29992%N; 25143%N; 160%N]) = "用户".
Proof. vm_compute. repeat split. Qed.

(** a line that can be read: both columns are there and hold text *)
Definition readable (r : csv_row) : Prop :=
  (exists v, r !! "mysql" = Some (Some v)) /\ (exists v, r !! "clickhouse" = Some (Some v)).

Lemma readable_step (r : csv_row) (rest : list csv_row) (acc : gmap string (string * string)) :
  readable r ->
  exists acc', read_rows (r :: rest) acc = read_rows rest acc'.
Proof.
  intros [[v1 H1] [v2 H2]]. cbn [read_rows]. unfold stripped_field.
  rewrite H1, H2. cbn [bind]. eauto.
Qed.

(** the lines before the first one that cannot be read are read *)
Lemma read_rows_good (good rest : list csv_row) (acc : gmap string (string * string)) :
  Forall readable good ->
  exists acc', read_rows (good ++ rest) acc = read_rows rest acc'.
Proof.
  intros H. revert acc. induction H as [|r good Hr _ IH]; intros acc; [now exists acc|].
  cbn [app]. destruct (readable_step r (good ++ rest) acc Hr) as [acc1 ->]. apply IH.
Qed.

(** the rows are read when, and only when, every one has both columns *)
Lemma read_rows_ok (rows : list csv_row) (acc : gmap string (string * string)) :
  is_ok (read_rows rows acc) = true <-> Forall readable rows.
Proof.
  revert acc. induction rows as [|r rows IH]; intros acc.
  - split; [constructor | reflexivity].
  - cbn [read_rows]. unfold stripped_field, readable.
    destruct (r !! "mysql") as [[v1|]|] eqn:E1; cbn [bind].
    + destruct (r !! "clickhouse") as [[v2|]|] eqn:E2; cbn [bind].
      * rewrite IH. split.
        -- intros H. constructor; [split; eauto | exact H].
        -- intros H. now inversion H.
      * split; [discriminate|]. intros H. inversion H as [|? ? [_ [? Hx]] _]. congruence.
      * split; [discriminate|]. intros H. inversion H as [|? ? [_ [? Hx]] _]. congruence.
    + split; [discriminate|]. intros H. inversion H as [|? ? [[? Hx] _] _]. congruence.
    + split; [discriminate|]. intros H. inversion H as [|? ? [[? Hx] _] _]. congruence.
Qed.

(** every entry of the mapping comes from a row, with both names stripped
    and the placeholder type; every row leaves an entry *)
Lemma read_rows_entries (rows : list csv_row) (acc m : gmap string (string * string)) :
  read_rows rows acc = Ok m ->
  (forall k v, m !! k = Some v ->
     acc !! k = Some v
     \/ exists r v1 v2, r ∈ rows /\ r !! "mysql" = Some (Some v1)
                        /\ r !! "clickhouse" = Some (Some v2)
                        /\ k = PyText.to_string (PyText.strip v1)
                        /\ v = (PyText.to_string (PyText.strip v2), "String"))
  /\ (forall k, is_Some (acc !! k) -> is_Some (m !! k))
  /\ (forall r v1, r ∈ rows -> r !! "mysql" = Some (Some v1) ->
        is_Some (m !! PyText.to_string (PyText.strip v1))).
Proof.
  revert acc. induction rows as [|r rows IH]; intros acc.
  - intros [= <-]. split; [now left|]. split; [auto|]. intros r v1 H. inversion H.
  - cbn [read_rows]. unfold stripped_field.
    destruct (r !! "mysql") as [[v1|]|] eqn:E1; cbn [bind]; [|discriminate|discriminate].
    destruct (r !! "clickhouse") as [[v2|]|] eqn:E2; cbn [bind]; [|discriminate|discriminate].
    set (k1 := PyText.to_string (PyText.strip v1)).
    intros H. destruct (IH _ H) as (H1 & H2 & H3). split; [|split].
    + intros k v Hk. destruct (H1 k v Hk) as [Ha|(r' & a & b & Hin & Ha & Hb & -> & ->)].
      * destruct (decide (k = k1)) as [->|Hne].
        -- rewrite lookup_insert_eq in Ha. injection Ha as <-.
           right. exists r, v1, v2. repeat split; try assumption. left.
        -- rewrite lookup_insert_ne in Ha by congruence. now left.
      * right. exists r', a, b. repeat split; try assumption. now right.
    + intros k Hk. apply H2. destruct (decide (k1 = k)) as [->|Hne].
      * rewrite lookup_insert_eq. eauto.
      * now rewrite lookup_insert_ne.
    + intros r' a Hin Ha. apply elem_of_cons in Hin as [->|Hin].
      * apply H2. rewrite E1 in Ha. injection Ha as <-. rewrite lookup_insert_eq. eauto.
      * now apply (H3 r').
Qed.

(** a text without white space at either end *)
Definition trimmed (s : pystr) : Prop :=
  (forall c r, s = c :: r -> PyText.isspace c = false)
  /\ (forall c r, s = r ++ [c] -> PyText.isspace c = false).

(** what [str.strip] leaves has no white space at either end *)
Lemma lstrip_head (s : pystr) (c : N) (r : pystr) :
  PyText.lstrip s = c :: r -> PyText.isspace c = false.
Proof.
  induction s as [|a s IH]; [discriminate|]. cbn [PyText.lstrip].
  destruct (PyText.isspace a) eqn:E; [exact IH|]. intros [= <- _]. exact E.
Qed.

Lemma lstrip_suffix (s : pystr) : exists p, s = p ++ PyText.lstrip s.
Proof.
  induction s as [|a s [p IH]]; [now exists []|]. cbn [PyText.lstrip].
  destruct (PyText.isspace a); [|now exists []].
  exists (a :: p). cbn [app]. now f_equal.
Qed.

Lemma lstrip_fixed (s : pystr) (c : N) (r : pystr) :
  s = c :: r -> PyText.isspace c = false -> PyText.lstrip s = s.
Proof. intros -> H. cbn [PyText.lstrip]. now rewrite H. Qed.

Lemma strip_ends (s : pystr) : trimmed (PyText.strip s).
Proof.
  unfold trimmed, PyText.strip. set (t := PyText.lstrip s).
  assert (Hlast : forall c r, rev (PyText.lstrip (rev t)) = r ++ [c] ->
                              PyText.isspace c = false).
  { intros c r H. apply (f_equal (@rev N)) in H.
    rewrite rev_involutive, rev_app_distr in H. cbn in H.
    now apply lstrip_head in H. }
  split; [|exact Hlast].
  intros c r H.
  destruct (lstrip_suffix (rev t)) as [p Hp].
  apply (f_equal (@rev N)) in Hp. rewrite rev_involutive, rev_app_distr, H in Hp.
  destruct t as [|a t'] eqn:Et.
  - apply (f_equal (@length N)) in Hp. cbn in Hp. rewrite length_app in Hp. cbn in Hp. lia.
  - cbn [app] in Hp. injection Hp as <- _.
    subst t. now apply lstrip_head in Et.
Qed.

End LoaderFacts.

(** X14.  A mapping file whose name has no dash is refused before it is
    opened and before anything is sent to the target: whatever the file
    holds, [migrate_table] returns a failed result without a table mapping,
    whose message names the file. *)
Theorem mapping_name_without_dash_fails
    (rt : Runtime) (my : MySQL) (rejects : fault) (read_csv : filesystem) (cfg : Config)
    (csv_file : string) (st : ch_state) :
  PyStr.contains "-" (PyStr.basename csv_file) = false ->
  DataMigrator.migrate_table rt my rejects read_csv cfg csv_file st
  = ({| table_mapping := None; success := false; mysql_rows := 0; clickhouse_rows := 0;
        error_message :=
          "加载CSV映射文件失败 " +:+ csv_file +:+ ": "
          +:+ "CSV文件名格式不正确: " +:+ PyStr.basename csv_file |}, st).
Proof.
  intros H. unfold DataMigrator.migrate_table.
  rewrite (load_raise read_csv csv_file
             (Exn ValueError ("CSV文件名格式不正确: " +:+ PyStr.basename csv_file))).
  - reflexivity.
  - unfold CSVMappingLoader.load_body. now rewrite H.
Qed.

Lemma mapping_name_without_dash_fails_witness :
  DataMigrator.migrate_table Sample.runtime Sample.mysql Sample.accepts_all Sample.read_csv
    Sample.config "./clickhouse_mapper/users.csv" Sample.fresh
  = ({| table_mapping := None; success := false; mysql_rows := 0; clickhouse_rows := 0;
        error_message :=
          "加载CSV映射文件失败 ./clickhouse_mapper/users.csv: CSV文件名格式不正确: users.csv" |},
     Sample.fresh).
Proof.
  apply (mapping_name_without_dash_fails Sample.runtime Sample.mysql Sample.accepts_all
           Sample.read_csv Sample.config "./clickhouse_mapper/users.csv" Sample.fresh).
  reflexivity.
Defined.

(** X15.  The loop over the lines of a mapping file goes through when,
    and only when, every line has both a [mysql] and a [clickhouse] cell
    that hold text.  Otherwise it raises the error of the first line that
    cannot be read: the [KeyError] of the column the header does not have
    ([mysql] is looked up first), or the [AttributeError] of calling [strip]
    on the [None] that stands for a cell the line is too short for. *)
Theorem mapping_rows_need_both_columns (rows : list csv_row) :
  (is_ok (CSVMappingLoader.read_rows rows ∅) = true <-> Forall readable rows)
  /\ (forall (good : list csv_row) (r : csv_row) (rest : list csv_row),
        rows = good ++ r :: rest -> Forall readable good ->
        (r !! "mysql" = None ->
         CSVMappingLoader.read_rows rows ∅ = Raise (Exn KeyError "'mysql'"))
        /\ (r !! "mysql" = Some None ->
            CSVMappingLoader.read_rows rows ∅
            = Raise (Exn AttributeError "'NoneType' object has no attribute 'strip'"))
        /\ (forall v, r !! "mysql" = Some (Some v) ->
              (r !! "clickhouse" = None ->
               CSVMappingLoader.read_rows rows ∅ = Raise (Exn KeyError "'clickhouse'"))
              /\ (r !! "clickhouse" = Some None ->
                  CSVMappingLoader.read_rows rows ∅
                  = Raise (Exn AttributeError
                             "'NoneType' object has no attribute 'strip'")))).
Proof.
  split; [apply read_rows_ok|].
  intros good r rest -> Hgood.
  destruct (read_rows_good good (r :: rest) ∅ Hgood) as [acc ->].
  cbn [CSVMappingLoader.read_rows]. unfold CSVMappingLoader.stripped_field.
  split; [|split].
  - intros ->. reflexivity.
  - intros ->. reflexivity.
  - intros v ->. cbn [bind]. split; intros ->; reflexivity.
Qed.

(** X16.  A loaded mapping has one entry for every line of the file and no
    other: the key is the source field name and the value the target field
    name, both with surrounding white space removed (Unicode white space,
    such as the no-break space and the ideographic space, included), and
    the type is the placeholder [String]. *)
Theorem mapping_entries_are_the_stripped_rows (rows : list csv_row)
    (m : gmap string (string * string)) :
  CSVMappingLoader.read_rows rows ∅ = Ok m ->
  (forall k v, m !! k = Some v ->
     exists r v1 v2, r ∈ rows /\ r !! "mysql" = Some (Some v1)
                     /\ r !! "clickhouse" = Some (Some v2)
                     /\ k = PyText.to_string (PyText.strip v1)
                     /\ v = (PyText.to_string (PyText.strip v2), "String")
                     /\ trimmed (PyText.strip v1) /\ trimmed (PyText.strip v2))
  /\ (forall r v1, r ∈ rows -> r !! "mysql" = Some (Some v1) ->
        is_Some (m !! PyText.to_string (PyText.strip v1))).
Proof.
  intros H. destruct (read_rows_entries rows ∅ m H) as (H1 & _ & H3).
  split; [|exact H3].
  intros k v Hk. destruct (H1 k v Hk) as [Hx|(r & v1 & v2 & Hx)].
  - rewrite lookup_empty in Hx. discriminate.
  - exists r, v1, v2. repeat split; try apply Hx; apply strip_ends.
Qed.

Lemma mapping_entries_are_the_stripped_rows_witness :
  exists m,
    CSVMappingLoader.read_rows
      [ {[ "mysql" := Some (PyText.of_string "id");
           "clickhouse" := Some (PyText.of_string "id") ]};
        {[ "mysql" := Some (12288%N :: PyText.of_string "name" ++ [160%N; 32%N]);
           "clickhouse" := Some (PyText.of_string "user_name") ]} ] ∅ = Ok m
    /\ is_Some (m !! "name").
Proof.
  destruct (CSVMappingLoader.read_rows
              [ {[ "mysql" := Some (PyText.of_string "id");
                   "clickhouse" := Some (PyText.of_string "id") ]};
                {[ "mysql" := Some (12288%N :: PyText.of_string "name" ++ [160%N; 32%N]);
                   "clickhouse" := Some (PyText.of_string "user_name") ]} ] ∅)
    as [m|e] eqn:E; [|vm_compute in E; discriminate E].
  exists m. split; [reflexivity|].
  apply (proj2 (mapping_entries_are_the_stripped_rows _ m E)
           {[ "mysql" := Some (12288%N :: PyText.of_string "name" ++ [160%N; 32%N]);
              "clickhouse" := Some (PyText.of_string "user_name") ]}
           (12288%N :: PyText.of_string "name" ++ [160%N; 32%N])).
  - apply elem_of_cons. right. apply elem_of_cons. now left.
  - reflexivity.
Defined.

(** a table name that can stand in a mapping file name: no slash, no dash
    and no dot *)
Definition plain_name (s : string) : bool :=
  negb (has_char "/" s || has_char "-" s || has_char "." s).

(** X17.  The two table names are read off the file name: the mapping file
    [<dir>/<a>-<b>.csv] is loaded as the mapping from source table [a] to
    target table [b], with the field mappings of its lines; the only ways
    it fails are that the file cannot be read or that one of its lines
    cannot be read. *)
Theorem table_names_come_from_the_file_name (read_csv : filesystem) (dir a b : string) :
  plain_name a = true -> plain_name b = true ->
  let csv_file := dir +:+ "/" +:+ a +:+ "-" +:+ b +:+ ".csv" in
  CSVMappingLoader.load_csv_mapping read_csv csv_file
  = match read_csv csv_file with
    | Raise e => reraise ("加载CSV映射文件失败 " +:+ csv_file +:+ ": ") e
    | Ok rows =>
        match CSVMappingLoader.read_rows rows ∅ with
        | Raise e => reraise ("加载CSV映射文件失败 " +:+ csv_file +:+ ": ") e
        | Ok fm => Ok {| mysql_table := a; clickhouse_table := b; field_mappings := fm |}
        end
    end.
Proof.
  intros Ha Hb csv_file. unfold plain_name in Ha, Hb.
  apply negb_true_iff in Ha. apply negb_true_iff in Hb.
  apply orb_false_iff in Ha as [Ha Ha3]. apply orb_false_iff in Ha as [Ha1 Ha2].
  apply orb_false_iff in Hb as [Hb Hb3]. apply orb_false_iff in Hb as [Hb1 Hb2].
  set (f := a +:+ "-" +:+ b +:+ ".csv").
  assert (Hbase : PyStr.basename csv_file = f).
  { subst csv_file. change (dir +:+ "/" +:+ a +:+ "-" +:+ b +:+ ".csv")
      with (dir +:+ String "/" f).
    apply basename_append. subst f.
    change ("-" +:+ b +:+ ".csv") with (String "-" (b +:+ ".csv")).
    rewrite has_char_append. cbn [has_char]. rewrite has_char_append, Ha1, Hb1.
    reflexivity. }
  assert (Hdash : PyStr.contains "-" f = true).
  { subst f. change ("-" +:+ b +:+ ".csv") with (String "-" (b +:+ ".csv")).
    rewrite contains_char, has_char_append. cbn [has_char].
    rewrite Ascii.eqb_refl. now rewrite orb_true_r. }
  assert (Hparts : PyStr.split "-" (PyStr.remove_sub ".csv" 0 f) = [a; b]).
  { subst f. replace (a +:+ "-" +:+ b +:+ ".csv") with ((a +:+ String "-" b) +:+ ".csv")
      by (rewrite append_assoc; reflexivity).
    rewrite remove_csv_suffix.
    - rewrite split_append, (split_no_sep "-" a Ha2), (split_no_sep "-" b Hb2). reflexivity.
    - rewrite has_char_append. cbn [has_char]. now rewrite Ha3, Hb3. }
  unfold CSVMappingLoader.load_csv_mapping, CSVMappingLoader.load_body.
  rewrite Hbase, Hdash, Hparts. cbn [lookup list_lookup of_option bind].
  destruct (read_csv csv_file) as [rows|e]; cbn [bind]; [|reflexivity].
  destruct (CSVMappingLoader.read_rows rows ∅); reflexivity.
Qed.

Lemma table_names_come_from_the_file_name_witness :
  CSVMappingLoader.load_csv_mapping Sample.read_csv
    ("./clickhouse_mapper" +:+ "/" +:+ "users" +:+ "-" +:+ "users" +:+ ".csv")
  = Ok Sample.users_mapping.
Proof.
  rewrite (table_names_come_from_the_file_name Sample.read_csv "./clickhouse_mapper"
             "users" "users"); [|reflexivity|reflexivity].
  vm_compute. reflexivity.
Defined.

(** ** The columns of the created table and of the inserts *)

Section ColumnFacts.
Import DataMigrator.
Context (tm : TableMapping).

(** the name of a source column *)
Definition column_name (col : string * string * string) : string := fst (fst col).

(** the final field mapping knows a source column when, and only when, the
    loaded mapping does, and it gives it the target name of the loaded
    mapping *)
Lemma final_mapping_spec (ms : list (string * string * string))
    (acc : list (string * string * string)) (final0 : gmap string (string * string)) :
  let final := snd (foldl (fields_step tm) (acc, final0) ms) in
  (forall f v, final !! f = Some v ->
     final0 !! f = Some v
     \/ exists ty c x, (f, ty, c) ∈ ms /\ field_mappings tm !! f = Some (fst v, x)
                       /\ snd v = TypeMapper.map_mysql_type_to_clickhouse ty)
  /\ (forall f v, final0 !! f = Some v -> f ∉ map column_name ms -> final !! f = Some v)
  /\ (forall f ty c cf x, (f, ty, c) ∈ ms -> field_mappings tm !! f = Some (cf, x) ->
        exists ty', final !! f = Some (cf, ty')
                    /\ (NoDup (map column_name ms) ->
                        ty' = TypeMapper.map_mysql_type_to_clickhouse ty)).
Proof.
  revert acc final0. induction ms as [|[[f0 ty0] c0] ms IH]; intros acc final0 final.
  - subst final. cbn. split; [now left|]. split; [auto|]. intros f ty c cf x H. inversion H.
  - subst final. cbn [foldl].
    destruct (fields_step tm (acc, final0) (f0, ty0, c0)) as [acc1 final1] eqn:Hs.
    destruct (IH acc1 final1) as (H1 & H2 & H3).
    unfold fields_step in Hs.
    split; [|split].
    + intros f v Hv. destruct (H1 f v Hv) as [Hf|(ty & c & x & Hin & Hm & Ht)].
      * destruct (field_mappings tm !! f0) as [[cf0 x0]|] eqn:E0; injection Hs as <- <-.
        -- destruct (decide (f0 = f)) as [->|Hne].
           ++ rewrite lookup_insert_eq in Hf. injection Hf as <-.
              right. exists ty0, c0, x0. repeat split; [left | exact E0].
           ++ rewrite lookup_insert_ne in Hf by exact Hne. now left.
        -- now left.
      * right. exists ty, c, x. repeat split; try assumption. now right.
    + intros f v Hv Hnot. cbn [map] in Hnot. apply not_elem_of_cons in Hnot as [Hne Hnot].
      apply H2; [|exact Hnot].
      destruct (field_mappings tm !! f0) as [[cf0 x0]|]; injection Hs as <- <-;
        [|exact Hv].
      rewrite lookup_insert_ne; [exact Hv|]. exact (not_eq_sym Hne).
    + intros f ty c cf x Hin Hm. apply elem_of_cons in Hin as [Heq|Hin].
      * injection Heq as -> -> ->. rewrite Hm in Hs. injection Hs as <- <-.
        destruct (decide (f0 ∈ map column_name ms)) as [Hd|Hd].
        -- apply list_elem_of_fmap in Hd as ([[f' ty'] c'] & Hn & Hin').
           cbn in Hn. subst f'.
           destruct (H3 f0 ty' c' cf x Hin' Hm) as (t' & Ht' & _).
           exists t'. split; [exact Ht'|].
           intros Hnd. cbn [map] in Hnd. apply NoDup_cons in Hnd as [Hnot _].
           exfalso. apply Hnot. apply list_elem_of_fmap. now exists (f0, ty', c').
        -- exists (TypeMapper.map_mysql_type_to_clickhouse ty0). split; [|reflexivity].
           apply H2; [apply lookup_insert_eq | exact Hd].
      * destruct (H3 f ty c cf x Hin Hm) as (t' & Ht' & Hnd').
        exists t'. split; [exact Ht'|].
        intros Hnd. cbn [map] in Hnd. apply NoDup_cons in Hnd as [_ Hnd]. now apply Hnd'.
Qed.

End ColumnFacts.

Lemma mapped_columns_names (tm : TableMapping) (final : gmap string (string * string))
    (ms : list (string * string * string)) (h : nat -> nat) :
  (forall f ty c, (f, ty, c) ∈ ms ->
     match field_mappings tm !! f with
     | Some (cf, _) => exists ty', final !! f = Some (cf, ty')
     | None => final !! f = None
     end) ->
  map (fun c => fst (snd c))
    (omap (fun '(i, (mysql_field, _, _)) =>
             match final !! mysql_field with
             | Some m => Some (i, m)
             | None => None
             end) (imap (fun i col => (h i, col)) ms))
  = map (fun f => fst (fst f)) (omap (mapped_field tm) ms).
Proof.
  revert h. induction ms as [|[[f ty] c] ms IH]; intros h H; [reflexivity|].
  cbn [imap omap list_omap]. unfold mapped_field at 1.
  pose proof (H f ty c ltac:(left)) as Hf.
  assert (IH' := IH (h ∘ S) (fun f' ty' c' Hin => H f' ty' c' ltac:(now right))).
  destruct (field_mappings tm !! f) as [[cf x]|].
  - destruct Hf as [ty' ->]. cbn [map fst snd]. f_equal. exact IH'.
  - rewrite Hf. exact IH'.
Qed.

Lemma mapped_columns_types (tm : TableMapping) (final : gmap string (string * string))
    (ms : list (string * string * string)) (h : nat -> nat) :
  (forall f ty c, (f, ty, c) ∈ ms ->
     match field_mappings tm !! f with
     | Some (cf, _) => final !! f = Some (cf, TypeMapper.map_mysql_type_to_clickhouse ty)
     | None => final !! f = None
     end) ->
  map snd
    (omap (fun '(i, (mysql_field, _, _)) =>
             match final !! mysql_field with
             | Some m => Some (i, m)
             | None => None
             end) (imap (fun i col => (h i, col)) ms))
  = map fst (omap (mapped_field tm) ms).
Proof.
  revert h. induction ms as [|[[f ty] c] ms IH]; intros h H; [reflexivity|].
  cbn [imap omap list_omap]. unfold mapped_field at 1.
  pose proof (H f ty c ltac:(left)) as Hf.
  assert (IH' := IH (h ∘ S) (fun f' ty' c' Hin => H f' ty' c' ltac:(now right))).
  destruct (field_mappings tm !! f) as [[cf x]|].
  - rewrite Hf. cbn [map fst snd]. f_equal. exact IH'.
  - rewrite Hf. exact IH'.
Qed.

(** X18.  The column list of every insert is the column list of the
    created table: the target names of the mapped source columns, in
    source order.  When no two source columns share a name, the types the
    values are coerced with are the types the table was created with. *)
Theorem insert_columns_are_the_created_columns (tm : TableMapping)
    (mysql_structure : list (string * string * string)) :
  map (fun c => fst (snd c)) (stream_columns tm mysql_structure)
  = map (fun f => fst (fst f)) (mapped_fields tm mysql_structure)
  /\ (NoDup (map column_name mysql_structure) ->
      map snd (stream_columns tm mysql_structure)
      = map fst (mapped_fields tm mysql_structure)).
Proof.
  unfold stream_columns, mapped_fields, DataMigrator.mapped_columns.
  rewrite (fields_loop tm mysql_structure [] ∅). cbn [app].
  destruct (final_mapping_spec tm mysql_structure [] ∅) as (H1 & _ & H3).
  cbn zeta in H1, H3.
  set (final := snd (foldl (DataMigrator.fields_step tm) ([], ∅) mysql_structure)) in *.
  assert (Hnone : forall f, field_mappings tm !! f = None -> final !! f = None).
  { intros f Hf. destruct (final !! f) as [v|] eqn:E; [|reflexivity].
    destruct (H1 f v E) as [Hx|(ty & c & x & _ & Hm & _)]; [|congruence].
    rewrite lookup_empty in Hx. discriminate. }
  split.
  - apply (mapped_columns_names tm final mysql_structure (fun i => i)).
    intros f ty c Hin. destruct (field_mappings tm !! f) as [[cf x]|] eqn:E.
    + destruct (H3 f ty c cf x Hin E) as (ty' & Hf & _). eauto.
    + now apply Hnone.
  - intros Hnd.
    apply (mapped_columns_types tm final mysql_structure (fun i => i)).
    intros f ty c Hin. destruct (field_mappings tm !! f) as [[cf x]|] eqn:E.
    + destruct (H3 f ty c cf x Hin E) as (ty' & Hf & Hty). now rewrite Hf, (Hty Hnd).
    + now apply Hnone.
Qed.

Lemma insert_columns_are_the_created_columns_witness :
  map snd (stream_columns Sample.users_mapping users_structure)
  = map fst (mapped_fields Sample.users_mapping users_structure).
Proof.
  apply (proj2 (insert_columns_are_the_created_columns Sample.users_mapping users_structure)).
  apply (bool_decide_unpack _). vm_compute. exact I.
Defined.

(** ** Cutting rows down to the mapped columns *)

Section RowFacts.
Import DataMigrator.

Lemma mapped_columns_indices (final : gmap string (string * string))
    (ms : list (string * string * string)) (h : nat -> nat) (c : nat * (string * string)) :
  c ∈ omap (fun '(i, (mysql_field, _, _)) =>
              match final !! mysql_field with
              | Some m => Some (i, m)
              | None => None
              end) (imap (fun i col => (h i, col)) ms) ->
  exists j, (j < length ms)%nat /\ fst c = h j.
Proof.
  revert h. induction ms as [|[[f ty] col] ms IH]; intros h H; [inversion H|].
  cbn [imap omap list_omap] in H.
  destruct (final !! f).
  - apply elem_of_cons in H as [->|H].
    + exists 0%nat. cbn. split; [lia | reflexivity].
    + destruct (IH (h ∘ S) H) as (j & Hj & E). exists (S j). cbn. split; [lia | exact E].
  - destruct (IH (h ∘ S) H) as (j & Hj & E). exists (S j). cbn. split; [lia | exact E].
Qed.

Lemma map_row_ok (cols : list (nat * (string * string))) (r : row) :
  Forall (fun c => (fst c < length r)%nat) cols ->
  exists vs, map_row cols r = Ok vs /\ length vs = length cols.
Proof.
  induction 1 as [|[i m] cols Hi _ IH]; [now exists []|].
  destruct IH as (vs & Hvs & Hlen). cbn [fst] in Hi.
  destruct (lookup_lt_is_Some_2 r i Hi) as [v Hv].
  exists (v :: vs). cbn [map_row]. rewrite Hv, Hvs. cbn. now rewrite Hlen.
Qed.

Lemma map_row_short (cols : list (nat * (string * string))) (r : row) :
  Exists (fun c => (length r <= fst c)%nat) cols ->
  map_row cols r = Raise (Exn IndexError "tuple index out of range").
Proof.
  induction cols as [|[i m] cols IH]; intros H; [inversion H|].
  cbn [map_row]. destruct (r !! i) as [v|] eqn:E; [|reflexivity].
  cbn [of_option bind]. apply Exists_cons in H as [H|H].
  - cbn [fst] in H. apply lookup_lt_Some in E. lia.
  - now rewrite (IH H).
Qed.

Lemma map_row_error (cols : list (nat * (string * string))) (r : row) (e : exn) :
  map_row cols r = Raise e -> e = Exn IndexError "tuple index out of range".
Proof.
  induction cols as [|[i m] cols IH]; [discriminate|].
  cbn [map_row]. destruct (r !! i); cbn [of_option bind]; [|now intros [= <-]].
  destruct (map_row cols r); cbn [bind]; [discriminate|]. intros [= <-]. now apply IH.
Qed.

End RowFacts.

(** X19.  Rows that have a cell for every source column are always cut
    down to the mapped columns: mapping a batch of such rows raises
    nothing, keeps every row, and leaves each with one cell per mapped
    column.  A row too short for a mapped column makes the batch fail with
    [IndexError], before anything of the batch is inserted. *)
Theorem full_rows_are_always_mapped (tm : TableMapping)
    (mysql_structure : list (string * string * string)) (batch_data : list row) :
  let cols := stream_columns tm mysql_structure in
  (Forall (fun r => (length mysql_structure <= length r)%nat) batch_data ->
   exists mapped,
     DataMigrator.map_rows cols batch_data = Ok mapped
     /\ length mapped = length batch_data
     /\ Forall (fun m => length m = length cols) mapped)
  /\ (Exists (fun r => Exists (fun c => (length r <= fst c)%nat) cols) batch_data ->
      DataMigrator.map_rows cols batch_data
      = Raise (Exn IndexError "tuple index out of range")).
Proof.
  intros cols. split.
  - induction 1 as [|r batch Hr _ IH]; [exists []; repeat split; constructor|].
    destruct IH as (mapped & Hm & Hlen & Hall).
    destruct (map_row_ok cols r) as (vs & Hvs & Hl).
    { apply Forall_forall. intros c Hc.
      destruct (mapped_columns_indices _ mysql_structure (fun i => i) c Hc) as (j & Hj & ->).
      lia. }
    exists (vs :: mapped). cbn [DataMigrator.map_rows]. rewrite Hvs, Hm. cbn.
    repeat split; [now rewrite Hlen | now constructor].
  - induction batch_data as [|r batch IH]; intros H; [inversion H|].
    cbn [DataMigrator.map_rows]. apply Exists_cons in H as [H|H].
    + now rewrite (map_row_short cols r H).
    + destruct (DataMigrator.map_row cols r) as [vs|e] eqn:E; cbn [bind].
      * now rewrite (IH H).
      * now rewrite (map_row_error cols r e E).
Qed.

Lemma full_rows_are_always_mapped_witness :
  (exists mapped,
     DataMigrator.map_rows (stream_columns Sample.users_mapping users_structure)
       Sample.users_rows = Ok mapped
     /\ length mapped = 3%nat
     /\ Forall (fun m => length m
                         = length (stream_columns Sample.users_mapping users_structure))
          mapped)
  /\ DataMigrator.map_rows (stream_columns Sample.users_mapping users_structure)
       [[VInt 1]] = Raise (Exn IndexError "tuple index out of range").
Proof.
  destruct (full_rows_are_always_mapped Sample.users_mapping users_structure
              Sample.users_rows) as [H _].
  destruct (full_rows_are_always_mapped Sample.users_mapping users_structure [[VInt 1]])
    as [_ H'].
  split.
  - apply H. repeat constructor.
  - apply H'. apply Exists_cons. left. apply Exists_cons. right. apply Exists_cons. left.
    cbn. lia.
Defined.

(** ** The batches of the source generator *)

Lemma batches_shape (n fuel : nat) (rows : list row) :
  (0 < n)%nat -> (length rows <= fuel)%nat ->
  Forall (fun b => (0 < length b <= n)%nat) (MySQLClient.batches fuel n rows)
  /\ (forall i b, MySQLClient.batches fuel n rows !! i = Some b ->
        (S i < length (MySQLClient.batches fuel n rows))%nat -> length b = n).
Proof.
  intros Hn. revert rows. induction fuel as [|fuel IH]; intros rows Hlen.
  - cbn. split; [constructor|]. intros i b H. discriminate H.
  - destruct rows as [|r rows]; [cbn; split; [constructor|]; intros i b H; discriminate H|].
    cbn [MySQLClient.batches].
    destruct (IH (drop n (r :: rows))) as [Hall Hfull].
    { rewrite length_drop. cbn [length] in *. lia. }
    split.
    + constructor; [|exact Hall]. rewrite length_take. cbn [length]. lia.
    + intros [|i] b Hb Hi.
      * injection Hb as <-. rewrite length_take. cbn [length] in Hi |- *.
        destruct (le_lt_dec n (S (length rows))) as [Hle|Hlt]; [lia|].
        exfalso. rewrite drop_ge in Hi by (cbn [length]; lia).
        destruct fuel; cbn in Hi; lia.
      * cbn [lookup list_lookup] in Hb. cbn [length] in Hi.
        apply (Hfull i b Hb). lia.
Qed.

(** X20.  The source generator yields every row that the cursor delivers,
    in order and once; no batch is empty, none has more than [batch_size]
    rows, and every batch but the last has exactly [batch_size]. *)
Theorem generator_yields_all_rows_in_batches (my : MySQL) (table_name : string)
    (batch_size : positive) (total : Z) :
  my_count my table_name = Ok total ->
  let batches := fst (MySQLClient.get_table_data my table_name batch_size) in
  concat batches = fst (my_select my table_name)
  /\ Forall (fun b => (0 < length b <= Pos.to_nat batch_size)%nat) batches
  /\ (forall i b, batches !! i = Some b -> (S i < length batches)%nat ->
        length b = Pos.to_nat batch_size).
Proof.
  intros Hc batches. subst batches. unfold MySQLClient.get_table_data. rewrite Hc.
  destruct (my_select my table_name) as [rows err]. cbn [fst].
  destruct (batches_shape (Pos.to_nat batch_size) (length rows) rows) as [H1 H2]; [lia..|].
  split; [apply batches_complete; lia|]. split; assumption.
Qed.

Lemma generator_yields_all_rows_in_batches_witness :
  fst (MySQLClient.get_table_data Sample.mysql "users" 2)
  = [take 2 Sample.users_rows; drop 2 Sample.users_rows]
  /\ concat (fst (MySQLClient.get_table_data Sample.mysql "users" 2)) = Sample.users_rows.
Proof.
  split; [reflexivity|].
  apply (generator_yields_all_rows_in_batches Sample.mysql "users" 2 3). reflexivity.
Defined.

(** ** The summary of a run *)

(** the two lists [print_migration_summary] counts and prints *)
Definition successful_migrations (results : list MigrationResult) : list MigrationResult :=
  filter (fun r => success r = true) results.

Definition failed_migrations (results : list MigrationResult) : list MigrationResult :=
  filter (fun r => negb (success r) = true) results.

Lemma summary_partition (results : list MigrationResult) :
  (length (successful_migrations results) + length (failed_migrations results))%nat
  = length results.
Proof.
  unfold successful_migrations, failed_migrations.
  induction results as [|r rs IH]; [reflexivity|].
  destruct (success r) eqn:E.
  - rewrite filter_cons_True by exact E.
    rewrite filter_cons_False by (rewrite E; discriminate). cbn. lia.
  - rewrite filter_cons_False by (rewrite E; discriminate).
    rewrite filter_cons_True by (rewrite E; reflexivity). cbn. lia.
Qed.

(** X21.  The summary accounts for every mapping file exactly once: the
    number of tables reported as migrated plus the number reported as
    failed is the number of [.csv] files of the directory, and each
    result is in the list its [success] flag says. *)
Theorem summary_accounts_for_every_file
    (rt : Runtime) (my : MySQL) (rejects : fault) (read_csv : filesystem) (cfg : Config)
    (csv_directory : string) (listing : list string) (st : ch_state) :
  let results :=
    fst (DataMigrator.migrate_all_tables rt my rejects read_csv cfg csv_directory listing st) in
  (length (successful_migrations results) + length (failed_migrations results))%nat
  = length (filter (fun f => PyStr.endswith ".csv" f = true) listing)
  /\ (forall r, r ∈ results ->
        (r ∈ successful_migrations results <-> success r = true)
        /\ (r ∈ failed_migrations results <-> success r = false)).
Proof.
  intros results. split.
  - rewrite summary_partition. subst results. unfold DataMigrator.migrate_all_tables.
    apply migrate_files_results.
  - intros r Hr. unfold successful_migrations, failed_migrations.
    rewrite !list_elem_of_filter. split; split; try tauto.
    + intros [H _]. now apply negb_true_iff in H.
    + intros H. split; [now rewrite H | exact Hr].
Qed.

(** X22.  With [auto_recreate_table] and [skip_existing_tables] both off,
    a target table that is found to exist is neither replaced nor added
    to: the migration fails when it tries to create the table, and the
    tables of the target stay as they were. *)
Theorem existing_table_is_not_overwritten
    (rt : Runtime) (my : MySQL) (rejects : fault) (read_csv : filesystem) (cfg : Config)
    (csv_file : string) (tm : TableMapping) (st : ch_state)
    (mysql_structure : list (string * string * string)) :
  CSVMappingLoader.load_csv_mapping read_csv csv_file = Ok tm ->
  MySQLClient.get_table_row_count my (mysql_table tm) <> 0 ->
  fst (ClickHouseClientV3.table_exists rejects (clickhouse_table tm) st) = true ->
  skip_existing cfg = false ->
  auto_recreate cfg = false ->
  MySQLClient.get_table_structure my (mysql_table tm) = Ok mysql_structure ->
  exists underlying st',
    DataMigrator.migrate_table rt my rejects read_csv cfg csv_file st
    = ({| table_mapping := Some tm; success := false; mysql_rows := 0; clickhouse_rows := 0;
          error_message := "创建表失败: " +:+ underlying |}, st')
    /\ ch_tables st' = ch_tables st.
Proof.
  intros Hl Hn Hex Hskip Hrec Hs.
  assert (Hns : not_skipped my rejects cfg tm st).
  { split; [exact Hn|]. rewrite Hex, Hskip. reflexivity. }
  assert (Hprep : prepared rejects cfg tm st
                  = snd (execute rejects (ExistsTable (clickhouse_table tm)) st)).
  { unfold prepared. rewrite <- table_exists_state.
    destruct (ClickHouseClientV3.table_exists rejects (clickhouse_table tm) st).
    cbn [fst snd] in *. subst. now rewrite Hrec. }
  assert (Hpresent : is_Some (ch_tables st !! clickhouse_table tm)).
  { revert Hex. unfold ClickHouseClientV3.table_exists, execute.
    destruct (rejects st _); [discriminate|].
    destruct (ch_tables st !! clickhouse_table tm); [eauto | discriminate]. }
  assert (Htab : ch_tables (prepared rejects cfg tm st) = ch_tables st)
    by (rewrite Hprep; now apply execute_read_only).
  destruct (ClickHouseClientV3.create_table rejects (clickhouse_table tm)
              (mapped_fields tm mysql_structure)
              (MySQLClient.get_table_comment my (mysql_table tm))
              (prepared rejects cfg tm st)) as [[[]|e] st'] eqn:Hc.
  - exfalso. apply create_table_ok in Hc as [Hnone _]. rewrite Htab in Hnone.
    destruct Hpresent as [x Hx]. congruence.
  - destruct (create_table_raise_msg _ _ _ _ _ _ _ Hc) as [u Hu].
    exists u, st'. split.
    + rewrite (migrate_table_raise rt my rejects read_csv cfg csv_file tm st st' e Hl).
      * unfold DataMigrator.failed. now rewrite Hu.
      * rewrite (migrate_body_not_skipped rt my rejects cfg tm st Hns).
        now apply (build_create_raise rt my rejects cfg tm _ _ st' mysql_structure e).
    + rewrite <- Htab. revert Hc. unfold ClickHouseClientV3.create_table.
      destruct (foldl ClickHouseClientV3.create_step ([], None) _) as [defs [key|]].
      * destruct (execute rejects (CreateTable _ _ _ _) _) as [[a|x] s1] eqn:Hx;
          [intros H; discriminate H|].
        intros [= _ <-]. now apply (execute_raise_tables _ _ _ _ _ Hx).
      * now intros [= _ <-].
Qed.

Lemma existing_table_is_not_overwritten_witness :
  exists underlying st',
    DataMigrator.migrate_table Sample.runtime Sample.mysql Sample.accepts_all Sample.read_csv
      Sample.config_keep Sample.users_csv (ChState {[ "users" := [[VInt 99]] ]} [])
    = ({| table_mapping := Some Sample.users_mapping; success := false; mysql_rows := 0;
          clickhouse_rows := 0; error_message := "创建表失败: " +:+ underlying |}, st')
    /\ ch_tables st' = ch_tables (ChState {[ "users" := [[VInt 99]] ]} []).
Proof.
  apply (existing_table_is_not_overwritten Sample.runtime Sample.mysql Sample.accepts_all
           Sample.read_csv Sample.config_keep Sample.users_csv Sample.users_mapping
           (ChState {[ "users" := [[VInt 99]] ]} []) users_structure).
  - vm_compute. reflexivity.
  - discriminate.
  - reflexivity.
  - reflexivity.
  - reflexivity.
  - reflexivity.
Defined.

(** ** Dates *)

(** X23.  In a [Date32] column a [datetime] keeps its day, but a [date]
    does not survive: the coercer looks for a [date] attribute, which a
    [date] object does not have, so every [date] read from the source is
    stored as the sentinel 2000-01-01.  In a timestamp column both pass
    through unchanged. *)
Theorem date_cells_become_the_sentinel (rt : Runtime) (field_type : string)
    (d : date) (t : datetime) :
  PyStr.lower field_type = "date32" ->
  Coercer._convert_value_for_clickhouse rt (VDate d) field_type
  = Ok (VDate (Date 2000 1 1))
  /\ Coercer._convert_value_for_clickhouse rt (VDateTime t) field_type
     = Ok (VDate (dt_date t))
  /\ Coercer._convert_value_for_clickhouse rt (VDate d) "DateTime64(6)" = Ok (VDate d)
  /\ Coercer._convert_value_for_clickhouse rt (VDateTime t) "DateTime64(6)"
     = Ok (VDateTime t).
Proof.
  intros H. unfold Coercer._convert_value_for_clickhouse, Coercer.convert_body.
  rewrite H. repeat split.
Qed.

Lemma date_cells_become_the_sentinel_witness :
  Coercer._convert_value_for_clickhouse Sample.runtime (VDate (Date 2024 2 29)) "Date32"
  = Ok (VDate (Date 2000 1 1)).
Proof.
  apply (date_cells_become_the_sentinel Sample.runtime "Date32" (Date 2024 2 29) Sample.t0).
  reflexivity.
Defined.
